(** * HubSpot to SFMC template migration: the POST handler of
      [src/app/api/migrate/templates/route.ts]

    The handler is embedded as a function over an explicit world: every
    collaborator it awaits ([getIntegrationTokens], [getSFMCToken],
    [getSFMCFolders], [createSFMCFolder], [axios.get], [createEmailTemplate])
    is a transition on an abstract world state, and the handler records each
    call in a log, so that "is never invoked" and "is tried in order" are
    statements about that log.  Control flow of the source (try/catch, early
    [return NextResponse.json(...)], [continue]) is kept by a three-way
    result: a value, a thrown error, or a returned response. *)

From stdpp Require Import base strings list gmap pretty.
From Stdlib Require Import ZArith Lia Ascii.

Set Warnings "-register-all".
Local Open Scope string_scope.
Local Open Scope list_scope.
Local Open Scope Z_scope.

(** ** JSON values as JavaScript sees them *)

Module Js.

(** Numbers are restricted to integers: [JNum z] is the Number that the
    literal [z] parses to, which is [z] itself up to 2^53 in size.  Objects
    nested inside a value are association lists. *)
Inductive JValue : Type :=
| JUndefined
| JNull
| JBool (b : bool)
| JNum (z : Z)
| JStr (s : string)
| JArr (items : list JValue)
| JObj (fields : list (string * JValue)).

(** ToBoolean: [undefined], [null], [false], [0] and the empty string are
    falsy, everything else (arrays and objects included) is truthy. *)
Definition truthy (v : JValue) : bool :=
  match v with
  | JUndefined | JNull => false
  | JBool b => b
  | JNum z => negb (z =? 0)
  | JStr s => negb (String.eqb s "")
  | JArr _ | JObj _ => true
  end.

(** [a || b] *)
Definition or_else (a b : JValue) : JValue := if truthy a then a else b.

(** [typeof v === 'string'] *)
Definition is_string (v : JValue) : bool :=
  match v with JStr _ => true | _ => false end.

(** [s.includes(c)] for a one-character needle. *)
Fixpoint includes_char (c : Ascii.ascii) (s : string) : bool :=
  match s with
  | EmptyString => false
  | String a s' => if Ascii.eqb a c then true else includes_char c s'
  end.

(** [v === 'lit'] against a string literal. *)
Definition is_literal (lit : string) (v : JValue) : bool :=
  match v with JStr s => String.eqb s lit | _ => false end.

(** The Number value of a non-negative integer: itself below 2^53, else
    rounded to 53 significant bits, ties to even; [None] is [Infinity]. *)
Definition to_double (z : Z) : option Z :=
  if z <? 2 ^ 53 then Some z
  else
    let shift := Z.log2 z - 52 in
    let q := Z.shiftr z shift in
    let r := z - Z.shiftl q shift in
    let half := 2 ^ (shift - 1) in
    let q' := if (half <? r) || ((r =? half) && Z.odd q) then q + 1 else q in
    let x := Z.shiftl q' shift in
    if 2 ^ 1024 <=? x then None else Some x.

Definition rounds_to (x c : Z) : bool :=
  match to_double c with Some y => y =? x | None => false end.

Definition decimal_digits (x : Z) : Z := Z.of_nat (String.length (pretty x)).

(** Number::toString, step 5: the decimal with the fewest significant digits
    [k] that reads back as [x], the closest to [x] when two do. *)
Fixpoint shortest (fuel : nat) (k : Z) (x : Z) : Z :=
  match fuel with
  | O => x
  | S fuel' =>
      let p := 10 ^ Z.max 0 (decimal_digits x - k) in
      let lo := (x / p) * p in
      let hi := lo + p in
      match rounds_to x lo, rounds_to x hi with
      | true, true =>
          if x - lo <? hi - x then lo
          else if hi - x <? x - lo then hi
          else if Z.even (lo / p) then lo else hi
      | true, false => lo
      | false, true => hi
      | false, false => shortest fuel' (k + 1) x
      end
  end.

Fixpoint strip_zeros (s : list Ascii.ascii) : list Ascii.ascii :=
  match s with
  | "0"%char :: s' => strip_zeros s'
  | _ => s
  end.

(** The digits of a decimal without its trailing zeros. *)
Definition significant (s : string) : string :=
  String.string_of_list_ascii
    (rev (strip_zeros (rev (String.list_ascii_of_string s)))).

(** Number::toString of a positive integer-valued Number: plain digits up to
    21 of them, exponent notation beyond. *)
Definition print_double (x : Z) : string :=
  let c := shortest 20 1 x in
  let n := decimal_digits c in
  if n <=? 21 then pretty c
  else
    match significant (pretty c) with
    | String d EmptyString => String d "" +:+ "e+" +:+ pretty (n - 1)
    | String d rest => String d "." +:+ rest +:+ "e+" +:+ pretty (n - 1)
    | EmptyString => ""
    end.

Definition number_to_string (z : Z) : string :=
  if z =? 0 then "0"
  else
    (if z <? 0 then "-" else "") +:+
    match to_double (Z.abs z) with
    | Some x => print_double x
    | None => "Infinity"
    end.

(** Two integers are the same Number: the same value after rounding, or
    both too large with the same sign. *)
Definition same_number (x y : Z) : bool :=
  (Z.sgn x =? Z.sgn y) &&
  match to_double (Z.abs x), to_double (Z.abs y) with
  | Some a, Some b => a =? b
  | None, None => true
  | _, _ => false
  end.

(** [a === b] on parsed JSON: primitives compare by type and value; two
    arrays or objects read from different places are different references. *)
Definition strict_eq (a b : JValue) : bool :=
  match a, b with
  | JUndefined, JUndefined => true
  | JNull, JNull => true
  | JBool x, JBool y => Bool.eqb x y
  | JNum x, JNum y => same_number x y
  | JStr x, JStr y => String.eqb x y
  | _, _ => false
  end.

Fixpoint join_with (sep : string) (parts : list string) : string :=
  match parts with
  | [] => ""
  | [p] => p
  | p :: rest => p +:+ sep +:+ join_with sep rest
  end.

(** An object of parsed JSON has an own [toString] that is not callable. *)
Definition shadows_toString (fields : list (string * JValue)) : bool :=
  existsb (fun kv => String.eqb kv.1 "toString") fields.

Definition all_some {A : Type} (l : list (option A)) : option (list A) :=
  foldr (fun o acc => match o, acc with
                      | Some a, Some r => Some (a :: r)
                      | _, _ => None
                      end) (Some []) l.

(** ToString, as a template literal applies it; [None] is the TypeError of
    an object that cannot be converted to a primitive: one whose own
    [toString] property hides [Object.prototype.toString], or an array that
    holds such an object.  An array prints its elements joined by commas,
    [null] and [undefined] as nothing. *)
Fixpoint to_string (v : JValue) : option string :=
  match v with
  | JUndefined => Some "undefined"
  | JNull => Some "null"
  | JBool true => Some "true"
  | JBool false => Some "false"
  | JNum z => Some (number_to_string z)
  | JStr s => Some s
  | JArr items =>
      join_with "," <$>
        all_some (map (fun x => match x with
                                | JUndefined | JNull => Some ""
                                | _ => to_string x
                                end) items)
  | JObj fields =>
      if shadows_toString fields then None else Some "[object Object]"
  end.

(** The value can be printed: ToString does not throw. *)
Definition printable (v : JValue) : bool :=
  match to_string v with Some _ => true | None => false end.

(** A JSON object read field by field: a missing key reads [undefined]. *)
Definition get (o : gmap string JValue) (k : string) : JValue :=
  default JUndefined (o !! k).

(** [arr.slice(0, end)]: a negative [end] counts from the back. *)
Definition slice0 {A : Type} (l : list A) (end_ : Z) : list A :=
  let len := Z.of_nat (length l) in
  let stop := if end_ <? 0 then Z.max (len + end_) 0 else Z.min end_ len in
  take (Z.to_nat stop) l.

End Js.
Import Js.

(** ** Data model *)

(** A template is a JSON object: [id], [name] and a markup payload under one
    of several keys. *)
Abbreviation Template := (gmap string JValue).

(** An element of a list of templates: an object, or [null] ([None]).  An
    element of another kind (a number, a string, an array) has none of the
    properties the handler reads and spreads into the object of its own
    index properties, so it stands here as that object. *)
Abbreviation Item := (option Template).

(** What [getIntegrationTokens] and [getSFMCToken] resolve to. *)
Record Tokens := { accessToken : JValue }.

(** [sfmcCredentials] of the request body. *)
Record SfmcCredentials := {
  clientId : JValue;
  clientSecret : JValue;
  subdomain : JValue }.

(** The object handed to every destination call:
    [{ clientId, clientSecret, subdomain, accessToken }]. *)
Record SfmcAuth := {
  auth_clientId : JValue;
  auth_clientSecret : JValue;
  auth_subdomain : JValue;
  auth_accessToken : JValue }.

Record Folder := {
  folder_id : JValue;
  folder_name : JValue;
  folder_parentId : JValue }.

(** The result of [convertHubspotTemplate]. *)
Record Converted := {
  cv_content : JValue;
  cv_channels : JValue;
  cv_slots : JValue }.

(** The last argument of [createEmailTemplate]. *)
Record AssetMeta := {
  meta_channels : JValue;
  meta_slots : JValue;
  meta_assetType_name : string;
  meta_assetType_id : Z }.

(** What [createEmailTemplate] resolves to. *)
Record Asset := {
  asset_id : JValue;
  asset_customerKey : JValue }.

(** A thrown [Error]: its message and, for an HTTP error, the data of the
    response it carries ([error.response.data]). *)
Record JsError := {
  err_message : string;
  err_response : option JValue }.

Definition plain_error (msg : string) : JsError :=
  {| err_message := msg; err_response := None |}.

Inductive Outcome (A : Type) : Type :=
| Ok (a : A)
| Fail (e : JsError).
Arguments Ok {A} a.
Arguments Fail {A} e.

(** [`${v}`] inside a template literal: ToString, which throws a TypeError
    for a value that cannot be converted. *)
Definition print (v : JValue) : Outcome string :=
  match to_string v with
  | Some s => Ok s
  | None => Fail (plain_error "Cannot convert object to primitive value")
  end.

(** The TypeError of reading property [k] of [null]. *)
Definition null_read (k : string) : JsError :=
  plain_error ("Cannot read properties of null (reading '" +:+ k +:+ "')").

(** The two shapes of a per-item entry: [customId]/[customName] in custom
    mode, [hubspotId]/[hubspotName] in fetch mode. *)
Inductive SourceKind := Custom | Hubspot.

Record MigrationResult := {
  mr_kind : SourceKind;
  mr_id : JValue;
  mr_name : JValue;
  mr_sfmcId : JValue;
  mr_sfmcCustomerKey : JValue;
  mr_status : string }.

Record ErrorResult := {
  er_kind : SourceKind;
  er_id : JValue;
  er_name : JValue;
  er_error : string;
  er_status : string }.

(** The success body.  [errors] is [undefined] when there is none, and the
    "no templates" body has no [totalAttempted]. *)
Record Summary := {
  success : bool;
  message : string;
  migrated : list MigrationResult;
  errors : option (list ErrorResult);
  templatesCount : nat;
  totalAttempted : option nat }.

Inductive ResponseBody :=
| ErrorBody (error : string) (details : option JValue)
| SummaryBody (s : Summary).

Record Response := {
  status : Z;
  payload : ResponseBody }.

(** [customTemplates] of the request body: a falsy value (absent, [null]),
    a truthy value that is not an array, or an array of templates. *)
Inductive CustomTemplates :=
| CtFalsy
| CtOther
| CtArray (items : list Item).

Record Body := {
  userId : JValue;
  hubspotToken : JValue;
  sfmcCredentials : option SfmcCredentials;
  limit : option Z;
  folderId : JValue;
  customTemplates : CustomTemplates }.

(** [response.data] of a source endpoint: nothing, a bare array, or an object
    whose list-valued envelope fields are [objects] and [results] ([None]
    when the field is missing or falsy). *)
Inductive ResponseData :=
| DataUndefined
| DataNull
| DataArray (items : list Item)
| DataObject (objects results : option (list Item)).

(** What [hubspotTemplates] holds after the fetch: a list, or the body object
    itself when the bare-body endpoint answered with an object (an object
    that has neither [length] nor [slice]). *)
Inductive Fetched :=
| FetchedList (l : list Item)
| FetchedObject.

(** ** Collaborators and the call log *)

Inductive Event :=
| EvGetIntegrationTokens (user : JValue) (provider : string)
| EvGetSFMCToken (c : SfmcCredentials)
| EvGetSFMCFolders (a : SfmcAuth)
| EvCreateSFMCFolder (a : SfmcAuth) (name : string) (parentId : JValue)
| EvCreateHubspotClient (token : JValue)
| EvAxiosGet (url : string) (token : JValue)
| EvConvert (t : Template)
| EvCreateEmailTemplate (a : SfmcAuth) (name content folder : JValue)
                        (meta : AssetMeta).

(** The imported functions, over a world [W] that each awaited call may
    change.  [convertHubspotTemplate] and [createHubspotClient] are
    synchronous; [date_now] is [Date.now()]. *)
Record Collaborators (W : Type) := {
  getIntegrationTokens : JValue -> string -> W -> Outcome (option Tokens) * W;
  getSFMCToken : SfmcCredentials -> W -> Outcome Tokens * W;
  getSFMCFolders : SfmcAuth -> W -> Outcome (list Folder) * W;
  createSFMCFolder : SfmcAuth -> string -> JValue -> W -> Outcome Folder * W;
  createHubspotClient : JValue -> Outcome unit;
  axios_get : string -> JValue -> W -> Outcome ResponseData * W;
  convertHubspotTemplate : Template -> Outcome Converted;
  createEmailTemplate :
    SfmcAuth -> JValue -> JValue -> JValue -> AssetMeta -> W -> Outcome Asset * W;
  date_now : W -> Z * W }.
Arguments getIntegrationTokens {W} _ _ _ _.
Arguments getSFMCToken {W} _ _ _.
Arguments getSFMCFolders {W} _ _ _.
Arguments createSFMCFolder {W} _ _ _ _ _.
Arguments createHubspotClient {W} _ _.
Arguments axios_get {W} _ _ _ _.
Arguments convertHubspotTemplate {W} _ _.
Arguments createEmailTemplate {W} _ _ _ _ _ _ _.
Arguments date_now {W} _ _.

Record St (W : Type) := { world : W; log : list Event }.
Arguments world {W} _.
Arguments log {W} _.

(** ** The handler's control flow *)

Inductive Result (A : Type) : Type :=
| Val (a : A)
| Thrown (e : JsError)
| Returned (r : Response).
Arguments Val {A} a.
Arguments Thrown {A} e.
Arguments Returned {A} r.

Definition M (W A : Type) : Type := St W -> Result A * St W.

Section Control.
Context {W : Type}.

Definition ret {A} (a : A) : M W A := fun s => (Val a, s).

Definition bind {A B} (m : M W A) (k : A -> M W B) : M W B :=
  fun s =>
    match m s with
    | (Val a, s') => k a s'
    | (Thrown e, s') => (Thrown e, s')
    | (Returned r, s') => (Returned r, s')
    end.

(** [throw e] *)
Definition throw {A} (e : JsError) : M W A := fun s => (Thrown e, s).

(** [return NextResponse.json(...)] from anywhere in the handler. *)
Definition respond {A} (r : Response) : M W A := fun s => (Returned r, s).

(** [try { m } catch (e) { h e }]: only a thrown error reaches [h]. *)
Definition try_catch {A} (m : M W A) (h : JsError -> M W A) : M W A :=
  fun s =>
    match m s with
    | (Thrown e, s') => h e s'
    | other => other
    end.

Definition of_outcome {A} (o : Outcome A) : M W A :=
  match o with Ok a => ret a | Fail e => throw e end.

(** An awaited collaborator call: logged, then run on the world. *)
Definition call {A} (ev : Event) (f : W -> Outcome A * W) : M W A :=
  fun s =>
    let '(o, w') := f (world s) in
    of_outcome o {| world := w'; log := log s ++ [ev] |}.

(** A synchronous collaborator call. *)
Definition call_sync {A} (ev : Event) (o : Outcome A) : M W A :=
  call ev (fun w => (o, w)).

(** A world read that is not a collaborator call ([Date.now()]). *)
Definition read {A} (f : W -> A * W) : M W A :=
  fun s =>
    let '(a, w') := f (world s) in
    (Val a, {| world := w'; log := log s |}).

End Control.

Notation "x <- m ; k" := (bind m (fun x => k))
  (at level 20, m at level 100, k at level 200, only parsing).
Notation "' pat <- m ; k" := (bind m (fun x => match x with pat => k end))
  (at level 20, pat pattern, m at level 100, k at level 200, only parsing).

(** [for (const x of l) { body }] over loop-carried state. *)
Fixpoint for_each {W A S} (body : A -> S -> M W S) (l : list A) (acc : S)
  : M W S :=
  match l with
  | [] => ret acc
  | x :: l' => acc' <- body x acc; for_each body l' acc'
  end.

(** ** The route handler *)

(** [NextResponse.json(body)] and [NextResponse.json(body, { status })]. *)
Definition json_error (st : Z) (msg : string) (det : option JValue) : Response :=
  {| status := st; payload := ErrorBody msg det |}.

Definition json_ok (s : Summary) : Response :=
  {| status := 200; payload := SummaryBody s |}.

(** [error.response?.data || error.message] *)
Definition error_details (e : JsError) : JValue :=
  match err_response e with
  | Some d => or_else d (JStr (err_message e))
  | None => JStr (err_message e)
  end.

(** The four source endpoints, in the order the handler tries them. *)
Definition cms_url : string :=
  "https://api.hubapi.com/content/api/v2/templates".
Definition v3_url : string :=
  "https://api.hubapi.com/marketing/v3/marketing-emails/templates".
Definition v1_url : string :=
  "https://api.hubapi.com/marketing-emails/v1/templates".
Definition public_url : string :=
  "https://api.hubapi.com/email/public/v1/templates".

(** [response.data.objects || []]; reading a property of a missing body
    throws a TypeError. *)
Definition read_objects (d : ResponseData) : Outcome Fetched :=
  match d with
  | DataUndefined =>
      Fail (plain_error "Cannot read properties of undefined (reading 'objects')")
  | DataNull =>
      Fail (plain_error "Cannot read properties of null (reading 'objects')")
  | DataArray _ => Ok (FetchedList [])
  | DataObject objects _ => Ok (FetchedList (default [] objects))
  end.

(** [response.data.results || []] *)
Definition read_results (d : ResponseData) : Outcome Fetched :=
  match d with
  | DataUndefined =>
      Fail (plain_error "Cannot read properties of undefined (reading 'results')")
  | DataNull =>
      Fail (plain_error "Cannot read properties of null (reading 'results')")
  | DataArray _ => Ok (FetchedList [])
  | DataObject _ results => Ok (FetchedList (default [] results))
  end.

(** [response.data || []] *)
Definition read_bare (d : ResponseData) : Outcome Fetched :=
  match d with
  | DataUndefined | DataNull => Ok (FetchedList [])
  | DataArray items => Ok (FetchedList items)
  | DataObject _ _ => Ok FetchedObject
  end.

Definition possibleContentProperties : list string :=
  ["body"; "htmlContent"; "htmlBody"; "design"; "template"].

(** [template[prop] && typeof template[prop] === 'string' &&
    template[prop].includes('<')] *)
Definition looks_like_html (v : JValue) : bool :=
  truthy v && is_string v &&
  match v with JStr s => includes_char "<"%char s | _ => false end.

(** The scan of lines 355-361, with [templateContent] starting at ['']. *)
Fixpoint scan_properties (t : Template) (props : list string) : JValue :=
  match props with
  | [] => JStr ""
  | prop :: rest =>
      if looks_like_html (get t prop) then get t prop
      else scan_properties t rest
  end.

(** [templateContent] of lines 334-362. *)
Definition resolve_markup (t : Template) : JValue :=
  if truthy (get t "source") then get t "source"
  else if truthy (get t "content") then get t "content"
  else if truthy (get t "html") then get t "html"
  else scan_properties t possibleContentProperties.

(** [template.content || template.html || `<p>Template: ${template.name}</p>`]:
    the literal is evaluated, and the name printed, only when both fields
    are falsy. *)
Definition custom_markup (t : Template) : Outcome JValue :=
  if truthy (or_else (get t "content") (get t "html"))
  then Ok (or_else (get t "content") (get t "html"))
  else
    match print (get t "name") with
    | Ok text => Ok (JStr ("<p>Template: " +:+ text +:+ "</p>"))
    | Fail e => Fail e
    end.

(** [{ ...template, source: markup }] *)
Definition with_source (t : Template) (markup : JValue) : Template :=
  <["source" := markup]> t.

Definition asset_meta (cv : Converted) : AssetMeta :=
  {| meta_channels := cv_channels cv;
     meta_slots := cv_slots cv;
     meta_assetType_name := "template";
     meta_assetType_id := 4 |}.

(** [error instanceof Error ? error.message : String(error)] *)
Definition error_text (e : JsError) : string := err_message e.

(** [`...${n > 0 ? `, with ${n} errors` : ''}`] *)
Definition error_suffix (n : nat) : string :=
  if (0 <? n)%nat then ", with " +:+ pretty n +:+ " errors" else "".

(** [errors.length > 0 ? errors : undefined] *)
Definition errors_field (errs : list ErrorResult) : option (list ErrorResult) :=
  if (0 <? length errs)%nat then Some errs else None.

Definition Acc : Type := list MigrationResult * list ErrorResult.

(** The success body of lines 208-215 and of lines 413-420; [what] is
    ["custom templates"] or ["templates"]. *)
Definition summary (what : string) (acc : Acc) (attempted : nat) : Summary :=
  {| success := true;
     message := "Migrated " +:+ pretty (length acc.1) +:+ " " +:+ what +:+
                " successfully" +:+ error_suffix (length acc.2);
     migrated := acc.1;
     errors := errors_field acc.2;
     templatesCount := length acc.1;
     totalAttempted := Some attempted |}.

(** The success body of lines 306-311. *)
Definition no_templates : Summary :=
  {| success := true;
     message := "No email templates found in HubSpot";
     migrated := [];
     errors := None;
     templatesCount := 0;
     totalAttempted := None |}.

Section Handler.
Context {W : Type} (env : Collaborators W).

(** Lines 24-50. *)
Definition resolveHubspotToken (body : Body) : M W JValue :=
  if truthy (hubspotToken body) then ret (hubspotToken body)
  else
    try_catch
      (hubspotTokens <-
         call (EvGetIntegrationTokens (userId body) "hubspot")
              (getIntegrationTokens env (userId body) "hubspot");
       match hubspotTokens with
       | None =>
           respond (json_error 400
             "Missing HubSpot token. Please reconnect to HubSpot." None)
       | Some t => ret (accessToken t)
       end)
      (fun _ =>
         respond (json_error 500 "Database error retrieving HubSpot tokens." None)).

(** The guard of line 56. *)
Definition inline_credentials (body : Body) : option SfmcCredentials :=
  match sfmcCredentials body with
  | Some c =>
      if truthy (clientId c) && truthy (clientSecret c) && truthy (subdomain c)
      then Some c else None
  | None => None
  end.

(** Lines 53-94. *)
Definition resolveSfmcToken (body : Body) : M W JValue :=
  match inline_credentials body with
  | Some c =>
      try_catch
        (tokenResponse <- call (EvGetSFMCToken c) (getSFMCToken env c);
         ret (accessToken tokenResponse))
        (fun _ =>
           respond (json_error 400
             "Failed to authenticate with SFMC using provided credentials." None))
  | None =>
      try_catch
        (sfmcTokens <-
           call (EvGetIntegrationTokens (userId body) "sfmc")
                (getIntegrationTokens env (userId body) "sfmc");
         match sfmcTokens with
         | None =>
             respond (json_error 400
               "Missing SFMC credentials. Please connect SFMC." None)
         | Some t => ret (accessToken t)
         end)
        (fun _ =>
           respond (json_error 400
             "No SFMC credentials provided or found in database." None))
  end.

(** [{ clientId: sfmcCredentials?.clientId, ..., accessToken }] *)
Definition sfmc_auth (body : Body) (sfmcAccessToken : JValue) : SfmcAuth :=
  {| auth_clientId := from_option clientId JUndefined (sfmcCredentials body);
     auth_clientSecret := from_option clientSecret JUndefined (sfmcCredentials body);
     auth_subdomain := from_option subdomain JUndefined (sfmcCredentials body);
     auth_accessToken := sfmcAccessToken |}.

Definition is_content_builder (f : Folder) : bool :=
  is_literal "Content Builder" (folder_name f).

Definition is_hubspot_child (root f : Folder) : bool :=
  is_literal "HubSpot Templates" (folder_name f) &&
  strict_eq (folder_parentId f) (folder_id root).

(** Lines 97-150.  The folder id is printed by the log lines 102, 128 and
    141 as soon as it is known; the last two are inside the [try]. *)
Definition resolveFolder (body : Body) (auth : SfmcAuth) : M W JValue :=
  if truthy (folderId body) then
    _ <- of_outcome (print (folderId body));
    ret (folderId body)
  else
    try_catch
      (items <- call (EvGetSFMCFolders auth) (getSFMCFolders env auth);
       match List.find is_content_builder items with
       | None => throw (plain_error "Content Builder folder not found")
       | Some contentBuilderFolder =>
           match List.find (is_hubspot_child contentBuilderFolder) items with
           | Some hubspotFolder =>
               _ <- of_outcome (print (folder_id hubspotFolder));
               ret (folder_id hubspotFolder)
           | None =>
               newFolder <-
                 call (EvCreateSFMCFolder auth "HubSpot Templates"
                         (folder_id contentBuilderFolder))
                      (createSFMCFolder env auth "HubSpot Templates"
                         (folder_id contentBuilderFolder));
               _ <- of_outcome (print (folder_id newFolder));
               ret (folder_id newFolder)
           end
       end)
      (fun _ =>
         respond (json_error 400
           "Failed to find or create a folder in SFMC. Please provide a valid folderId."
           None)).

(** [convertHubspotTemplate({ ...template, source })] followed by
    [createEmailTemplate(...)], as both loops do it. *)
Definition convert_and_create (auth : SfmcAuth) (folder : JValue)
    (t : Template) (markup : JValue) : M W Asset :=
  convertedTemplate <-
    call_sync (EvConvert (with_source t markup))
              (convertHubspotTemplate env (with_source t markup));
  call (EvCreateEmailTemplate auth (get t "name") (cv_content convertedTemplate)
          folder (asset_meta convertedTemplate))
       (createEmailTemplate env auth (get t "name") (cv_content convertedTemplate)
          folder (asset_meta convertedTemplate)).

(** [template.id || `custom-${Date.now()}`] *)
Definition custom_id (t : Template) : M W JValue :=
  if truthy (get t "id") then ret (get t "id")
  else now <- read (date_now env); ret (JStr ("custom-" +:+ number_to_string now)).

(** The body of the loop of lines 161-205, for an element that is an
    object.  The [try] block opens with the log line 163 and the [catch]
    block with the log line 197; both print [template.name], and what the
    second throws is thrown out of the loop. *)
Definition migrate_custom_item (auth : SfmcAuth) (folder : JValue)
    (t : Template) (acc : Acc) : M W Acc :=
  try_catch
    (_ <- of_outcome (print (get t "name"));
     source <- of_outcome (custom_markup t);
     result <- convert_and_create auth folder t source;
     id <- custom_id t;
     ret (acc.1 ++ [ {| mr_kind := Custom; mr_id := id; mr_name := get t "name";
                        mr_sfmcId := asset_id result;
                        mr_sfmcCustomerKey := asset_customerKey result;
                        mr_status := "success" |} ],
          acc.2))
    (fun error =>
       _ <- of_outcome (print (get t "name"));
       id <- custom_id t;
       ret (acc.1,
            acc.2 ++ [ {| er_kind := Custom; er_id := id; er_name := get t "name";
                          er_error := error_text error;
                          er_status := "error" |} ])).

(** The same body for any element: [template.name] of [null] throws at line
    163 and again at line 197. *)
Definition migrate_custom_element (auth : SfmcAuth) (folder : JValue)
    (item : Item) (acc : Acc) : M W Acc :=
  match item with
  | Some t => migrate_custom_item auth folder t acc
  | None => try_catch (throw (null_read "name")) (fun _ => throw (null_read "name"))
  end.

(** Lines 153-216. *)
Definition custom_mode (auth : SfmcAuth) (folder : JValue)
    (custom : list Item) : M W Response :=
  acc <- for_each (migrate_custom_element auth folder) custom ([], []);
  ret (json_ok (summary "custom templates" acc (length custom))).

(** One endpoint attempt: the [Authorization] header, which prints the token
    ([`Bearer ${hubspotAccessToken}`]), the request, then the envelope. *)
Definition get_templates (url : string) (token : JValue)
    (envelope : ResponseData -> Outcome Fetched) : M W Fetched :=
  _ <- of_outcome (print token);
  response_data <- call (EvAxiosGet url token) (axios_get env url token);
  of_outcome (envelope response_data).

(** The nested try/catch chain of lines 227-285. *)
Definition fetchHubspotTemplates (token : JValue) : M W Fetched :=
  try_catch (get_templates cms_url token read_objects)
    (fun _cmsError =>
       try_catch (get_templates v3_url token read_results)
         (fun _v3Error =>
            try_catch (get_templates v1_url token read_bare)
              (fun _v1Error => get_templates public_url token read_objects))).

(** The body of the loop of lines 329-410, for an element that is an
    object; [ret acc] after the markup test is the [continue].  The [try]
    block opens with the log line 331, which prints [template.name] and
    [template.id], and the [catch] block with the log line 402, which prints
    [template.name]; what the latter throws is thrown out of the loop. *)
Definition migrate_item (auth : SfmcAuth) (folder : JValue)
    (t : Template) (acc : Acc) : M W Acc :=
  try_catch
    (_ <- of_outcome (print (get t "name"));
     _ <- of_outcome (print (get t "id"));
     let templateContent := resolve_markup t in
     if negb (truthy templateContent) then ret acc
     else
       result <- convert_and_create auth folder t templateContent;
       ret (acc.1 ++ [ {| mr_kind := Hubspot; mr_id := get t "id";
                          mr_name := get t "name";
                          mr_sfmcId := asset_id result;
                          mr_sfmcCustomerKey := asset_customerKey result;
                          mr_status := "success" |} ],
            acc.2))
    (fun error =>
       _ <- of_outcome (print (get t "name"));
       ret (acc.1,
            acc.2 ++ [ {| er_kind := Hubspot; er_id := get t "id";
                          er_name := get t "name";
                          er_error := error_text error;
                          er_status := "error" |} ])).

(** The same body for any element: [template.name] of [null] throws at line
    331 and again at line 402. *)
Definition migrate_element (auth : SfmcAuth) (folder : JValue)
    (item : Item) (acc : Acc) : M W Acc :=
  match item with
  | Some t => migrate_item auth folder t acc
  | None => try_catch (throw (null_read "name")) (fun _ => throw (null_read "name"))
  end.

(** [emailTemplates.slice(0, limit)] with [limit = 10] by default. *)
Definition templateToMigrate (body : Body) (l : list Item) : list Item :=
  slice0 l (default 10 (limit body)).

(** Lines 304-420: the fetched list, truncated and migrated. *)
Definition migrate_fetched (body : Body) (auth : SfmcAuth) (folder : JValue)
    (l : list Item) : M W Response :=
  if (length l =? 0)%nat then
    ret (json_ok no_templates)
  else
    acc <- for_each (migrate_element auth folder) (templateToMigrate body l) ([], []);
    ret (json_ok (summary "templates" acc (length (templateToMigrate body l)))).

(** Lines 218-420.  An object in [hubspotTemplates] has no [slice]. *)
Definition fetch_mode (body : Body) (auth : SfmcAuth) (folder token : JValue)
  : M W Response :=
  _ <- call_sync (EvCreateHubspotClient token) (createHubspotClient env token);
  hubspotTemplates <-
    try_catch (fetchHubspotTemplates token)
      (fun error =>
         respond (json_error 500
           "Failed to fetch templates from HubSpot API. Please check your token and permissions."
           (Some (error_details error))));
  match hubspotTemplates with
  | FetchedObject => throw (plain_error "emailTemplates.slice is not a function")
  | FetchedList l => migrate_fetched body auth folder l
  end.

(** [customTemplates && Array.isArray(customTemplates) &&
    customTemplates.length > 0] *)
Definition custom_list (c : CustomTemplates) : option (list Item) :=
  match c with
  | CtArray items => if (0 <? length items)%nat then Some items else None
  | CtFalsy | CtOther => None
  end.

(** Lines 152-420, once credentials and folder are known. *)
Definition migrate (body : Body) (auth : SfmcAuth) (folder token : JValue)
  : M W Response :=
  match custom_list (customTemplates body) with
  | Some custom => custom_mode auth folder custom
  | None => fetch_mode body auth folder token
  end.

(** The body of the outer [try]. *)
Definition handler (body : Body) : M W Response :=
  if negb (truthy (userId body)) then
    respond (json_error 400 "User ID is required" None)
  else
    hubspotAccessToken <- resolveHubspotToken body;
    sfmcAccessToken <- resolveSfmcToken body;
    contentBuilderFolderId <- resolveFolder body (sfmc_auth body sfmcAccessToken);
    migrate body (sfmc_auth body sfmcAccessToken) contentBuilderFolderId
            hubspotAccessToken.

(** [POST]: the outer [catch] turns anything still thrown into a 500. *)
Definition POST (body : Body) (s : St W) : Response * St W :=
  match handler body s with
  | (Val r, s') => (r, s')
  | (Returned r, s') => (r, s')
  | (Thrown error, s') =>
      (json_error 500 "Failed to migrate email templates"
                  (Some (JStr (error_text error))), s')
  end.

End Handler.

(** * Specification vocabulary *)

(** ** Runs and their logs *)

(** [POST] is the handler followed by the outer catch. *)
Definition finish {W} (x : Result Response * St W) : Response * St W :=
  match x with
  | (Val r, s') => (r, s')
  | (Returned r, s') => (r, s')
  | (Thrown error, s') =>
      (json_error 500 "Failed to migrate email templates"
                  (Some (JStr (error_text error))), s')
  end.

(** The state after the calls [evs] took the world to [w]. *)
Definition after {W} (s : St W) (evs : list Event) (w : W) : St W :=
  {| world := w; log := log s ++ evs |}.

(** A computation [emits P] when all it does to the log is append events
    that satisfy [P]. *)
Definition emits {W A} (P : Event -> Prop) (m : M W A) : Prop :=
  forall s, exists evs, log (m s).2 = log s ++ evs /\ Forall P evs.

(** The part of the run a call belongs to. *)
Inductive Phase := Setup | Fetching | Migrating.

Definition phase (ev : Event) : Phase :=
  match ev with
  | EvGetIntegrationTokens _ _ | EvGetSFMCToken _
  | EvGetSFMCFolders _ | EvCreateSFMCFolder _ _ _ => Setup
  | EvCreateHubspotClient _ | EvAxiosGet _ _ => Fetching
  | EvConvert _ | EvCreateEmailTemplate _ _ _ _ _ => Migrating
  end.

(** An asset creation, if [ev] is one, goes into [folder]. *)
Definition into (folder : JValue) (ev : Event) : Prop :=
  match ev with
  | EvCreateEmailTemplate _ _ _ f _ => f = folder
  | _ => True
  end.

(** What a stretch of the log says: the templates handed to the converter,
    the names and folders of the assets whose creation was requested, and
    the source endpoints requested, each in call order. *)
Definition converted (evs : list Event) : list Template :=
  omap (fun ev => match ev with EvConvert t => Some t | _ => None end) evs.

Definition created (evs : list Event) : list JValue :=
  omap (fun ev => match ev with
                  | EvCreateEmailTemplate _ name _ _ _ => Some name
                  | _ => None
                  end) evs.

Definition creation_folders (evs : list Event) : list JValue :=
  omap (fun ev => match ev with
                  | EvCreateEmailTemplate _ _ _ folder _ => Some folder
                  | _ => None
                  end) evs.

Definition fetches (evs : list Event) : list string :=
  omap (fun ev => match ev with EvAxiosGet url _ => Some url | _ => None end) evs.

(** ** Loop entries *)

Definition has_markup (t : Template) : bool := truthy (resolve_markup t).

(** The entries the two loops push. *)
Definition custom_success (t : Template) (id : JValue) (result : Asset)
  : MigrationResult :=
  {| mr_kind := Custom; mr_id := id; mr_name := get t "name";
     mr_sfmcId := asset_id result;
     mr_sfmcCustomerKey := asset_customerKey result;
     mr_status := "success" |}.

Definition custom_failure (t : Template) (id : JValue) (e : JsError)
  : ErrorResult :=
  {| er_kind := Custom; er_id := id; er_name := get t "name";
     er_error := err_message e; er_status := "error" |}.

Definition hubspot_success (t : Template) (result : Asset) : MigrationResult :=
  {| mr_kind := Hubspot; mr_id := get t "id"; mr_name := get t "name";
     mr_sfmcId := asset_id result;
     mr_sfmcCustomerKey := asset_customerKey result;
     mr_status := "success" |}.

Definition hubspot_failure (t : Template) (e : JsError) : ErrorResult :=
  {| er_kind := Hubspot; er_id := get t "id"; er_name := get t "name";
     er_error := err_message e; er_status := "error" |}.

(** Conversion or asset creation of [t] throws [e] from world [w], leaving
    world [w']. *)
Definition item_throws {W} (env : Collaborators W) (auth : SfmcAuth)
    (folder : JValue) (t : Template) (markup : JValue)
    (w : W) (e : JsError) (w' : W) : Prop :=
  (convertHubspotTemplate env (with_source t markup) = Fail e /\ w' = w) \/
  (exists cv,
      convertHubspotTemplate env (with_source t markup) = Ok cv /\
      createEmailTemplate env auth (get t "name") (cv_content cv) folder
        (asset_meta cv) w = (Fail e, w')).

(** [acc] extended by what one item or one loop added. *)
Definition extend (acc d : Acc) : Acc := (acc.1 ++ d.1, acc.2 ++ d.2).

(** ** The loops seen from outside *)

(** The name of an element can be read and printed, which is what the log
    lines at the head of the [try] and of the [catch] block of both loops
    do. *)
Definition loggable (item : Item) : bool :=
  match item with
  | Some t => printable (get t "name")
  | None => false
  end.

(** What those log lines throw for an element that is not loggable. *)
Definition log_error (item : Item) : JsError :=
  match item with
  | Some _ => plain_error "Cannot convert object to primitive value"
  | None => null_read "name"
  end.

(** The elements a loop gets through, and the element that ends it early:
    the first one that is not loggable. *)
Fixpoint processed (l : list Item) : list Item :=
  match l with
  | item :: l' => if loggable item then item :: processed l' else []
  | [] => []
  end.

Definition stopper (l : list Item) : option Item :=
  List.find (fun item => negb (loggable item)) l.

(** A fetched element is skipped when its id prints and no markup is
    found for it. *)
Definition skipped (item : Item) : bool :=
  match item with
  | Some t => printable (get t "id") && negb (has_markup t)
  | None => false
  end.

Section Outside.
Context {W : Type} (env : Collaborators W).
Variables (auth : SfmcAuth) (folder : JValue).

(** Converting [t] with [markup] and creating its asset: the calls made, and
    the result from world [w]. *)
Definition conversion_calls (t : Template) (markup : JValue) : list Event :=
  EvConvert (with_source t markup) ::
  match convertHubspotTemplate env (with_source t markup) with
  | Ok cv =>
      [EvCreateEmailTemplate auth (get t "name") (cv_content cv) folder
         (asset_meta cv)]
  | Fail _ => []
  end.

Definition conversion_result (t : Template) (markup : JValue) (w : W)
  : Outcome Asset * W :=
  match convertHubspotTemplate env (with_source t markup) with
  | Ok cv =>
      createEmailTemplate env auth (get t "name") (cv_content cv) folder
        (asset_meta cv) w
  | Fail e => (Fail e, w)
  end.

(** The markup of a custom template whose name prints. *)
Definition custom_source (t : Template) : JValue :=
  match custom_markup t with Ok markup => markup | Fail _ => JUndefined end.

(** The id of a custom entry, read at world [w]: the template's own, or one
    made from the clock. *)
Definition custom_id_of (t : Template) (w : W) : JValue * W :=
  if truthy (get t "id") then (get t "id", w)
  else (JStr ("custom-" +:+ number_to_string (date_now env w).1),
        (date_now env w).2).

(** What an element whose name can be read and printed adds to the two
    lists in custom mode, with the world it leaves, and the calls it
    makes. *)
Definition custom_entry (item : Item) (w : W) : Acc * W :=
  match item with
  | Some t =>
      let r := conversion_result t (custom_source t) w in
      let id := custom_id_of t r.2 in
      (match r.1 with
       | Ok result => ([custom_success t id.1 result], [])
       | Fail e => ([], [custom_failure t id.1 e])
       end, id.2)
  | None => (([], []), w)
  end.

Definition custom_calls (item : Item) : list Event :=
  match item with
  | Some t => conversion_calls t (custom_source t)
  | None => []
  end.

(** The same in fetch mode, where an id that cannot be printed is an error
    of its own and an element without markup is skipped. *)
Definition fetch_entry (item : Item) (w : W) : Acc * W :=
  match item with
  | Some t =>
      match print (get t "id") with
      | Fail e => (([], [hubspot_failure t e]), w)
      | Ok _ =>
          if has_markup t then
            let r := conversion_result t (resolve_markup t) w in
            (match r.1 with
             | Ok result => ([hubspot_success t result], [])
             | Fail e => ([], [hubspot_failure t e])
             end, r.2)
          else (([], []), w)
      end
  | None => (([], []), w)
  end.

Definition fetch_calls (item : Item) : list Event :=
  match item with
  | Some t =>
      if printable (get t "id") && has_markup t
      then conversion_calls t (resolve_markup t)
      else []
  | None => []
  end.

End Outside.

(** What the elements a loop gets through add, one after the other. *)
Fixpoint entries {W} (entry : Item -> W -> Acc * W) (l : list Item) (w : W)
  : Acc * W :=
  match l with
  | item :: l' =>
      if loggable item then
        let d := entry item w in
        let ds := entries entry l' d.2 in
        (extend d.1 ds.1, ds.2)
      else (([], []), w)
  | [] => (([], []), w)
  end.

(** ** Vocabulary of the claims *)

(** [errors.length], an omitted list counting as empty. *)
Definition errors_length (sm : Summary) : nat := length (default [] (errors sm)).

(** A summary accounts for every attempt when its count is the number of
    results and results and errors add up to [totalAttempted]. *)
Definition accounts_for_every_attempt (sm : Summary) : Prop :=
  templatesCount sm = length (migrated sm) /\
  totalAttempted sm = Some (length (migrated sm) + errors_length sm)%nat.

(** One endpoint attempt seen from outside: the header, the request on world
    [w], then the envelope; a token that cannot be printed, a rejected
    request and an unreadable body all fail, the first without a request. *)
Definition attempt {W} (env : Collaborators W) (url : string) (token : JValue)
    (envelope : ResponseData -> Outcome Fetched) (w : W) : Outcome Fetched * W :=
  match print token with
  | Fail e => (Fail e, w)
  | Ok _ =>
      let '(o, w') := axios_get env url token w in
      (match o with Ok d => envelope d | Fail e => Fail e end, w')
  end.

(** The requests made with [token] to [urls] in turn: none when the token
    cannot be printed into the header. *)
Definition requests (token : JValue) (urls : list string) : list Event :=
  if printable token then map (fun url => EvAxiosGet url token) urls else [].

(** The response of the catch block of lines 286-302. *)
Definition fetch_failed (e : JsError) : Response :=
  json_error 500
    "Failed to fetch templates from HubSpot API. Please check your token and permissions."
    (Some (error_details e)).

(** The response of the catch block of lines 143-149. *)
Definition folder_failed : Response :=
  json_error 400
    "Failed to find or create a folder in SFMC. Please provide a valid folderId."
    None.

(** The value is a string that contains the character [<]. *)
Definition is_html_string (v : JValue) : bool :=
  match v with JStr s => includes_char "<"%char s | _ => false end.

(** The resolution order in the words of the spec: the first of [source],
    [content], [html] that holds a non-empty value, else the first of the
    ordered candidates whose value is a string containing [<], else nothing. *)
Definition spec_markup (t : Template) : option JValue :=
  match List.find (fun k => truthy (get t k)) ["source"; "content"; "html"] with
  | Some k => Some (get t k)
  | None =>
      get t <$> List.find (fun k => is_html_string (get t k))
                          ["body"; "htmlContent"; "htmlBody"; "design"; "template"]
  end.

(** The placeholder markup around the printed name [text]. *)
Definition placeholder (text : string) : JValue :=
  JStr ("<p>Template: " +:+ text +:+ "</p>").

(** The request body with another [customTemplates]. *)
Definition with_custom (body : Body) (c : CustomTemplates) : Body :=
  {| userId := userId body;
     hubspotToken := hubspotToken body;
     sfmcCredentials := sfmcCredentials body;
     limit := limit body;
     folderId := folderId body;
     customTemplates := c |}.

(** The truncation as the claim words it: the attempted templates are the
    first [limit] fetched ones, so there are at most [limit] of them. *)
Definition truncated_to_limit (body : Body) (fetched attempted : list Item) : Prop :=
  attempted = take (Z.to_nat (default 10 (limit body))) fetched /\
  Z.of_nat (length attempted) <= default 10 (limit body).

(** * Scripted collaborators for concrete runs *)

(** A fixed answer per collaborator; the world counts the awaited calls and
    drives the clock. *)
Record Script := {
  sc_hubspot_store : Outcome (option Tokens);
  sc_sfmc_store : Outcome (option Tokens);
  sc_token_exchange : Outcome Tokens;
  sc_folders : Outcome (list Folder);
  sc_new_folder : Outcome Folder;
  sc_client : Outcome unit;
  sc_endpoint : string -> Outcome ResponseData;
  sc_convert : Template -> Outcome Converted;
  sc_create : JValue -> Outcome Asset }.

Definition scripted (sc : Script) : Collaborators nat :=
  {| getIntegrationTokens _ provider w :=
       (if String.eqb provider "hubspot" then sc_hubspot_store sc
        else sc_sfmc_store sc, S w);
     getSFMCToken _ w := (sc_token_exchange sc, S w);
     getSFMCFolders _ w := (sc_folders sc, S w);
     createSFMCFolder _ _ _ w := (sc_new_folder sc, S w);
     createHubspotClient _ := sc_client sc;
     axios_get url _ w := (sc_endpoint sc url, S w);
     convertHubspotTemplate := sc_convert sc;
     createEmailTemplate _ name _ _ _ w := (sc_create sc name, S w);
     date_now w := (1700000000000 + Z.of_nat w, w) |}.

Definition start : St nat := {| world := 0%nat; log := [] |}.

Definition http_error (msg : string) (data : JValue) : JsError :=
  {| err_message := msg; err_response := Some data |}.

(** A converter that passes the markup through, and a destination that
    rejects the asset named "Broken". *)
Definition passthrough (t : Template) : Outcome Converted :=
  Ok {| cv_content := get t "source";
        cv_channels := JObj [("email", JBool true)];
        cv_slots := JObj [] |}.

(** The converted form of a template under [passthrough]. *)
Definition passed (markup : JValue) : Converted :=
  {| cv_content := markup;
     cv_channels := JObj [("email", JBool true)];
     cv_slots := JObj [] |}.

Definition picky_create (name : JValue) : Outcome Asset :=
  if is_literal "Broken" name then Fail (plain_error "Asset name rejected")
  else Ok {| asset_id := JNum 9001; asset_customerKey := JStr "key-9001" |}.

Definition demo_asset : Asset :=
  {| asset_id := JNum 9001; asset_customerKey := JStr "key-9001" |}.

Definition stored (tok : string) : Outcome (option Tokens) :=
  Ok (Some {| accessToken := JStr tok |}).

Definition root_folder : Folder :=
  {| folder_id := JNum 1; folder_name := JStr "Content Builder";
     folder_parentId := JNum 0 |}.

Definition child_folder : Folder :=
  {| folder_id := JNum 7; folder_name := JStr "HubSpot Templates";
     folder_parentId := JNum 1 |}.

Definition created_folder : Folder :=
  {| folder_id := JNum 8; folder_name := JStr "HubSpot Templates";
     folder_parentId := JNum 1 |}.

Definition promo : Template :=
  {[ "name" := JStr "Promo"; "content" := JStr "<p>hi</p>" ]}.

Definition both_fields : Template :=
  {[ "id" := JNum 11; "name" := JStr "Both";
     "content" := JStr "<b>content</b>"; "html" := JStr "<i>html</i>" ]}.

Definition design_only : Template :=
  {[ "id" := JNum 12; "name" := JStr "Design"; "design" := JStr "<div>" ]}.

Definition no_markup : Template :=
  {[ "id" := JNum 13; "name" := JStr "Empty"; "body" := JStr "plain text" ]}.

Definition broken : Template :=
  {[ "id" := JNum 14; "name" := JStr "Broken"; "html" := JStr "<p>x</p>" ]}.

Definition name_only : Template := {[ "name" := JStr "Bare" ]}.

(** Templates whose id, or whose name, is an object that cannot be
    converted to a string: its own [toString] is the number 1. *)
Definition odd_id : Template :=
  {[ "id" := JObj [("toString", JNum 1)]; "name" := JStr "Odd" ]}.

Definition odd_name : Template :=
  {[ "name" := JObj [("toString", JNum 1)] ]}.

(** The error of printing such an object. *)
Definition not_printable : JsError :=
  plain_error "Cannot convert object to primitive value".

(** Every source endpoint answers with the same list under the key its
    envelope reads. *)
Definition serves (l : list Template) (url : string) : Outcome ResponseData :=
  Ok (DataObject (Some (Some <$> l)) (Some (Some <$> l))).

(** Every source endpoint fails, each with its own error. *)
Definition all_down (url : string) : Outcome ResponseData :=
  if String.eqb url cms_url then Fail (http_error "cms down" (JStr "cms-body"))
  else if String.eqb url v3_url then Fail (http_error "v3 down" (JStr "v3-body"))
  else if String.eqb url v1_url then Fail (http_error "v1 down" (JStr "v1-body"))
  else Fail (http_error "public down" (JStr "public-body")).

Definition base_script (endpoint : string -> Outcome ResponseData) : Script :=
  {| sc_hubspot_store := stored "hs-stored";
     sc_sfmc_store := stored "sfmc-stored";
     sc_token_exchange := Ok {| accessToken := JStr "sfmc-minted" |};
     sc_folders := Ok [root_folder; child_folder];
     sc_new_folder := Ok created_folder;
     sc_client := Ok ();
     sc_endpoint := endpoint;
     sc_convert := passthrough;
     sc_create := picky_create |}.

(** A script that differs from [base_script] in what the two stores hold. *)
Definition store_script (hubspot sfmc : Outcome (option Tokens)) : Script :=
  {| sc_hubspot_store := hubspot;
     sc_sfmc_store := sfmc;
     sc_token_exchange := Ok {| accessToken := JStr "sfmc-minted" |};
     sc_folders := Ok [root_folder; child_folder];
     sc_new_folder := Ok created_folder;
     sc_client := Ok ();
     sc_endpoint := serves [promo];
     sc_convert := passthrough;
     sc_create := picky_create |}.

(** The source credential store cannot be read. *)
Definition store_down_script : Script :=
  {| sc_hubspot_store := Fail (plain_error "connection refused");
     sc_sfmc_store := stored "sfmc-stored";
     sc_token_exchange := Ok {| accessToken := JStr "sfmc-minted" |};
     sc_folders := Ok [root_folder; child_folder];
     sc_new_folder := Ok created_folder;
     sc_client := Ok ();
     sc_endpoint := serves [promo];
     sc_convert := passthrough;
     sc_create := picky_create |}.


Definition base_body : Body :=
  {| userId := JStr "user-1";
     hubspotToken := JUndefined;
     sfmcCredentials := None;
     limit := None;
     folderId := JUndefined;
     customTemplates := CtFalsy |}.

Definition negative_limit_body : Body :=
  {| userId := JStr "user-1";
     hubspotToken := JUndefined;
     sfmcCredentials := None;
     limit := Some (-1);
     folderId := JUndefined;
     customTemplates := CtFalsy |}.

Definition limit_two_body : Body :=
  {| userId := JStr "user-1";
     hubspotToken := JUndefined;
     sfmcCredentials := None;
     limit := Some 2;
     folderId := JUndefined;
     customTemplates := CtFalsy |}.

Definition demo_auth : SfmcAuth := sfmc_auth base_body (JStr "sfmc-stored").

(** A fetch-mode run over two templates, the second of which has no markup
    the handler recognises. *)
Definition skipping_run : Response * St nat :=
  POST (scripted (base_script (serves [both_fields; no_markup]))) base_body start.

Definition skipping_summary : Summary :=
  {| success := true;
     message := "Migrated 1 templates successfully";
     migrated := [ hubspot_success both_fields
                     {| asset_id := JNum 9001; asset_customerKey := JStr "key-9001" |} ];
     errors := None;
     templatesCount := 1;
     totalAttempted := Some 2%nat |}.

(** * Further vocabulary: the run as a whole *)

(** More readings of a stretch of the log: the providers asked of the
    credential store, the credentials handed to the token exchange, the
    tokens the source calls were made with, and the folder calls. *)
Definition store_lookups (evs : list Event) : list string :=
  omap (fun ev => match ev with
                  | EvGetIntegrationTokens _ provider => Some provider
                  | _ => None
                  end) evs.

Definition token_exchanges (evs : list Event) : list SfmcCredentials :=
  omap (fun ev => match ev with EvGetSFMCToken c => Some c | _ => None end) evs.

Definition fetch_tokens (evs : list Event) : list JValue :=
  omap (fun ev => match ev with
                  | EvCreateHubspotClient token | EvAxiosGet _ token => Some token
                  | _ => None
                  end) evs.

Definition folder_calls (evs : list Event) : list Event :=
  List.filter (fun ev => match ev with
                         | EvGetSFMCFolders _ | EvCreateSFMCFolder _ _ _ => true
                         | _ => false
                         end) evs.

(** A destination call, if [ev] is one, is made with [auth]. *)
Definition with_auth (auth : SfmcAuth) (ev : Event) : Prop :=
  match ev with
  | EvGetSFMCFolders a | EvCreateSFMCFolder a _ _
  | EvCreateEmailTemplate a _ _ _ _ => a = auth
  | _ => True
  end.

(** The four source endpoints in the order of lines 229-273. *)
Definition endpoint_order : list string := [cms_url; v3_url; v1_url; public_url].

(** The calls of the fetch: none, or the client construction followed by
    requests to an initial stretch of the endpoints, all with one token. *)
Definition fetch_stage (evs : list Event) : Prop :=
  evs = [] \/
  exists token urls,
    urls `prefix_of` endpoint_order /\
    evs = EvCreateHubspotClient token :: map (fun url => EvAxiosGet url token) urls.

(** A response as the handler shapes it: a 200 whose summary is consistent,
    or an error body with status 400 or 500. *)
Definition well_formed (r : Response) : Prop :=
  match payload r with
  | SummaryBody sm =>
      status r = 200 /\
      success sm = true /\
      templatesCount sm = length (migrated sm) /\
      errors sm <> Some [] /\
      Forall (fun m => mr_status m = "success") (migrated sm) /\
      Forall (fun e => er_status e = "error") (default [] (errors sm))
  | ErrorBody _ _ => status r = 400 \/ status r = 500
  end.

(** The names of the elements of a list that are objects. *)
Definition names (l : list Item) : list JValue :=
  omap (fun item => (fun t => get t "name") <$> item) l.

(** The request body with another [limit]. *)
Definition with_limit (body : Body) (lim : option Z) : Body :=
  {| userId := userId body;
     hubspotToken := hubspotToken body;
     sfmcCredentials := sfmcCredentials body;
     limit := lim;
     folderId := folderId body;
     customTemplates := customTemplates body |}.

(** Pointwise and staged versions of [emits]. *)
Definition emits_at {W A} (P : Event -> Prop) (m : M W A) (s : St W) : Prop :=
  exists evs, log (m s).2 = log s ++ evs /\ Forall P evs.

Definition staged {W A} (m : M W A) : Prop :=
  forall s, exists e0 e1 e2,
    log (m s).2 = log s ++ e0 ++ e1 ++ e2 /\
    Forall (fun ev => phase ev = Setup) e0 /\
    fetch_stage e1 /\
    Forall (fun ev => phase ev = Migrating) e2.

(** Every response a computation returns early satisfies [G]. *)
Definition returns_only {W A} (G : Response -> Prop) (m : M W A) : Prop :=
  forall s r s', m s = (Returned r, s') -> G r.

(** ** More scripted runs *)

Definition inline_creds : SfmcCredentials :=
  {| clientId := JStr "client"; clientSecret := JStr "secret";
     subdomain := JStr "mc-sub" |}.

(** A request that carries both tokens' material and the folder itself. *)
Definition inline_body : Body :=
  {| userId := JStr "user-1";
     hubspotToken := JStr "hs-inline";
     sfmcCredentials := Some inline_creds;
     limit := None;
     folderId := JStr "folder-42";
     customTemplates := CtFalsy |}.

Definition anonymous_body : Body :=
  {| userId := JStr "";
     hubspotToken := JStr "hs-inline";
     sfmcCredentials := Some inline_creds;
     limit := None;
     folderId := JStr "folder-42";
     customTemplates := CtFalsy |}.

(** The token exchange is refused. *)
Definition exchange_refused_script : Script :=
  {| sc_hubspot_store := stored "hs-stored";
     sc_sfmc_store := stored "sfmc-stored";
     sc_token_exchange := Fail (plain_error "invalid_client");
     sc_folders := Ok [root_folder; child_folder];
     sc_new_folder := Ok created_folder;
     sc_client := Ok ();
     sc_endpoint := serves [promo];
     sc_convert := passthrough;
     sc_create := picky_create |}.

(** The folders cannot be listed. *)
Definition folders_down_script : Script :=
  {| sc_hubspot_store := stored "hs-stored";
     sc_sfmc_store := stored "sfmc-stored";
     sc_token_exchange := Ok {| accessToken := JStr "sfmc-minted" |};
     sc_folders := Fail (plain_error "403");
     sc_new_folder := Ok created_folder;
     sc_client := Ok ();
     sc_endpoint := serves [promo];
     sc_convert := passthrough;
     sc_create := picky_create |}.

(** The source client cannot be built. *)
Definition client_down_script : Script :=
  {| sc_hubspot_store := stored "hs-stored";
     sc_sfmc_store := stored "sfmc-stored";
     sc_token_exchange := Ok {| accessToken := JStr "sfmc-minted" |};
     sc_folders := Ok [root_folder; child_folder];
     sc_new_folder := Ok created_folder;
     sc_client := Fail (plain_error "bad token");
     sc_endpoint := serves [promo];
     sc_convert := passthrough;
     sc_create := picky_create |}.

(** A converter that rejects every template. *)
Definition rejecting_script : Script :=
  {| sc_hubspot_store := stored "hs-stored";
     sc_sfmc_store := stored "sfmc-stored";
     sc_token_exchange := Ok {| accessToken := JStr "sfmc-minted" |};
     sc_folders := Ok [root_folder; child_folder];
     sc_new_folder := Ok created_folder;
     sc_client := Ok ();
     sc_endpoint := serves [promo];
     sc_convert := fun _ => Fail (plain_error "unsupported module");
     sc_create := picky_create |}.

(** The two lists hold, in the order of the items, one entry per name of
    [names]: each name in exactly one of the lists, successes in the first
    and errors in the second, all of the given kind. *)
Definition entries_follow (kind : SourceKind) (names : list JValue) (acc : Acc) : Prop :=
  map mr_name acc.1 `sublist_of` names /\
  map er_name acc.2 `sublist_of` names /\
  map mr_name acc.1 ++ map er_name acc.2 ≡ₚ names /\
  Forall (fun m => mr_kind m = kind /\ mr_status m = "success") acc.1 /\
  Forall (fun e => er_kind e = kind /\ er_status e = "error") acc.2.

(** The calls a run can make once it works with source token [tok],
    destination token [stok] and folder [folder]: each kind of call with the
    arguments the handler gives it. *)
Inductive run_event (body : Body) (tok stok folder : JValue) : Event -> Prop :=
| re_source_lookup :
    truthy (hubspotToken body) = false ->
    run_event body tok stok folder (EvGetIntegrationTokens (userId body) "hubspot")
| re_destination_lookup :
    inline_credentials body = None ->
    run_event body tok stok folder (EvGetIntegrationTokens (userId body) "sfmc")
| re_exchange c :
    inline_credentials body = Some c ->
    run_event body tok stok folder (EvGetSFMCToken c)
| re_list_folders :
    truthy (folderId body) = false ->
    run_event body tok stok folder (EvGetSFMCFolders (sfmc_auth body stok))
| re_create_folder parent :
    truthy (folderId body) = false ->
    run_event body tok stok folder
      (EvCreateSFMCFolder (sfmc_auth body stok) "HubSpot Templates" parent)
| re_client :
    custom_list (customTemplates body) = None ->
    run_event body tok stok folder (EvCreateHubspotClient tok)
| re_request url :
    custom_list (customTemplates body) = None ->
    url ∈ endpoint_order ->
    run_event body tok stok folder (EvAxiosGet url tok)
| re_convert t :
    run_event body tok stok folder (EvConvert t)
| re_create_asset name content channels slots :
    run_event body tok stok folder
      (EvCreateEmailTemplate (sfmc_auth body stok) name content folder
         {| meta_channels := channels; meta_slots := slots;
            meta_assetType_name := "template"; meta_assetType_id := 4 |}).

(** The calls of a loop, read as a sequence of conversions: each is the
    conversion of some template with its markup as [source], followed, only
    when the converter returned, by the creation of an asset with that
    template's name and the content, channels and slots the converter
    returned for it. *)
Inductive conversions {W} (env : Collaborators W) (auth : SfmcAuth) (folder : JValue)
  : list Event -> Prop :=
| conversions_nil : conversions env auth folder []
| conversions_failed t markup e evs :
    convertHubspotTemplate env (with_source t markup) = Fail e ->
    conversions env auth folder evs ->
    conversions env auth folder (EvConvert (with_source t markup) :: evs)
| conversions_created t markup cv evs :
    convertHubspotTemplate env (with_source t markup) = Ok cv ->
    conversions env auth folder evs ->
    conversions env auth folder
      (EvConvert (with_source t markup)
       :: EvCreateEmailTemplate auth (get t "name") (cv_content cv) folder
            {| meta_channels := cv_channels cv; meta_slots := cv_slots cv;
               meta_assetType_name := "template"; meta_assetType_id := 4 |}
       :: evs).

(** The first endpoint answers without a body; the others are down. *)
Definition bodiless_first (url : string) : Outcome ResponseData :=
  if String.eqb url cms_url then Ok DataNull else all_down url.

(** The first two endpoints are down and the third answers without a body. *)
Definition bodiless_third (url : string) : Outcome ResponseData :=
  if String.eqb url v1_url then Ok DataUndefined else all_down url.

(** A computation whose stretch of the log has the shape [S]. *)
Definition emits_shape {W A} (S : list Event -> Prop) (m : M W A) : Prop :=
  forall s, exists evs, log (m s).2 = log s ++ evs /\ S evs.

(** The shapes of the three setup stretches. *)
Definition source_setup (body : Body) (evs : list Event) : Prop :=
  evs = [] \/
  (truthy (hubspotToken body) = false /\
   evs = [EvGetIntegrationTokens (userId body) "hubspot"]).

Definition destination_setup (body : Body) (evs : list Event) : Prop :=
  evs = [] \/
  (exists c, evs = [EvGetSFMCToken c]) \/
  evs = [EvGetIntegrationTokens (userId body) "sfmc"].

Definition folder_setup (body : Body) (evs : list Event) : Prop :=
  evs = [] \/
  (truthy (folderId body) = false /\
   exists auth,
     evs = [EvGetSFMCFolders auth] \/
     exists parent,
       evs = [EvGetSFMCFolders auth;
              EvCreateSFMCFolder auth "HubSpot Templates" parent]).

(** The values a run works with: what the three setup steps yield from
    state [s], one after the other (the request's own values where a step
    yields none). *)
Definition resolved_source_token {W} (env : Collaborators W) (body : Body) (s : St W)
  : JValue :=
  match (resolveHubspotToken env body s).1 with
  | Val t => t
  | _ => hubspotToken body
  end.

Definition resolved_destination_token {W} (env : Collaborators W) (body : Body)
    (s : St W) : JValue :=
  match (resolveSfmcToken env body (resolveHubspotToken env body s).2).1 with
  | Val t => t
  | _ => JUndefined
  end.

Definition resolved_folder {W} (env : Collaborators W) (body : Body) (s : St W)
  : JValue :=
  match (resolveFolder env body
           (sfmc_auth body (resolved_destination_token env body s))
           (resolveSfmcToken env body (resolveHubspotToken env body s).2).2).1 with
  | Val f => f
  | _ => folderId body
  end.

(** The list the source fetch of the run from [s] yields, when the fetch
    yields a list. *)
Definition fetched {W} (env : Collaborators W) (body : Body) (s : St W)
  : option (list Item) :=
  let s3 := (resolveFolder env body
               (sfmc_auth body (resolved_destination_token env body s))
               (resolveSfmcToken env body (resolveHubspotToken env body s).2).2).2 in
  let tok := resolved_source_token env body s in
  match fetchHubspotTemplates env tok
          (after s3 [EvCreateHubspotClient tok] (world s3)) with
  | (Val (FetchedList l), _) => Some l
  | _ => None
  end.

(** The templates a run attempts: the supplied ones in custom mode, the
    fetched ones cut to the limit in fetch mode. *)
Definition attempted {W} (env : Collaborators W) (body : Body) (s : St W)
  : list Item :=
  match custom_list (customTemplates body) with
  | Some custom => custom
  | None => from_option (templateToMigrate body) [] (fetched env body s)
  end.

(** Those of them that are skipped: none in custom mode. *)
Definition skipped_of {W} (env : Collaborators W) (body : Body) (s : St W)
  : list Item :=
  match custom_list (customTemplates body) with
  | Some _ => []
  | None => List.filter skipped (attempted env body s)
  end.

(** The first two endpoints are down and the third answers with an object
    that is not a list. *)
Definition object_third (url : string) : Outcome ResponseData :=
  if String.eqb url v1_url then Ok (DataObject None None) else all_down url.
(** * Verification *)

(** ** Call logs *)

Section Emits.
Context {W : Type} (P : Event -> Prop).

Lemma emits_ret {A} (a : A) : emits (W:=W) P (ret a).
Proof. intros s. exists []. simpl. rewrite app_nil_r. auto. Qed.

Lemma emits_throw {A} e : emits (W:=W) (A:=A) P (throw e).
Proof. intros s. exists []. simpl. rewrite app_nil_r. auto. Qed.

Lemma emits_respond {A} r : emits (W:=W) (A:=A) P (respond r).
Proof. intros s. exists []. simpl. rewrite app_nil_r. auto. Qed.

Lemma emits_of_outcome {A} (o : Outcome A) : emits (W:=W) P (of_outcome o).
Proof. destruct o; [apply emits_ret | apply emits_throw]. Qed.

Lemma emits_bind {A B} (m : M W A) (k : A -> M W B) :
  emits P m -> (forall a, emits P (k a)) -> emits P (bind m k).
Proof.
  intros Hm Hk s. unfold bind.
  destruct (Hm s) as (e1 & H1 & F1).
  destruct (m s) as [[a | e | r] s1] eqn:E; simpl in *.
  - destruct (Hk a s1) as (e2 & H2 & F2).
    exists (e1 ++ e2). rewrite H2, H1, app_assoc. split; [done | by apply Forall_app].
  - exists e1. auto.
  - exists e1. auto.
Qed.

Lemma emits_try_catch {A} (m : M W A) (h : JsError -> M W A) :
  emits P m -> (forall e, emits P (h e)) -> emits P (try_catch m h).
Proof.
  intros Hm Hh s. unfold try_catch.
  destruct (Hm s) as (e1 & H1 & F1).
  destruct (m s) as [[a | e | r] s1] eqn:E; simpl in *.
  - exists e1. auto.
  - destruct (Hh e s1) as (e2 & H2 & F2).
    exists (e1 ++ e2). rewrite H2, H1, app_assoc. split; [done | by apply Forall_app].
  - exists e1. auto.
Qed.

Lemma emits_call {A} ev (f : W -> Outcome A * W) : P ev -> emits P (call ev f).
Proof.
  intros Hev s. unfold call. destruct (f (world s)) as [o w'].
  exists [ev]. destruct o; simpl; auto.
Qed.

Lemma emits_call_sync {A} ev (o : Outcome A) : P ev -> emits (W:=W) P (call_sync ev o).
Proof. apply emits_call. Qed.

Lemma emits_read {A} (f : W -> A * W) : emits P (read f).
Proof.
  intros s. unfold read. destruct (f (world s)) as [a w'].
  exists []. simpl. rewrite app_nil_r. auto.
Qed.

Lemma emits_for_each {A S} (body : A -> S -> M W S) (l : list A) :
  (forall x acc, emits P (body x acc)) -> forall acc, emits P (for_each body l acc).
Proof.
  intros Hb. induction l as [| x l IH]; intros acc; simpl.
  - apply emits_ret.
  - apply emits_bind; auto.
Qed.

Lemma emits_if {A} (b : bool) (m1 m2 : M W A) :
  emits P m1 -> emits P m2 -> emits P (if b then m1 else m2).
Proof. by destruct b. Qed.

End Emits.

Lemma emits_weaken {W A} (P Q : Event -> Prop) (m : M W A) :
  (forall ev, P ev -> Q ev) -> emits P m -> emits Q m.
Proof.
  intros HPQ Hm s. destruct (Hm s) as (evs & H & F).
  exists evs. split; [done |]. eapply Forall_impl; eauto.
Qed.


(** ** States *)

Lemma after_after {W} (s : St W) evs1 w1 evs2 w2 :
  after (after s evs1 w1) evs2 w2 = after s (evs1 ++ evs2) w2.
Proof. unfold after; simpl. by rewrite app_assoc. Qed.

Lemma after_nil {W} (s : St W) : after s [] (world s) = s.
Proof. destruct s. unfold after; simpl. by rewrite app_nil_r. Qed.

Lemma after_quiet {W} (s : St W) w : {| world := w; log := log s |} = after s [] w.
Proof. unfold after. by rewrite app_nil_r. Qed.

(** ** Printing *)

Lemma print_printable v :
  printable v = true -> exists text, to_string v = Some text /\ print v = Ok text.
Proof.
  unfold printable, print. destruct (to_string v) as [text |]; [eauto | done].
Qed.

Lemma print_unprintable v :
  printable v = false ->
  print v = Fail (plain_error "Cannot convert object to primitive value").
Proof. unfold printable, print. by destruct (to_string v). Qed.

Lemma custom_markup_source t :
  printable (get t "name") = true -> custom_markup t = Ok (custom_source t).
Proof.
  intros Hp. unfold custom_source, custom_markup.
  destruct (truthy (or_else (get t "content") (get t "html"))); [done |].
  destruct (print_printable _ Hp) as (text & _ & ->). done.
Qed.

(** ** The two loops *)

Lemma extend_nil d : extend ([], []) d = d.
Proof. by destruct d. Qed.

Lemma extend_nil_r acc : extend acc ([], []) = acc.
Proof. destruct acc. unfold extend; simpl. by rewrite !app_nil_r. Qed.

Lemma extend_assoc a b c : extend (extend a b) c = extend a (extend b c).
Proof. unfold extend; simpl. by rewrite !app_assoc. Qed.

Lemma processed_all l : stopper l = None -> processed l = l.
Proof.
  unfold stopper. induction l as [| item l IH]; simpl; [done |].
  destruct (loggable item); simpl; [intros H; by rewrite IH | done].
Qed.

Lemma stopper_forallb l : stopper l = None <-> forallb loggable l = true.
Proof.
  unfold stopper. induction l as [| item l IH]; simpl; [done |].
  destruct (loggable item); simpl; [exact IH | done].
Qed.

Lemma stopper_not_loggable l item : stopper l = Some item -> loggable item = false.
Proof.
  unfold stopper. intros H. apply List.find_some in H as [_ H].
  by apply negb_true_iff.
Qed.

Lemma processed_prefix l : processed l `prefix_of` l.
Proof.
  induction l as [| item l IH]; simpl; [done |].
  destruct (loggable item); [by apply prefix_cons | apply prefix_nil].
Qed.

Lemma processed_loggable l : Forall (fun item => loggable item = true) (processed l).
Proof.
  induction l as [| item l IH]; simpl; [constructor |].
  destruct (loggable item) eqn:E; by constructor.
Qed.

Section Loops.
Context {W : Type} (env : Collaborators W).
Variables (auth : SfmcAuth) (folder : JValue).

Lemma for_each_app {A S} (body : A -> S -> M W S) (l1 l2 : list A) acc s :
  for_each body (l1 ++ l2) acc s =
  match for_each body l1 acc s with
  | (Val acc1, s1) => for_each body l2 acc1 s1
  | other => other
  end.
Proof.
  revert acc s. induction l1 as [| x l1 IH]; intros acc s; simpl; [done |].
  unfold bind. destruct (body x acc s) as [[a | e | r] s1]; auto.
Qed.

(** [convert_and_create] spelled out: it makes the calls of
    [conversion_calls] and yields or throws what [conversion_result] says. *)
Lemma convert_and_create_run (t : Template) (markup : JValue) (s : St W) :
  convert_and_create env auth folder t markup s =
  (match (conversion_result env auth folder t markup (world s)).1 with
   | Ok result => Val result
   | Fail e => Thrown e
   end,
   after s (conversion_calls env auth folder t markup)
         (conversion_result env auth folder t markup (world s)).2).
Proof.
  unfold convert_and_create, conversion_result, conversion_calls,
    bind, call_sync, call, after; simpl.
  destruct (convertHubspotTemplate env (with_source t markup)) as [cv | e]; simpl; [| done].
  destruct (createEmailTemplate env auth (get t "name") (cv_content cv) folder
              (asset_meta cv) (world s)) as [[a | e] w']; simpl;
    by rewrite <- app_assoc.
Qed.

(** A throw of conversion or creation is what [conversion_result] fails with. *)
Lemma item_throws_result (t : Template) (markup : JValue) w e w' :
  item_throws env auth folder t markup w e w' <->
  conversion_result env auth folder t markup w = (Fail e, w').
Proof.
  unfold item_throws, conversion_result. split.
  - intros [[-> ->] | (cv & -> & Ha)]; done.
  - destruct (convertHubspotTemplate env (with_source t markup)) as [cv | e0].
    + intros Ha. right. eauto.
    + intros [= -> ->]. by left.
Qed.

Lemma custom_id_run (t : Template) (s : St W) :
  custom_id env t s =
  (Val (custom_id_of env t (world s)).1, after s [] (custom_id_of env t (world s)).2).
Proof.
  unfold custom_id, custom_id_of. destruct (truthy (get t "id")); simpl.
  - by rewrite after_nil.
  - unfold bind, read. destruct (date_now env (world s)) as [now w']. simpl.
    by rewrite after_quiet.
Qed.

(** The custom-mode loop body on an object whose name can be printed. *)
Lemma migrate_custom_item_run (t : Template) acc (s : St W) :
  printable (get t "name") = true ->
  migrate_custom_item env auth folder t acc s =
  (Val (extend acc (custom_entry env auth folder (Some t) (world s)).1),
   after s (custom_calls env auth folder (Some t))
         (custom_entry env auth folder (Some t) (world s)).2).
Proof.
  intros Hp. destruct (print_printable _ Hp) as (text & _ & Hprint).
  unfold migrate_custom_item, try_catch. unfold bind at 1 2 3.
  rewrite Hprint, (custom_markup_source t Hp). simpl of_outcome. unfold ret at 1 2.
  rewrite convert_and_create_run. unfold custom_entry, custom_calls.
  destruct (conversion_result env auth folder t (custom_source t) (world s))
    as [[result | e] w1]; simpl.
  - unfold bind. rewrite custom_id_run. simpl. rewrite after_after, app_nil_r.
    unfold extend; simpl. by rewrite app_nil_r.
  - unfold bind. simpl. rewrite custom_id_run. simpl.
    rewrite after_after, app_nil_r. unfold extend; simpl. by rewrite app_nil_r.
Qed.

(** On one whose name cannot, both log lines throw. *)
Lemma migrate_custom_item_stops (t : Template) acc (s : St W) :
  printable (get t "name") = false ->
  migrate_custom_item env auth folder t acc s = (Thrown (log_error (Some t)), s).
Proof.
  intros Hp. unfold migrate_custom_item, try_catch, bind.
  by rewrite (print_unprintable _ Hp).
Qed.

Lemma migrate_custom_element_run item acc (s : St W) :
  loggable item = true ->
  migrate_custom_element env auth folder item acc s =
  (Val (extend acc (custom_entry env auth folder item (world s)).1),
   after s (custom_calls env auth folder item)
         (custom_entry env auth folder item (world s)).2).
Proof.
  destruct item as [t |]; [apply migrate_custom_item_run | done].
Qed.

Lemma migrate_custom_element_stops item acc (s : St W) :
  loggable item = false ->
  migrate_custom_element env auth folder item acc s = (Thrown (log_error item), s).
Proof.
  destruct item as [t |]; [apply migrate_custom_item_stops | done].
Qed.

(** The fetch-mode loop body on an object whose name can be printed. *)
Lemma migrate_item_run (t : Template) acc (s : St W) :
  printable (get t "name") = true ->
  migrate_item env auth folder t acc s =
  (Val (extend acc (fetch_entry env auth folder (Some t) (world s)).1),
   after s (fetch_calls env auth folder (Some t))
         (fetch_entry env auth folder (Some t) (world s)).2).
Proof.
  intros Hp. destruct (print_printable _ Hp) as (text & _ & Hprint).
  unfold migrate_item, try_catch. unfold bind at 1 2.
  rewrite Hprint. simpl of_outcome. unfold ret at 1.
  unfold fetch_entry, fetch_calls, printable, print.
  destruct (to_string (get t "id")) as [idtext |] eqn:Hid; simpl.
  - unfold has_markup. destruct (truthy (resolve_markup t)) eqn:Hm; simpl.
    + unfold bind. rewrite convert_and_create_run.
      destruct (conversion_result env auth folder t (resolve_markup t) (world s))
        as [[result | e] w1]; simpl.
      * unfold extend; simpl. by rewrite app_nil_r.
      * unfold extend; simpl. by rewrite app_nil_r.
    + by rewrite after_nil, extend_nil_r.
  - rewrite after_nil. unfold extend; simpl. by rewrite app_nil_r.
Qed.

Lemma migrate_item_stops (t : Template) acc (s : St W) :
  printable (get t "name") = false ->
  migrate_item env auth folder t acc s = (Thrown (log_error (Some t)), s).
Proof.
  intros Hp. unfold migrate_item, try_catch, bind.
  by rewrite (print_unprintable _ Hp).
Qed.

Lemma migrate_element_run item acc (s : St W) :
  loggable item = true ->
  migrate_element env auth folder item acc s =
  (Val (extend acc (fetch_entry env auth folder item (world s)).1),
   after s (fetch_calls env auth folder item)
         (fetch_entry env auth folder item (world s)).2).
Proof.
  destruct item as [t |]; [apply migrate_item_run | done].
Qed.

Lemma migrate_element_stops item acc (s : St W) :
  loggable item = false ->
  migrate_element env auth folder item acc s = (Thrown (log_error item), s).
Proof.
  destruct item as [t |]; [apply migrate_item_stops | done].
Qed.

(** A loop whose body behaves like that gets through the elements before
    the first one that is not loggable, adds what they add and makes their
    calls; it ends with a value when there is no such element and with that
    element's error otherwise. *)
Lemma for_each_elements (body : Item -> Acc -> M W Acc)
    (entry : Item -> W -> Acc * W) (calls : Item -> list Event) :
  (forall item acc s, loggable item = true ->
      body item acc s =
        (Val (extend acc (entry item (world s)).1),
         after s (calls item) (entry item (world s)).2)) ->
  (forall item acc s, loggable item = false ->
      body item acc s = (Thrown (log_error item), s)) ->
  forall l acc s,
    for_each body l acc s =
      (match stopper l with
       | None => Val (extend acc (entries entry l (world s)).1)
       | Some item => Thrown (log_error item)
       end,
       after s (concat (map calls (processed l))) (entries entry l (world s)).2).
Proof.
  intros Hrun Hstop. unfold stopper.
  induction l as [| item l IH]; intros acc s; simpl.
  - by rewrite after_nil, extend_nil_r.
  - unfold bind. destruct (loggable item) eqn:E; simpl.
    + rewrite Hrun by done. rewrite IH. simpl.
      rewrite after_after, extend_assoc. reflexivity.
    + rewrite Hstop by done. by rewrite after_nil.
Qed.

Lemma custom_loop_run (l : list Item) acc (s : St W) :
  for_each (migrate_custom_element env auth folder) l acc s =
    (match stopper l with
     | None =>
         Val (extend acc (entries (custom_entry env auth folder) l (world s)).1)
     | Some item => Thrown (log_error item)
     end,
     after s (concat (map (custom_calls env auth folder) (processed l)))
           (entries (custom_entry env auth folder) l (world s)).2).
Proof.
  apply for_each_elements;
    [apply migrate_custom_element_run | apply migrate_custom_element_stops].
Qed.

Lemma fetch_loop_run (l : list Item) acc (s : St W) :
  for_each (migrate_element env auth folder) l acc s =
    (match stopper l with
     | None =>
         Val (extend acc (entries (fetch_entry env auth folder) l (world s)).1)
     | Some item => Thrown (log_error item)
     end,
     after s (concat (map (fetch_calls env auth folder) (processed l)))
           (entries (fetch_entry env auth folder) l (world s)).2).
Proof.
  apply for_each_elements; [apply migrate_element_run | apply migrate_element_stops].
Qed.

(** How many entries the elements add. *)
Lemma custom_entry_weight item w :
  loggable item = true ->
  (length (custom_entry env auth folder item w).1.1 +
   length (custom_entry env auth folder item w).1.2 = 1)%nat.
Proof.
  destruct item as [t |]; [| done]. intros _. unfold custom_entry. simpl.
  by destruct (conversion_result env auth folder t (custom_source t) w).1.
Qed.

Lemma fetch_entry_weight item w :
  loggable item = true ->
  (length (fetch_entry env auth folder item w).1.1 +
   length (fetch_entry env auth folder item w).1.2 =
   if skipped item then 0 else 1)%nat.
Proof.
  destruct item as [t |]; [| done]. intros _.
  unfold fetch_entry, skipped, printable, print.
  destruct (to_string (get t "id")); simpl; [| done].
  destruct (has_markup t); simpl; [| done].
  by destruct (conversion_result env auth folder t (resolve_markup t) w).1.
Qed.

Lemma entries_weight (entry : Item -> W -> Acc * W) (weight : Item -> nat) :
  (forall item w, loggable item = true ->
      (length (entry item w).1.1 + length (entry item w).1.2 = weight item)%nat) ->
  forall l w,
    (length (entries entry l w).1.1 + length (entries entry l w).1.2 =
     sum_list (map weight (processed l)))%nat.
Proof.
  intros Hw. induction l as [| item l IH]; intros w; simpl; [done |].
  destruct (loggable item) eqn:E; simpl; [| done].
  rewrite !length_app. specialize (Hw item w E). specialize (IH (entry item w).2). lia.
Qed.

Lemma sum_list_ones {A} (l : list A) : sum_list (map (fun _ => 1%nat) l) = length l.
Proof. induction l; simpl; auto. Qed.

Lemma sum_list_unless {A} (p : A -> bool) (l : list A) :
  (sum_list (map (fun x => if p x then 0%nat else 1%nat) l) + length (List.filter p l)
   = length l)%nat.
Proof. induction l as [| x l IH]; simpl; [done |]. destruct (p x); simpl; lia. Qed.

Lemma custom_entries_weight l w :
  (length (entries (custom_entry env auth folder) l w).1.1 +
   length (entries (custom_entry env auth folder) l w).1.2 = length (processed l))%nat.
Proof.
  rewrite (entries_weight _ (fun _ => 1%nat)); [apply sum_list_ones |].
  intros. by apply custom_entry_weight.
Qed.

Lemma fetch_entries_weight l w :
  (length (entries (fetch_entry env auth folder) l w).1.1 +
   length (entries (fetch_entry env auth folder) l w).1.2 +
   length (List.filter skipped (processed l)) = length (processed l))%nat.
Proof.
  rewrite (entries_weight _ (fun item => if skipped item then 0%nat else 1%nat)).
  - apply sum_list_unless.
  - intros. by apply fetch_entry_weight.
Qed.

End Loops.

(** ** Credentials and folder: how a run can leave the setup *)

Section Setup.
Context {W : Type} (env : Collaborators W).

Lemma POST_finish body s : POST env body s = finish (handler env body s).
Proof. reflexivity. Qed.

(** The source token comes from the request, from the store, or the run
    ends with one of two error responses. *)
Lemma resolveHubspotToken_cases body s :
  (exists tok s', resolveHubspotToken env body s = (Val tok, s')) \/
  (exists msg st s',
      resolveHubspotToken env body s = (Returned (json_error st msg None), s')).
Proof.
  unfold resolveHubspotToken. destruct (truthy (hubspotToken body)).
  - left. eexists _, _. reflexivity.
  - unfold try_catch, bind, call.
    destruct (getIntegrationTokens env (userId body) "hubspot" (world s))
      as [[[t |] | e] w']; simpl.
    + left. eexists _, _. reflexivity.
    + right. eexists _, _, _. reflexivity.
    + right. eexists _, _, _. reflexivity.
Qed.

Lemma resolveSfmcToken_cases body s :
  (exists tok s', resolveSfmcToken env body s = (Val tok, s')) \/
  (exists msg s',
      resolveSfmcToken env body s = (Returned (json_error 400 msg None), s')).
Proof.
  unfold resolveSfmcToken. destruct (inline_credentials body) as [c |].
  - unfold try_catch, bind, call.
    destruct (getSFMCToken env c (world s)) as [[t | e] w']; simpl.
    + left. eexists _, _. reflexivity.
    + right. eexists _, _. reflexivity.
  - unfold try_catch, bind, call.
    destruct (getIntegrationTokens env (userId body) "sfmc" (world s))
      as [[[t |] | e] w']; simpl.
    + left. eexists _, _. reflexivity.
    + right. eexists _, _. reflexivity.
    + right. eexists _, _. reflexivity.
Qed.

(** A [folderId] of the request is used as it is, once it has been printed;
    one that cannot be printed is thrown out of the handler. *)
Lemma resolveFolder_explicit body auth (s : St W) :
  truthy (folderId body) = true ->
  resolveFolder env body auth s =
    (if printable (folderId body) then Val (folderId body)
     else Thrown (plain_error "Cannot convert object to primitive value"), s).
Proof.
  intros H. unfold resolveFolder. rewrite H. unfold bind, printable, print.
  by destruct (to_string (folderId body)).
Qed.

(** The folder step spelled out for a request without [folderId]. *)
Lemma resolveFolder_listed body auth (s : St W) :
  truthy (folderId body) = false ->
  resolveFolder env body auth s =
  match getSFMCFolders env auth (world s) with
  | (Fail _, w3) => (Returned folder_failed, after s [EvGetSFMCFolders auth] w3)
  | (Ok items, w3) =>
      match List.find is_content_builder items with
      | None => (Returned folder_failed, after s [EvGetSFMCFolders auth] w3)
      | Some root =>
          match List.find (is_hubspot_child root) items with
          | Some child =>
              (if printable (folder_id child) then Val (folder_id child)
               else Returned folder_failed,
               after s [EvGetSFMCFolders auth] w3)
          | None =>
              match createSFMCFolder env auth "HubSpot Templates" (folder_id root) w3 with
              | (Ok newFolder, w4) =>
                  (if printable (folder_id newFolder) then Val (folder_id newFolder)
                   else Returned folder_failed,
                   after s [EvGetSFMCFolders auth;
                            EvCreateSFMCFolder auth "HubSpot Templates" (folder_id root)]
                         w4)
              | (Fail _, w4) =>
                  (Returned folder_failed,
                   after s [EvGetSFMCFolders auth;
                            EvCreateSFMCFolder auth "HubSpot Templates" (folder_id root)]
                         w4)
              end
          end
      end
  end.
Proof.
  intros Hf. unfold resolveFolder. rewrite Hf.
  unfold try_catch, bind, call, printable, print, after.
  destruct (getSFMCFolders env auth (world s)) as [[items | e] w3]; simpl; [| done].
  destruct (List.find is_content_builder items) as [root |]; simpl; [| done].
  destruct (List.find (is_hubspot_child root) items) as [child |]; simpl.
  - by destruct (to_string (folder_id child)).
  - destruct (createSFMCFolder env auth "HubSpot Templates" (folder_id root) w3)
      as [[nf | e] w4]; simpl; [| by rewrite <- app_assoc].
    destruct (to_string (folder_id nf)); simpl; by rewrite <- app_assoc.
Qed.

Lemma resolveFolder_cases body auth s :
  (exists f s', resolveFolder env body auth s = (Val f, s')) \/
  (exists s', resolveFolder env body auth s = (Returned folder_failed, s')) \/
  (truthy (folderId body) = true /\
   exists e, resolveFolder env body auth s = (Thrown e, s)).
Proof.
  destruct (truthy (folderId body)) eqn:Hf.
  - rewrite resolveFolder_explicit by done.
    destruct (printable (folderId body)); [left | right; right]; eauto.
  - rewrite resolveFolder_listed by done.
    repeat match goal with
           | |- context [match ?x with _ => _ end] => destruct x
           | |- context [if ?x then _ else _] => destruct x
           end; eauto.
Qed.

(** The handler spelled out once the setup has succeeded. *)
Lemma handler_reaches_migrate body s tok s1 stok s2 folder s3 :
  truthy (userId body) = true ->
  resolveHubspotToken env body s = (Val tok, s1) ->
  resolveSfmcToken env body s1 = (Val stok, s2) ->
  resolveFolder env body (sfmc_auth body stok) s2 = (Val folder, s3) ->
  handler env body s = migrate env body (sfmc_auth body stok) folder tok s3.
Proof.
  intros Hu H1 H2 H3. unfold handler. rewrite Hu; simpl.
  unfold bind. rewrite H1, H2, H3. reflexivity.
Qed.

(** Either the run ends during setup, with an error response or with the
    error of printing the request's [folderId], or it reaches the migration
    with both tokens and the folder resolved. *)
Lemma handler_cases body s :
  (exists msg st det s',
      handler env body s = (Returned (json_error st msg det), s')) \/
  (exists e s', handler env body s = (Thrown e, s')) \/
  (exists tok s1 stok s2 folder s3,
      truthy (userId body) = true /\
      resolveHubspotToken env body s = (Val tok, s1) /\
      resolveSfmcToken env body s1 = (Val stok, s2) /\
      resolveFolder env body (sfmc_auth body stok) s2 = (Val folder, s3) /\
      handler env body s = migrate env body (sfmc_auth body stok) folder tok s3).
Proof.
  destruct (truthy (userId body)) eqn:Hu.
  2:{ left. unfold handler. rewrite Hu. eexists _, _, _, _. reflexivity. }
  destruct (resolveHubspotToken_cases body s) as [(tok & s1 & H1) | (m & st & s1 & H1)].
  2:{ left. unfold handler. rewrite Hu. cbn [negb]. unfold bind. rewrite H1.
      eexists _, _, _, _. reflexivity. }
  destruct (resolveSfmcToken_cases body s1) as [(stok & s2 & H2) | (m & s2 & H2)].
  2:{ left. unfold handler. rewrite Hu. cbn [negb]. unfold bind. rewrite H1, H2.
      eexists _, _, _, _. reflexivity. }
  destruct (resolveFolder_cases body (sfmc_auth body stok) s2)
    as [(f & s3 & H3) | [(s3 & H3) | (_ & e & H3)]].
  - right. right. exists tok, s1, stok, s2, f, s3.
    repeat split; auto. eapply handler_reaches_migrate; eauto.
  - left. unfold handler. rewrite Hu. cbn [negb]. unfold bind. rewrite H1, H2, H3.
    eexists _, _, _, _. reflexivity.
  - right. left. unfold handler. rewrite Hu. cbn [negb]. unfold bind.
    rewrite H1, H2, H3. eauto.
Qed.

End Setup.

(** ** The endpoint chain *)

Lemma requests_app token urls1 urls2 :
  requests token (urls1 ++ urls2) = requests token urls1 ++ requests token urls2.
Proof. unfold requests. destruct (printable token); [apply map_app | done]. Qed.

Section Fetch.
Context {W : Type} (env : Collaborators W).

Lemma get_templates_attempt url token envelope (s : St W) :
  get_templates env url token envelope s =
  (match (attempt env url token envelope (world s)).1 with
   | Ok f => Val f
   | Fail e => Thrown e
   end,
   after s (requests token [url]) (attempt env url token envelope (world s)).2).
Proof.
  unfold get_templates, attempt, requests, printable, print, bind.
  destruct (to_string token) as [text |]; simpl; [| by rewrite after_nil].
  unfold call, after.
  destruct (axios_get env url token (world s)) as [[d | e] w']; simpl; [| done].
  destruct (envelope d); reflexivity.
Qed.

(** The chain result, by the outcomes of the four attempts made in order,
    each from the world the previous one left. *)
Lemma fetch_chain token (s : St W) :
  let a1 := attempt env cms_url token read_objects (world s) in
  let a2 := attempt env v3_url token read_results a1.2 in
  let a3 := attempt env v1_url token read_bare a2.2 in
  let a4 := attempt env public_url token read_objects a3.2 in
  fetchHubspotTemplates env token s =
  match a1.1, a2.1, a3.1, a4.1 with
  | Ok f, _, _, _ => (Val f, after s (requests token [cms_url]) a1.2)
  | Fail _, Ok f, _, _ => (Val f, after s (requests token [cms_url; v3_url]) a2.2)
  | Fail _, Fail _, Ok f, _ =>
      (Val f, after s (requests token [cms_url; v3_url; v1_url]) a3.2)
  | Fail _, Fail _, Fail _, Ok f =>
      (Val f, after s (requests token [cms_url; v3_url; v1_url; public_url]) a4.2)
  | Fail _, Fail _, Fail _, Fail e4 =>
      (Thrown e4, after s (requests token [cms_url; v3_url; v1_url; public_url]) a4.2)
  end.
Proof.
  intros a1 a2 a3 a4. unfold fetchHubspotTemplates, try_catch.
  rewrite get_templates_attempt. fold a1.
  destruct (a1.1) as [f1 | e1] eqn:E1; [done |].
  rewrite get_templates_attempt. simpl world. fold a2.
  destruct (a2.1) as [f2 | e2] eqn:E2; [by rewrite after_after, <- requests_app |].
  rewrite get_templates_attempt. simpl world. fold a3.
  destruct (a3.1) as [f3 | e3] eqn:E3; [by rewrite !after_after, <- !requests_app |].
  rewrite get_templates_attempt. simpl world. fold a4.
  destruct (a4.1) as [f4 | e4] eqn:E4; by rewrite !after_after, <- !requests_app.
Qed.

(** The chain never returns a response of its own. *)
Lemma fetch_chain_cases token (s : St W) :
  (exists f s', fetchHubspotTemplates env token s = (Val f, s')) \/
  (exists e s', fetchHubspotTemplates env token s = (Thrown e, s')).
Proof.
  rewrite fetch_chain.
  repeat match goal with
         | |- context [match ?x with Ok _ => _ | Fail _ => _ end] => destruct x
         end; eauto.
Qed.

End Fetch.

(** ** The two modes *)

Lemma errors_field_length errs : length (default [] (errors_field errs)) = length errs.
Proof. unfold errors_field. destruct errs; reflexivity. Qed.

Lemma summary_errors_length what acc n :
  errors_length (summary what acc n) = length acc.2.
Proof. apply errors_field_length. Qed.

Section Modes.
Context {W : Type} (env : Collaborators W).
Variables (auth : SfmcAuth) (folder : JValue).

(** Custom mode ends in a summary over all supplied elements, or with the
    error of the first element whose name cannot be read and printed. *)
Lemma custom_mode_run (custom : list Item) (s : St W) :
  custom_mode env auth folder custom s =
    (match stopper custom with
     | None =>
         Val (json_ok (summary "custom templates"
                         (entries (custom_entry env auth folder) custom (world s)).1
                         (length custom)))
     | Some item => Thrown (log_error item)
     end,
     after s (concat (map (custom_calls env auth folder) (processed custom)))
           (entries (custom_entry env auth folder) custom (world s)).2).
Proof.
  unfold custom_mode, bind. rewrite custom_loop_run, extend_nil.
  by destruct (stopper custom).
Qed.

(** A fetched list that is not empty is truncated and migrated the same
    way; an empty one ends in the "no templates" summary. *)
Lemma migrate_fetched_run body (l : list Item) (s : St W) :
  migrate_fetched env body auth folder l s =
    match l with
    | [] => (Val (json_ok no_templates), s)
    | _ :: _ =>
        (match stopper (templateToMigrate body l) with
         | None =>
             Val (json_ok (summary "templates"
                    (entries (fetch_entry env auth folder)
                             (templateToMigrate body l) (world s)).1
                    (length (templateToMigrate body l))))
         | Some item => Thrown (log_error item)
         end,
         after s (concat (map (fetch_calls env auth folder)
                            (processed (templateToMigrate body l))))
               (entries (fetch_entry env auth folder)
                        (templateToMigrate body l) (world s)).2)
    end.
Proof.
  destruct l as [| item l]; [done |].
  unfold migrate_fetched. cbn [length Nat.eqb]. unfold bind.
  rewrite fetch_loop_run, extend_nil.
  by destruct (stopper (templateToMigrate body (item :: l))).
Qed.

(** Fetch mode, by what the client constructor and the chain do. *)
Lemma fetch_mode_unfold body token (s : St W) :
  fetch_mode env body auth folder token s =
  match createHubspotClient env token with
  | Fail e => (Thrown e, after s [EvCreateHubspotClient token] (world s))
  | Ok _ =>
      match fetchHubspotTemplates env token
              (after s [EvCreateHubspotClient token] (world s)) with
      | (Val (FetchedList l), s1) => migrate_fetched env body auth folder l s1
      | (Val FetchedObject, s1) =>
          (Thrown (plain_error "emailTemplates.slice is not a function"), s1)
      | (Thrown e, s1) => (Returned (fetch_failed e), s1)
      | (Returned r, s1) => (Returned r, s1)
      end
  end.
Proof.
  unfold fetch_mode, bind, call_sync, call, try_catch, after; simpl.
  destruct (createHubspotClient env token) as [[] | e]; simpl; [| done].
  destruct (fetchHubspotTemplates env token _) as [[[l |] | e | r] s1]; reflexivity.
Qed.

End Modes.

(** ** C1: accounting of attempts *)

Section Accounting.
Context {W : Type} (env : Collaborators W).

(** The values and the list the vocabulary reads off a run are those of the
    run itself. *)
Lemma resolved_by_setup body (s : St W) tok s1 stok s2 :
  resolveHubspotToken env body s = (Val tok, s1) ->
  resolveSfmcToken env body s1 = (Val stok, s2) ->
  resolved_source_token env body s = tok /\
  resolved_destination_token env body s = stok.
Proof.
  intros H1 H2. unfold resolved_source_token, resolved_destination_token.
  rewrite H1. simpl. by rewrite H2.
Qed.

Lemma fetched_by_setup body (s : St W) tok s1 stok s2 folder s3 :
  resolveHubspotToken env body s = (Val tok, s1) ->
  resolveSfmcToken env body s1 = (Val stok, s2) ->
  resolveFolder env body (sfmc_auth body stok) s2 = (Val folder, s3) ->
  fetched env body s =
    match fetchHubspotTemplates env tok
            (after s3 [EvCreateHubspotClient tok] (world s3)) with
    | (Val (FetchedList l), _) => Some l
    | _ => None
    end.
Proof.
  intros H1 H2 H3. unfold fetched.
  destruct (resolved_by_setup body s tok s1 stok s2 H1 H2) as [-> ->].
  rewrite H1. simpl. rewrite H2. simpl. by rewrite H3.
Qed.

(** C1, in its corrected form.  Whenever the response is a summary that
    reports [totalAttempted], [templatesCount] is the number of migrated
    entries, [totalAttempted] is the number of templates the run attempted
    (the supplied ones in custom mode, the fetched ones cut to the limit in
    fetch mode), and the migrated entries, the error entries and the skipped
    templates together are as many: a fetched template whose id prints and
    for which no markup is found is counted in [totalAttempted] but adds no
    entry, and custom mode skips nothing.  Item by item, an element whose
    name can be read and printed adds exactly one entry to exactly one of
    the two lists, or none when it is skipped; an element whose name cannot
    be read and printed (so none of a run that ends in a summary) makes the
    loop body throw. *)
Theorem C1_attempts_accounted body (s : St W) sm n :
  payload (POST env body s).1 = SummaryBody sm ->
  totalAttempted sm = Some n ->
  (templatesCount sm = length (migrated sm) /\
   n = length (attempted env body s) /\
   (length (migrated sm) + errors_length sm + length (skipped_of env body s) = n)%nat /\
   Forall (fun item => loggable item = true) (attempted env body s)) /\
  (forall auth folder item s0,
      loggable item = true ->
      exists d s',
        (length d.1 + length d.2 = 1)%nat /\
        forall acc,
          migrate_custom_element env auth folder item acc s0 = (Val (extend acc d), s')) /\
  (forall auth folder item s0,
      loggable item = true ->
      exists d s',
        (length d.1 + length d.2 = if skipped item then 0 else 1)%nat /\
        forall acc,
          migrate_element env auth folder item acc s0 = (Val (extend acc d), s')) /\
  (forall auth folder item acc s0,
      loggable item = false ->
      migrate_custom_element env auth folder item acc s0 = (Thrown (log_error item), s0) /\
      migrate_element env auth folder item acc s0 = (Thrown (log_error item), s0)).
Proof.
  intros Hp Hn.
  split; [| split; [| split]].
  2:{ intros auth folder item s0 Hl. eexists _, _. split.
      - by apply (custom_entry_weight env auth folder item (world s0)).
      - intros acc. by apply migrate_custom_element_run. }
  2:{ intros auth folder item s0 Hl. eexists _, _. split.
      - by apply (fetch_entry_weight env auth folder item (world s0)).
      - intros acc. by apply migrate_element_run. }
  2:{ intros auth folder item acc s0 Hl. split.
      - by apply migrate_custom_element_stops.
      - by apply migrate_element_stops. }
  revert Hp. rewrite POST_finish.
  destruct (handler_cases env body s)
    as [(m & st & det & s' & H) | [(e & s' & H) |
        (tok & s1 & stok & s2 & f & s3 & _ & H1 & H2 & H3 & H)]];
    rewrite H; simpl; [done | done |].
  unfold skipped_of, attempted, migrate.
  destruct (custom_list (customTemplates body)) as [custom |].
  - rewrite custom_mode_run.
    destruct (stopper custom) eqn:Hs; simpl; [done |]. intros [= <-].
    rewrite summary_errors_length. simpl in *. injection Hn as <-.
    pose proof (custom_entries_weight env (sfmc_auth body stok) f custom (world s3)) as Hw.
    rewrite (processed_all _ Hs) in Hw.
    split; [done |]. split; [done |]. split; [by rewrite Nat.add_0_r |].
    rewrite <- (processed_all _ Hs). apply processed_loggable.
  - rewrite (fetched_by_setup body s tok s1 stok s2 f s3 H1 H2 H3).
    rewrite fetch_mode_unfold.
    destruct (createHubspotClient env tok) as [[] | e]; simpl; [| done].
    destruct (fetch_chain_cases env tok (after s3 [EvCreateHubspotClient tok] (world s3)))
      as [(fd & s4 & Hf) | (e & s4 & Hf)]; rewrite Hf; simpl; [| done].
    destruct fd as [l |]; simpl; [| done].
    rewrite migrate_fetched_run. destruct l as [| item l]; simpl.
    { intros [= <-]. discriminate Hn. }
    destruct (stopper (templateToMigrate body (item :: l))) eqn:Hs; simpl; [done |].
    intros [= <-]. rewrite summary_errors_length. simpl in *. injection Hn as <-.
    pose proof (fetch_entries_weight env (sfmc_auth body stok) f
                  (templateToMigrate body (item :: l)) (world s4)) as Hw.
    rewrite (processed_all _ Hs) in Hw.
    split; [done |]. split; [done |]. split; [exact Hw |].
    rewrite <- (processed_all _ Hs). apply processed_loggable.
Qed.

End Accounting.

(** C1 as stated does not hold: the run [skipping_run] fetches two templates,
    one of which has no markup; it reports [totalAttempted = 2] with one
    migrated entry and no error entry. *)
Lemma C1_skip_breaks_accounting :
  payload skipping_run.1 = SummaryBody skipping_summary /\
  ~ accounts_for_every_attempt skipping_summary.
Proof.
  split; [vm_compute; reflexivity |].
  intros [_ H]. vm_compute in H. discriminate H.
Qed.

Lemma C1_attempts_accounted_witness :
  payload skipping_run.1 = SummaryBody skipping_summary /\
  totalAttempted skipping_summary = Some 2%nat /\
  templatesCount skipping_summary = length (migrated skipping_summary) /\
  2%nat = length (attempted (scripted (base_script (serves [both_fields; no_markup])))
                    base_body start) /\
  (length (migrated skipping_summary) + errors_length skipping_summary +
   length (skipped_of (scripted (base_script (serves [both_fields; no_markup])))
             base_body start) = 2)%nat /\
  Forall (fun item => loggable item = true)
    (attempted (scripted (base_script (serves [both_fields; no_markup]))) base_body start).
Proof.
  assert (Hp : payload skipping_run.1 = SummaryBody skipping_summary)
    by (vm_compute; reflexivity).
  split; [exact Hp |]. split; [reflexivity |].
  exact (proj1 (C1_attempts_accounted
                  (scripted (base_script (serves [both_fields; no_markup])))
                  base_body start skipping_summary 2%nat Hp eq_refl)).
Defined.
(** ** C7: credential store failures *)

Section Credentials.
Context {W : Type} (env : Collaborators W).

Lemma POST_early body (s : St W) r s' :
  handler env body s = (Returned r, s') -> POST env body s = (r, s').
Proof. intros H. rewrite POST_finish, H. reflexivity. Qed.

(** C7, in its corrected form.  When a token has to come from the store, a missing
    entry and a failing lookup each end the run at once with an error
    response and no summary, after that one store call and nothing else.  The
    four messages differ; the status is 400, except for a failing lookup of
    the source credentials, which is answered with 500. *)
Theorem C7_store_failures_abort body (s : St W) :
  truthy (userId body) = true ->
  (truthy (hubspotToken body) = false ->
   forall w',
     (getIntegrationTokens env (userId body) "hubspot" (world s) = (Ok None, w') ->
      POST env body s =
        (json_error 400 "Missing HubSpot token. Please reconnect to HubSpot." None,
         after s [EvGetIntegrationTokens (userId body) "hubspot"] w')) /\
     (forall e,
        getIntegrationTokens env (userId body) "hubspot" (world s) = (Fail e, w') ->
        POST env body s =
          (json_error 500 "Database error retrieving HubSpot tokens." None,
           after s [EvGetIntegrationTokens (userId body) "hubspot"] w'))) /\
  (inline_credentials body = None ->
   forall tok s1 w',
     resolveHubspotToken env body s = (Val tok, s1) ->
     (getIntegrationTokens env (userId body) "sfmc" (world s1) = (Ok None, w') ->
      POST env body s =
        (json_error 400 "Missing SFMC credentials. Please connect SFMC." None,
         after s1 [EvGetIntegrationTokens (userId body) "sfmc"] w')) /\
     (forall e,
        getIntegrationTokens env (userId body) "sfmc" (world s1) = (Fail e, w') ->
        POST env body s =
          (json_error 400 "No SFMC credentials provided or found in database." None,
           after s1 [EvGetIntegrationTokens (userId body) "sfmc"] w'))) /\
  NoDup [ "Missing HubSpot token. Please reconnect to HubSpot.";
          "Database error retrieving HubSpot tokens.";
          "Missing SFMC credentials. Please connect SFMC.";
          "No SFMC credentials provided or found in database." ].
Proof.
  intros Hu. split; [| split].
  - intros Ht w'. split.
    + intros Hg. apply POST_early.
      unfold handler. rewrite Hu. cbn [negb]. unfold bind, resolveHubspotToken.
      rewrite Ht. unfold try_catch, bind, call. rewrite Hg. reflexivity.
    + intros e Hg. apply POST_early.
      unfold handler. rewrite Hu. cbn [negb]. unfold bind, resolveHubspotToken.
      rewrite Ht. unfold try_catch, bind, call. rewrite Hg. reflexivity.
  - intros Hi tok s1 w' H1. split.
    + intros Hg. apply POST_early.
      unfold handler. rewrite Hu. cbn [negb]. unfold bind at 1. rewrite H1.
      unfold bind at 1. unfold resolveSfmcToken. rewrite Hi.
      unfold try_catch, bind, call. rewrite Hg. reflexivity.
    + intros e Hg. apply POST_early.
      unfold handler. rewrite Hu. cbn [negb]. unfold bind at 1. rewrite H1.
      unfold bind at 1. unfold resolveSfmcToken. rewrite Hi.
      unfold try_catch, bind, call. rewrite Hg. reflexivity.
  - compute_done.
Qed.

End Credentials.

(** C7 as stated does not hold: when the lookup of the source credentials
    fails, the response has status 500. *)
Lemma C7_source_store_failure_is_500 :
  (POST (scripted store_down_script) base_body start).1 =
    json_error 500 "Database error retrieving HubSpot tokens." None /\
  status (POST (scripted store_down_script) base_body start).1 <> 400.
Proof. split; [vm_compute; reflexivity | vm_compute; discriminate]. Qed.

Lemma C7_store_failures_abort_witness :
  POST (scripted (store_script (Ok None) (stored "sfmc-stored"))) base_body start =
    (json_error 400 "Missing HubSpot token. Please reconnect to HubSpot." None,
     after start [EvGetIntegrationTokens (JStr "user-1") "hubspot"] 1%nat) /\
  POST (scripted (store_script (Fail (plain_error "timeout")) (stored "sfmc-stored")))
       base_body start =
    (json_error 500 "Database error retrieving HubSpot tokens." None,
     after start [EvGetIntegrationTokens (JStr "user-1") "hubspot"] 1%nat) /\
  POST (scripted (store_script (stored "hs-stored") (Ok None))) base_body start =
    (json_error 400 "Missing SFMC credentials. Please connect SFMC." None,
     after (after start [EvGetIntegrationTokens (JStr "user-1") "hubspot"] 1%nat)
           [EvGetIntegrationTokens (JStr "user-1") "sfmc"] 2%nat) /\
  POST (scripted (store_script (stored "hs-stored") (Fail (plain_error "timeout"))))
       base_body start =
    (json_error 400 "No SFMC credentials provided or found in database." None,
     after (after start [EvGetIntegrationTokens (JStr "user-1") "hubspot"] 1%nat)
           [EvGetIntegrationTokens (JStr "user-1") "sfmc"] 2%nat).
Proof.
  split; [| split; [| split]].
  - exact (proj1 (proj1 (C7_store_failures_abort
             (scripted (store_script (Ok None) (stored "sfmc-stored")))
             base_body start eq_refl) eq_refl 1%nat) eq_refl).
  - exact (proj2 (proj1 (C7_store_failures_abort
             (scripted (store_script (Fail (plain_error "timeout")) (stored "sfmc-stored")))
             base_body start eq_refl) eq_refl 1%nat) (plain_error "timeout") eq_refl).
  - exact (proj1 (proj1 (proj2 (C7_store_failures_abort
             (scripted (store_script (stored "hs-stored") (Ok None)))
             base_body start eq_refl)) eq_refl (JStr "hs-stored")
             (after start [EvGetIntegrationTokens (JStr "user-1") "hubspot"] 1%nat)
             2%nat eq_refl) eq_refl).
  - exact (proj2 (proj1 (proj2 (C7_store_failures_abort
             (scripted (store_script (stored "hs-stored") (Fail (plain_error "timeout"))))
             base_body start eq_refl)) eq_refl (JStr "hs-stored")
             (after start [EvGetIntegrationTokens (JStr "user-1") "hubspot"] 1%nat)
             2%nat eq_refl) (plain_error "timeout") eq_refl).
Defined.

(** ** C2: endpoint fallback *)

Section Fallback.
Context {W : Type} (env : Collaborators W).

(** C2, in its corrected form.  In a run that reaches the fetch, the four
    endpoints are tried in the order CMS v2, marketing v3, marketing v1,
    email public v1, each from the world the previous attempt left, and the
    first attempt that succeeds ends the chain.  If all four fail the run
    answers with the fetch failure response (status 500, "Failed to fetch
    templates from HubSpot API...") whose details are those of the fourth
    error, and that response is given in no other case.  (An attempt fails
    when the request is rejected, when the body cannot be read, or, before
    any request, when the token cannot be printed into the header.) *)
Theorem C2_fetch_fallback body (s : St W) tok s1 stok s2 folder s3 :
  truthy (userId body) = true ->
  resolveHubspotToken env body s = (Val tok, s1) ->
  resolveSfmcToken env body s1 = (Val stok, s2) ->
  resolveFolder env body (sfmc_auth body stok) s2 = (Val folder, s3) ->
  custom_list (customTemplates body) = None ->
  createHubspotClient env tok = Ok () ->
  let a1 := attempt env cms_url tok read_objects (world s3) in
  let a2 := attempt env v3_url tok read_results a1.2 in
  let a3 := attempt env v1_url tok read_bare a2.2 in
  let a4 := attempt env public_url tok read_objects a3.2 in
  let s4 := after s3 [EvCreateHubspotClient tok] (world s3) in
  fetchHubspotTemplates env tok s4 =
    match a1.1, a2.1, a3.1, a4.1 with
    | Ok f, _, _, _ => (Val f, after s4 (requests tok [cms_url]) a1.2)
    | Fail _, Ok f, _, _ => (Val f, after s4 (requests tok [cms_url; v3_url]) a2.2)
    | Fail _, Fail _, Ok f, _ =>
        (Val f, after s4 (requests tok [cms_url; v3_url; v1_url]) a3.2)
    | Fail _, Fail _, Fail _, Ok f =>
        (Val f, after s4 (requests tok [cms_url; v3_url; v1_url; public_url]) a4.2)
    | Fail _, Fail _, Fail _, Fail e4 =>
        (Thrown e4, after s4 (requests tok [cms_url; v3_url; v1_url; public_url]) a4.2)
    end /\
  (forall e1 e2 e3 e4,
      a1.1 = Fail e1 -> a2.1 = Fail e2 -> a3.1 = Fail e3 -> a4.1 = Fail e4 ->
      POST env body s =
        (json_error 500
           "Failed to fetch templates from HubSpot API. Please check your token and permissions."
           (Some (error_details e4)),
         after s4 (requests tok [cms_url; v3_url; v1_url; public_url]) a4.2)) /\
  (forall det,
      (POST env body s).1 =
        json_error 500
          "Failed to fetch templates from HubSpot API. Please check your token and permissions."
          det ->
      exists e1 e2 e3 e4,
        a1.1 = Fail e1 /\ a2.1 = Fail e2 /\ a3.1 = Fail e3 /\ a4.1 = Fail e4 /\
        det = Some (error_details e4)).
Proof.
  intros Hu H1 H2 H3 Hc Hk a1 a2 a3 a4 s4.
  assert (Hchain := fetch_chain env tok s4). cbv zeta in Hchain.
  change (world s4) with (world s3) in Hchain. fold a1 a2 a3 a4 in Hchain.
  assert (HP : POST env body s =
               finish (fetch_mode env body (sfmc_auth body stok) folder tok s3)).
  { rewrite POST_finish, (handler_reaches_migrate env body s tok s1 stok s2 folder s3)
      by assumption.
    unfold migrate. by rewrite Hc. }
  rewrite fetch_mode_unfold, Hk in HP. fold s4 in HP.
  split; [exact Hchain |]. split.
  - intros e1 e2 e3 e4 E1 E2 E3 E4.
    rewrite HP, Hchain, E1, E2, E3, E4. reflexivity.
  - intros det. rewrite HP, Hchain.
    destruct (a1.1) as [f1 | e1]; [| destruct (a2.1) as [f2 | e2];
      [| destruct (a3.1) as [f3 | e3]; [| destruct (a4.1) as [f4 | e4]]]].
    5:{ simpl. intros [= <-]. exists e1, e2, e3, e4. auto. }
    all: match goal with
         | |- context [match ?f with FetchedList _ => _ | FetchedObject => _ end] =>
             destruct f as [l |]; [| simpl; discriminate]
         end.
    all: rewrite migrate_fetched_run; destruct l as [| item l]; [simpl; discriminate |].
    all: destruct (stopper _); simpl; discriminate.
Qed.

End Fallback.

(** C2 as stated does not hold: a run can end with status 500 although an
    endpoint answered.  Here the first two endpoints are down and the third
    answers 200 with an object that is not a list: the third attempt
    succeeds and the fourth endpoint is not requested, yet the run answers
    500 "Failed to migrate email templates", because the object has no
    [slice]. *)
Lemma C2_answered_run_ends_in_500 :
  POST (scripted (base_script object_third)) base_body start =
    (json_error 500 "Failed to migrate email templates"
       (Some (JStr "emailTemplates.slice is not a function")),
     after start
       [ EvGetIntegrationTokens (JStr "user-1") "hubspot";
         EvGetIntegrationTokens (JStr "user-1") "sfmc";
         EvGetSFMCFolders demo_auth;
         EvCreateHubspotClient (JStr "hs-stored");
         EvAxiosGet cms_url (JStr "hs-stored");
         EvAxiosGet v3_url (JStr "hs-stored");
         EvAxiosGet v1_url (JStr "hs-stored") ] 6%nat) /\
  status (POST (scripted (base_script object_third)) base_body start).1 = 500 /\
  (attempt (scripted (base_script object_third)) v1_url (JStr "hs-stored")
     read_bare 5%nat).1 = Ok FetchedObject.
Proof. vm_compute. auto. Qed.

Lemma C2_fetch_fallback_witness :
  (POST (scripted (base_script all_down)) base_body start).1 =
    json_error 500
      "Failed to fetch templates from HubSpot API. Please check your token and permissions."
      (Some (JStr "public-body")).
Proof.
  pose proof (C2_fetch_fallback (scripted (base_script all_down)) base_body start
                _ _ _ _ _ _ eq_refl eq_refl eq_refl eq_refl eq_refl eq_refl) as H.
  destruct H as (_ & Hall & _).
  rewrite (Hall _ _ _ _ eq_refl eq_refl eq_refl eq_refl).
  reflexivity.
Defined.
(** ** C3: markup resolution *)

Lemma looks_like_html_spec v : looks_like_html v = is_html_string v.
Proof.
  unfold looks_like_html, is_html_string.
  destruct v as [| | b | z | str | l | o]; simpl; try reflexivity;
    try (by rewrite ?andb_false_r).
  destruct str; reflexivity.
Qed.

Lemma is_html_string_truthy v : is_html_string v = true -> truthy v = true.
Proof. destruct v as [| | | | [| a str] | |]; simpl; done. Qed.

Lemma scan_properties_find t props :
  scan_properties t props =
  match List.find (fun k => is_html_string (get t k)) props with
  | Some k => get t k
  | None => JStr ""
  end.
Proof.
  induction props as [| p props IH]; simpl; [done |].
  rewrite looks_like_html_spec. by destruct (is_html_string (get t p)).
Qed.

Lemma spec_markup_unfold t :
  spec_markup t =
  if truthy (get t "source") then Some (get t "source")
  else if truthy (get t "content") then Some (get t "content")
  else if truthy (get t "html") then Some (get t "html")
  else get t <$> List.find (fun k => is_html_string (get t k)) possibleContentProperties.
Proof.
  unfold spec_markup, possibleContentProperties.
  set (scan := List.find (fun k => is_html_string (get t k)) _).
  simpl List.find.
  destruct (truthy (get t "source")); [done |].
  destruct (truthy (get t "content")); [done |].
  by destruct (truthy (get t "html")).
Qed.

Lemma resolve_markup_spec t :
  resolve_markup t = default (JStr "") (spec_markup t) /\
  has_markup t = bool_decide (is_Some (spec_markup t)).
Proof.
  assert (Hr : resolve_markup t = default (JStr "") (spec_markup t)).
  { rewrite spec_markup_unfold. unfold resolve_markup.
    destruct (truthy (get t "source")); [done |].
    destruct (truthy (get t "content")); [done |].
    destruct (truthy (get t "html")); [done |].
    rewrite scan_properties_find. by destruct (List.find _ _). }
  split; [exact Hr |]. unfold has_markup. rewrite Hr.
  rewrite spec_markup_unfold.
  destruct (truthy (get t "source")) eqn:E1; [done |].
  destruct (truthy (get t "content")) eqn:E2; [done |].
  destruct (truthy (get t "html")) eqn:E3; [done |].
  destruct (List.find _ _) as [k |] eqn:Ef; simpl; [| done].
  apply List.find_some in Ef as [_ Hk]. by apply is_html_string_truthy.
Qed.

(** ** C3: markup resolution *)

Section Markup.
Context {W : Type} (env : Collaborators W).

(** C3, in its corrected form.  The markup of a fetched template is the one
    the spec's order selects: [source] if it holds a value (a non-empty
    one), else [content], else [html], else the first of [body],
    [htmlContent], [htmlBody], [design], [template] that is a string
    containing [<].  The handler first logs the template's name and id.
    When both print, the selected markup is what the converter receives as
    [source], followed by the creation of the asset when the converter
    returns, and the template adds one entry; when the order selects nothing
    the template is skipped: no call is made and it is added to neither
    list.  When the name prints and the id does not, the template is
    recorded in the error list without any call, whatever its markup; when
    the name does not print, the loop body throws.  A template with
    [content] and [html] uses [content]; one with only a [design] of
    ["<div>"] uses [design]. *)
Theorem C3_markup_resolution (t : Template) :
  match spec_markup t with
  | Some markup =>
      resolve_markup t = markup /\
      has_markup t = true /\
      forall auth folder acc (s : St W),
        printable (get t "name") = true ->
        printable (get t "id") = true ->
        exists d w',
          (length d.1 + length d.2 = 1)%nat /\
          migrate_item env auth folder t acc s =
            (Val (extend acc d),
             after s
               (EvConvert (with_source t markup) ::
                match convertHubspotTemplate env (with_source t markup) with
                | Ok cv =>
                    [EvCreateEmailTemplate auth (get t "name") (cv_content cv) folder
                       (asset_meta cv)]
                | Fail _ => []
                end) w')
  | None =>
      has_markup t = false /\
      forall auth folder acc (s : St W),
        printable (get t "name") = true ->
        printable (get t "id") = true ->
        migrate_item env auth folder t acc s = (Val acc, s)
  end /\
  (forall auth folder acc (s : St W),
      printable (get t "name") = true ->
      printable (get t "id") = false ->
      migrate_item env auth folder t acc s =
        (Val (acc.1, acc.2 ++ [hubspot_failure t not_printable]), s)) /\
  (forall auth folder acc (s : St W),
      printable (get t "name") = false ->
      migrate_item env auth folder t acc s = (Thrown not_printable, s)) /\
  resolve_markup both_fields = get both_fields "content" /\
  resolve_markup design_only = get design_only "design" /\
  spec_markup no_markup = None.
Proof.
  split; [| split; [| split; [| by vm_compute]]].
  - destruct (resolve_markup_spec t) as [Hr Hm].
    destruct (spec_markup t) as [m |] eqn:Es; simpl in Hr, Hm.
    + split; [done |]. split; [done |].
      intros auth folder acc s Hn Hi. rewrite migrate_item_run by done.
      eexists _, _. split; [| rewrite <- Hr; unfold fetch_calls; rewrite Hi, Hm; reflexivity].
      rewrite (fetch_entry_weight env auth folder (Some t) (world s) Hn).
      unfold skipped. by rewrite Hi, Hm.
    + split; [done |].
      intros auth folder acc s Hn Hi. rewrite migrate_item_run by done.
      unfold fetch_entry, fetch_calls. rewrite Hi, Hm.
      destruct (print_printable _ Hi) as (text & _ & ->). simpl.
      by rewrite after_nil, extend_nil_r.
  - intros auth folder acc s Hn Hi. rewrite migrate_item_run by done.
    unfold fetch_entry, fetch_calls. rewrite Hi, (print_unprintable _ Hi). simpl.
    rewrite after_nil. unfold extend; simpl. by rewrite app_nil_r.
  - intros auth folder acc s Hn. by rewrite migrate_item_stops.
Qed.

End Markup.

(** C3 as stated does not hold: a fetched template for which the order
    selects nothing is not always skipped.  [odd_id] has no markup, and an
    id that cannot be printed; the log line at the head of the loop body
    throws, and the template appears in the error list. *)
Lemma C3_unprintable_id_is_recorded :
  spec_markup odd_id = None /\
  (POST (scripted (base_script (serves [odd_id]))) base_body start).1 =
    json_ok {| success := true;
               message := "Migrated 0 templates successfully, with 1 errors";
               migrated := [];
               errors := Some [hubspot_failure odd_id not_printable];
               templatesCount := 0;
               totalAttempted := Some 1%nat |}.
Proof. split; vm_compute; reflexivity. Qed.

Lemma C3_markup_resolution_witness :
  exists d w',
    (length d.1 + length d.2 = 1)%nat /\
    migrate_item (scripted (base_script all_down)) demo_auth (JNum 7) design_only
      ([], []) start =
      (Val (extend ([], []) d),
       after start
         [ EvConvert (with_source design_only (JStr "<div>"));
           EvCreateEmailTemplate demo_auth (JStr "Design") (JStr "<div>") (JNum 7)
             (asset_meta (passed (JStr "<div>"))) ] w').
Proof.
  exact (proj2 (proj2 (proj1 (C3_markup_resolution (scripted (base_script all_down))
                                design_only)))
               demo_auth (JNum 7) ([], []) start eq_refl eq_refl).
Defined.
(** ** Which calls each part of the handler makes *)

Ltac emits_tac :=
  repeat first
    [ apply emits_ret | apply emits_throw | apply emits_respond
    | apply emits_of_outcome | apply emits_read
    | apply emits_bind; [| intros ?]
    | apply emits_try_catch; [| intros ?]
    | apply emits_call | apply emits_call_sync
    | apply emits_for_each; intros ? ?
    | match goal with |- emits _ (if ?b then _ else _) => destruct b end
    | match goal with |- emits _ (match ?x with _ => _ end) => destruct x end
    | progress cbv zeta ].

Section Phases.
Context {W : Type} (env : Collaborators W).

Lemma resolveHubspotToken_emits body :
  emits (fun ev => phase ev = Setup) (resolveHubspotToken env body).
Proof. unfold resolveHubspotToken. emits_tac; reflexivity. Qed.

Lemma resolveSfmcToken_emits body :
  emits (fun ev => phase ev = Setup) (resolveSfmcToken env body).
Proof. unfold resolveSfmcToken. emits_tac; reflexivity. Qed.

Lemma resolveFolder_emits body auth :
  emits (fun ev => phase ev = Setup) (resolveFolder env body auth).
Proof. unfold resolveFolder. emits_tac; reflexivity. Qed.

Lemma convert_and_create_emits auth folder t markup :
  emits (fun ev => phase ev = Migrating /\ into folder ev)
        (convert_and_create env auth folder t markup).
Proof. unfold convert_and_create. emits_tac; by simpl. Qed.

Lemma custom_id_emits (P : Event -> Prop) t : emits P (custom_id env t).
Proof. unfold custom_id. emits_tac. Qed.

Lemma migrate_custom_item_emits auth folder t acc :
  emits (fun ev => phase ev = Migrating /\ into folder ev)
        (migrate_custom_item env auth folder t acc).
Proof.
  unfold migrate_custom_item.
  repeat first [ apply convert_and_create_emits | apply custom_id_emits
               | apply emits_of_outcome
               | apply emits_try_catch; [| intros ?]
               | apply emits_bind; [| intros ?] | apply emits_ret ].
Qed.

Lemma migrate_custom_element_emits auth folder item acc :
  emits (fun ev => phase ev = Migrating /\ into folder ev)
        (migrate_custom_element env auth folder item acc).
Proof.
  destruct item as [t |]; [apply migrate_custom_item_emits |].
  simpl. apply emits_try_catch; [| intros ?]; apply emits_throw.
Qed.

Lemma migrate_item_emits auth folder t acc :
  emits (fun ev => phase ev = Migrating /\ into folder ev)
        (migrate_item env auth folder t acc).
Proof.
  unfold migrate_item. cbv zeta.
  apply emits_try_catch.
  - apply emits_bind; [apply emits_of_outcome | intros _].
    apply emits_bind; [apply emits_of_outcome | intros _].
    destruct (negb _); [apply emits_ret |].
    apply emits_bind; [apply convert_and_create_emits | intros; apply emits_ret].
  - intros e. apply emits_bind; [apply emits_of_outcome | intros; apply emits_ret].
Qed.

Lemma migrate_element_emits auth folder item acc :
  emits (fun ev => phase ev = Migrating /\ into folder ev)
        (migrate_element env auth folder item acc).
Proof.
  destruct item as [t |]; [apply migrate_item_emits |].
  simpl. apply emits_try_catch; [| intros ?]; apply emits_throw.
Qed.

Lemma custom_mode_emits auth folder custom :
  emits (fun ev => phase ev = Migrating /\ into folder ev)
        (custom_mode env auth folder custom).
Proof.
  unfold custom_mode.
  apply emits_bind; [| intros; apply emits_ret].
  apply emits_for_each. intros. apply migrate_custom_element_emits.
Qed.

Lemma migrate_fetched_emits body auth folder l :
  emits (fun ev => phase ev = Migrating /\ into folder ev)
        (migrate_fetched env body auth folder l).
Proof.
  unfold migrate_fetched. destruct (_ =? _)%nat; [apply emits_ret |].
  apply emits_bind; [| intros; apply emits_ret].
  apply emits_for_each. intros. apply migrate_element_emits.
Qed.

Lemma fetchHubspotTemplates_emits token :
  emits (fun ev => phase ev = Fetching) (fetchHubspotTemplates env token).
Proof. unfold fetchHubspotTemplates, get_templates. emits_tac; reflexivity. Qed.

Lemma fetch_mode_emits body auth folder token :
  emits (fun ev => phase ev <> Setup /\ into folder ev)
        (fetch_mode env body auth folder token).
Proof.
  unfold fetch_mode.
  apply emits_bind; [apply emits_call_sync; by simpl | intros _].
  apply emits_bind.
  - apply emits_try_catch; [| intros; apply emits_respond].
    eapply emits_weaken; [| apply fetchHubspotTemplates_emits].
    intros [] Hev; simpl in *; done.
  - intros [l |]; [| apply emits_throw].
    eapply emits_weaken; [| apply migrate_fetched_emits].
    simpl. intros ev [-> ?]. done.
Qed.

Lemma migrate_emits body auth folder token :
  emits (fun ev => phase ev <> Setup /\ into folder ev)
        (migrate env body auth folder token).
Proof.
  unfold migrate. destruct (custom_list _); [| apply fetch_mode_emits].
  eapply emits_weaken; [| apply custom_mode_emits].
  simpl. intros ev [-> ?]. done.
Qed.

(** The response and the final state of [POST] are those of the handler. *)
Lemma POST_state body (s : St W) : (POST env body s).2 = (handler env body s).2.
Proof. rewrite POST_finish. by destruct (handler env body s) as [[r | e | r] s']. Qed.

Lemma migrate_fetched_log body auth folder l (s : St W) :
  exists evs, log (migrate_fetched env body auth folder l s).2 = log s ++ evs.
Proof.
  destruct (migrate_fetched_emits body auth folder l s) as (evs & H & _). eauto.
Qed.

End Phases.

(** Reading a stretch of the log whose calls all belong to one phase. *)
Lemma fetches_none evs : Forall (fun ev => phase ev <> Fetching) evs -> fetches evs = [].
Proof.
  induction 1 as [| ev evs Hev _ IH]; [done |].
  unfold fetches in *. destruct ev; simpl in *; done.
Qed.

Lemma converted_none evs : Forall (fun ev => phase ev <> Migrating) evs -> converted evs = [].
Proof.
  induction 1 as [| ev evs Hev _ IH]; [done |].
  unfold converted in *. destruct ev; simpl in *; done.
Qed.

Lemma created_none evs : Forall (fun ev => phase ev <> Migrating) evs -> created evs = [].
Proof.
  induction 1 as [| ev evs Hev _ IH]; [done |].
  unfold created in *. destruct ev; simpl in *; done.
Qed.



(** ** C9: the placeholder markup of custom mode *)

Section Placeholder.
Context {W : Type} (env : Collaborators W).

(** C9, in its corrected form.  A custom template with neither [content]
    nor [html] whose name can be printed gets as markup the placeholder
    ["<p>Template: "], the printed name (the name itself when it is a
    string), ["</p>"].  It is not skipped: the converter is called on the
    template with that markup as [source] and, when the converter returns,
    the asset creation is requested with the template's name, the converted
    content, the folder and the converted channels and slots; no other call
    is made.  The template adds exactly one entry: a migrated one when
    conversion and creation succeed, an error one with the error thrown
    otherwise. *)
Theorem C9_placeholder_markup auth folder (t : Template) text acc (s : St W) :
  t !! "content" = None ->
  t !! "html" = None ->
  to_string (get t "name") = Some text ->
  custom_markup t = Ok (JStr ("<p>Template: " +:+ text +:+ "</p>")) /\
  (forall name, get t "name" = JStr name -> text = name) /\
  exists d w',
    migrate_custom_item env auth folder t acc s =
      (Val (extend acc d),
       after s
         (EvConvert (with_source t (placeholder text)) ::
          match convertHubspotTemplate env (with_source t (placeholder text)) with
          | Ok cv =>
              [EvCreateEmailTemplate auth (get t "name") (cv_content cv) folder
                 (asset_meta cv)]
          | Fail _ => []
          end) w') /\
    (length d.1 + length d.2 = 1)%nat /\
    match (conversion_result env auth folder t (placeholder text) (world s)).1 with
    | Ok result => exists id, d = ([custom_success t id result], [])
    | Fail e => exists id, d = ([], [custom_failure t id e])
    end.
Proof.
  intros Hc Hh Hn.
  assert (Hp : printable (get t "name") = true) by (unfold printable; by rewrite Hn).
  assert (Hm : custom_markup t = Ok (placeholder text)).
  { unfold custom_markup, placeholder, print, get in *. rewrite Hc, Hh. simpl.
    by rewrite Hn. }
  assert (Hs : custom_source t = placeholder text) by (unfold custom_source; by rewrite Hm).
  split; [exact Hm |]. split.
  { intros name Hname. rewrite Hname in Hn. simpl in Hn. congruence. }
  eexists _, _. split; [| split].
  - rewrite migrate_custom_item_run by done. unfold custom_calls. rewrite Hs. reflexivity.
  - by apply (custom_entry_weight env auth folder (Some t)).
  - unfold custom_entry. rewrite Hs. simpl.
    destruct (conversion_result env auth folder t (placeholder text) (world s)).1; eauto.
Qed.

End Placeholder.

(** C9 as stated does not hold: a custom template with neither [content]
    nor [html] can yield no entry at all.  The name of [odd_name] cannot be
    printed; the log line at the head of the loop body throws, the one at
    the head of the catch block throws again, and the run ends with a 500
    after the setup calls, without a summary and without any conversion. *)
Lemma C9_unprintable_name_yields_no_entry :
  odd_name !! "content" = None /\
  odd_name !! "html" = None /\
  POST (scripted (base_script all_down))
       (with_custom base_body (CtArray [Some odd_name])) start =
    (json_error 500 "Failed to migrate email templates"
       (Some (JStr "Cannot convert object to primitive value")),
     after start
       [ EvGetIntegrationTokens (JStr "user-1") "hubspot";
         EvGetIntegrationTokens (JStr "user-1") "sfmc";
         EvGetSFMCFolders demo_auth ] 3%nat).
Proof. split; [| split]; vm_compute; reflexivity. Qed.

Lemma C9_placeholder_markup_witness :
  custom_markup name_only = Ok (JStr "<p>Template: Bare</p>") /\
  exists d w',
    migrate_custom_item (scripted (base_script all_down)) demo_auth (JNum 7) name_only
      ([], []) start =
      (Val (extend ([], []) d),
       after start
         [ EvConvert (with_source name_only (JStr "<p>Template: Bare</p>"));
           EvCreateEmailTemplate demo_auth (JStr "Bare") (JStr "<p>Template: Bare</p>")
             (JNum 7) (asset_meta (passed (JStr "<p>Template: Bare</p>"))) ] w') /\
    (length d.1 + length d.2 = 1)%nat.
Proof.
  destruct (C9_placeholder_markup (scripted (base_script all_down)) demo_auth (JNum 7)
              name_only "Bare" ([], []) start eq_refl eq_refl eq_refl)
    as (Hm & _ & d & w' & Hrun & Hlen & _).
  split; [exact Hm |]. exists d, w'. split; [exact Hrun | exact Hlen].
Defined.

(** ** C10: an empty or non-array [customTemplates] *)

Section NotCustom.
Context {W : Type} (env : Collaborators W).

Lemma attempt_unprintable url token envelope (w : W) :
  printable token = false ->
  attempt env url token envelope w = (Fail not_printable, w).
Proof. intros H. unfold attempt. by rewrite (print_unprintable _ H). Qed.

(** With a token that cannot be printed, no endpoint is requested and the
    chain throws. *)
Lemma fetch_unprintable token (s : St W) :
  printable token = false ->
  fetchHubspotTemplates env token s = (Thrown not_printable, s).
Proof.
  intros H. rewrite fetch_chain. cbv zeta.
  rewrite !attempt_unprintable by done. simpl.
  unfold requests. rewrite H. by rewrite after_nil.
Qed.

(** With one that can, the first call of the chain is the request to the
    first endpoint. *)
Lemma fetch_printable_log token (s : St W) :
  printable token = true ->
  exists evs,
    log (fetchHubspotTemplates env token s).2 = log s ++ EvAxiosGet cms_url token :: evs.
Proof.
  intros H. rewrite (fetch_chain env token s). cbv zeta. unfold requests. rewrite H.
  repeat match goal with
         | |- context [match ?x with Ok _ => _ | Fail _ => _ end] => destruct x
         end; simpl; eauto.
Qed.

(** C10.  With [customTemplates] an empty array, or a value that is not an
    array, the run is the run of the same request without [customTemplates]:
    same response, same calls, same world.  Past the setup it is the fetch
    mode that runs, and once the client is built its first call is the
    request to the first source endpoint (the client is the only call when
    the token cannot be printed into the request header). *)
Theorem C10_empty_custom_is_fetch body (c : CustomTemplates) (s : St W) :
  c = CtArray [] \/ c = CtOther ->
  POST env (with_custom body c) s = POST env (with_custom body CtFalsy) s /\
  (forall auth folder token s0,
      migrate env (with_custom body c) auth folder token s0 =
      fetch_mode env (with_custom body CtFalsy) auth folder token s0) /\
  (forall auth folder token s0,
      createHubspotClient env token = Ok () ->
      exists evs,
        log (migrate env (with_custom body c) auth folder token s0).2 =
          log s0 ++ EvCreateHubspotClient token ::
                    (if printable token then EvAxiosGet cms_url token :: evs else [])).
Proof.
  intros Hc.
  assert (Hm : forall auth folder token s0,
             migrate env (with_custom body c) auth folder token s0 =
             fetch_mode env (with_custom body CtFalsy) auth folder token s0).
  { intros. by destruct Hc as [-> | ->]. }
  split; [by destruct Hc as [-> | ->] |]. split; [exact Hm |].
  intros auth folder token s0 Hk. rewrite Hm, fetch_mode_unfold, Hk.
  set (s1 := after s0 [EvCreateHubspotClient token] (world s0)).
  destruct (printable token) eqn:Hp.
  - destruct (fetch_printable_log token s1 Hp) as (evs & Hlog).
    destruct (fetchHubspotTemplates env token s1) as [[[l |] | e | r] s2]; simpl in *.
    + destruct (migrate_fetched_log env (with_custom body CtFalsy) auth folder l s2)
        as (evs' & He).
      exists (evs ++ evs'). rewrite He, Hlog. rewrite <- !app_assoc. reflexivity.
    + exists evs. rewrite Hlog. by rewrite <- app_assoc.
    + exists evs. rewrite Hlog. by rewrite <- app_assoc.
    + exists evs. rewrite Hlog. by rewrite <- app_assoc.
  - exists []. by rewrite fetch_unprintable.
Qed.

End NotCustom.

Lemma C10_empty_custom_is_fetch_witness :
  POST (scripted (base_script (serves [promo]))) (with_custom base_body (CtArray [])) start =
  POST (scripted (base_script (serves [promo]))) (with_custom base_body CtFalsy) start /\
  exists evs,
    log (migrate (scripted (base_script (serves [promo])))
           (with_custom base_body (CtArray []))
           (sfmc_auth base_body (JStr "sfmc-stored")) (JNum 7) (JStr "hs-stored") start).2 =
      log start ++ EvCreateHubspotClient (JStr "hs-stored")
                :: EvAxiosGet cms_url (JStr "hs-stored") :: evs.
Proof.
  pose proof (C10_empty_custom_is_fetch (scripted (base_script (serves [promo])))
                base_body (CtArray []) start (or_introl eq_refl)) as (H1 & _ & H3).
  split; [exact H1 |].
  exact (H3 (sfmc_auth base_body (JStr "sfmc-stored")) (JNum 7) (JStr "hs-stored")
            start eq_refl).
Defined.

(** ** C5: custom mode never fetches *)

Section CustomMode.
Context {W : Type} (env : Collaborators W).

(** The calls of a successful setup are all setup calls. *)
Lemma setup_log body (s : St W) tok s1 stok s2 folder s3 :
  resolveHubspotToken env body s = (Val tok, s1) ->
  resolveSfmcToken env body s1 = (Val stok, s2) ->
  resolveFolder env body (sfmc_auth body stok) s2 = (Val folder, s3) ->
  exists evs, log s3 = log s ++ evs /\ Forall (fun ev => phase ev = Setup) evs.
Proof.
  intros H1 H2 H3.
  destruct (resolveHubspotToken_emits env body s) as (e1 & L1 & F1).
  destruct (resolveSfmcToken_emits env body s1) as (e2 & L2 & F2).
  destruct (resolveFolder_emits env body (sfmc_auth body stok) s2) as (e3 & L3 & F3).
  rewrite H1 in L1. rewrite H2 in L2. rewrite H3 in L3. simpl in *.
  exists (e1 ++ e2 ++ e3). split.
  - by rewrite L3, L2, L1, <- !app_assoc.
  - by repeat apply Forall_app_2.
Qed.

Lemma handler_custom_emits body custom :
  custom_list (customTemplates body) = Some custom ->
  emits (fun ev => phase ev <> Fetching) (handler env body).
Proof.
  intros Hc. unfold handler.
  destruct (negb _); [apply emits_respond |].
  apply emits_bind; [| intros tok; apply emits_bind; [| intros stok; apply emits_bind]].
  - eapply emits_weaken; [| apply resolveHubspotToken_emits]. by intros ev ->.
  - eapply emits_weaken; [| apply resolveSfmcToken_emits]. by intros ev ->.
  - eapply emits_weaken; [| apply resolveFolder_emits]. by intros ev ->.
  - intros f. unfold migrate. rewrite Hc.
    eapply emits_weaken; [| apply custom_mode_emits]. by intros ev [-> _].
Qed.

(** The calls of an element whose name can be read and printed, spelled
    out. *)
Lemma custom_calls_loggable auth folder item :
  loggable item = true ->
  exists t,
    item = Some t /\
    custom_markup t = Ok (custom_source t) /\
    custom_calls env auth folder item =
      EvConvert (with_source t (custom_source t)) ::
      match convertHubspotTemplate env (with_source t (custom_source t)) with
      | Ok cv =>
          [EvCreateEmailTemplate auth (get t "name") (cv_content cv) folder
             (asset_meta cv)]
      | Fail _ => []
      end.
Proof.
  destruct item as [t |]; [| done]. intros Hl. exists t.
  split; [done |]. split; [by apply custom_markup_source | reflexivity].
Qed.

(** C5, in its corrected form.  With [customTemplates] a non-empty array,
    no source endpoint is requested at any point of the run.  When every
    supplied element is an object whose name can be printed, and the setup
    has succeeded, the calls that follow are exactly these, element by
    element in the order supplied: the conversion of the element with its
    markup ([content], else [html], else the placeholder) as [source], then,
    when the converter returned, the creation of its asset; and the run
    answers 200 with a summary whose [totalAttempted] is the length of the
    supplied array and whose migrated and error entries add up to it. *)
Theorem C5_custom_mode_skips_fetch body (custom : list Item) (s : St W) :
  customTemplates body = CtArray custom ->
  custom <> [] ->
  (exists evs, log (POST env body s).2 = log s ++ evs /\ fetches evs = []) /\
  (forall tok s1 stok s2 folder s3,
      truthy (userId body) = true ->
      resolveHubspotToken env body s = (Val tok, s1) ->
      resolveSfmcToken env body s1 = (Val stok, s2) ->
      resolveFolder env body (sfmc_auth body stok) s2 = (Val folder, s3) ->
      forallb loggable custom = true ->
      exists sm w',
        POST env body s =
          ({| status := 200; payload := SummaryBody sm |},
           after s3 (concat (map (custom_calls env (sfmc_auth body stok) folder) custom))
                 w') /\
        totalAttempted sm = Some (length custom) /\
        templatesCount sm = length (migrated sm) /\
        (length (migrated sm) + errors_length sm = length custom)%nat) /\
  (forall auth folder item,
      loggable item = true ->
      exists t,
        item = Some t /\
        custom_markup t = Ok (custom_source t) /\
        custom_calls env auth folder item =
          EvConvert (with_source t (custom_source t)) ::
          match convertHubspotTemplate env (with_source t (custom_source t)) with
          | Ok cv =>
              [EvCreateEmailTemplate auth (get t "name") (cv_content cv) folder
                 (asset_meta cv)]
          | Fail _ => []
          end).
Proof.
  intros Hb Hne.
  assert (Hc : custom_list (customTemplates body) = Some custom).
  { rewrite Hb. destruct custom; [done | reflexivity]. }
  split; [| split; [| apply custom_calls_loggable]].
  - rewrite POST_state.
    destruct (handler_custom_emits body custom Hc s) as (evs & L & F).
    exists evs. split; [done |]. by apply fetches_none.
  - intros tok s1 stok s2 folder s3 Hu H1 H2 H3 Hl.
    apply stopper_forallb in Hl.
    rewrite POST_finish,
      (handler_reaches_migrate env body s tok s1 stok s2 folder s3) by assumption.
    unfold migrate. rewrite Hc, custom_mode_run, Hl, (processed_all _ Hl). simpl.
    eexists _, _. split; [reflexivity |].
    rewrite summary_errors_length. simpl.
    pose proof (custom_entries_weight env (sfmc_auth body stok) folder custom (world s3))
      as Hw.
    rewrite (processed_all _ Hl) in Hw. auto.
Qed.

End CustomMode.

(** C5 as stated does not hold: a non-empty [customTemplates] array does not
    always lead to a summary.  With the array [[null]] the log line at the
    head of the loop body throws on reading [template.name], the one at the
    head of the catch block throws again, and the run ends with a 500 after
    the setup calls: nothing is converted and there is no [totalAttempted]. *)
Lemma C5_null_element_ends_in_500 :
  POST (scripted (base_script all_down)) (with_custom base_body (CtArray [None])) start =
    (json_error 500 "Failed to migrate email templates"
       (Some (JStr "Cannot read properties of null (reading 'name')")),
     after start
       [ EvGetIntegrationTokens (JStr "user-1") "hubspot";
         EvGetIntegrationTokens (JStr "user-1") "sfmc";
         EvGetSFMCFolders demo_auth ] 3%nat).
Proof. vm_compute. reflexivity. Qed.

Lemma C5_custom_mode_skips_fetch_witness :
  exists sm w',
    POST (scripted (base_script all_down))
         (with_custom base_body (CtArray [Some promo; Some name_only; Some broken])) start =
      ({| status := 200; payload := SummaryBody sm |},
       after (after start
                [ EvGetIntegrationTokens (JStr "user-1") "hubspot";
                  EvGetIntegrationTokens (JStr "user-1") "sfmc";
                  EvGetSFMCFolders demo_auth ] 3%nat)
         [ EvConvert (with_source promo (JStr "<p>hi</p>"));
           EvCreateEmailTemplate demo_auth (JStr "Promo") (JStr "<p>hi</p>") (JNum 7)
             (asset_meta (passed (JStr "<p>hi</p>")));
           EvConvert (with_source name_only (JStr "<p>Template: Bare</p>"));
           EvCreateEmailTemplate demo_auth (JStr "Bare") (JStr "<p>Template: Bare</p>")
             (JNum 7) (asset_meta (passed (JStr "<p>Template: Bare</p>")));
           EvConvert (with_source broken (JStr "<p>x</p>"));
           EvCreateEmailTemplate demo_auth (JStr "Broken") (JStr "<p>x</p>") (JNum 7)
             (asset_meta (passed (JStr "<p>x</p>"))) ] w') /\
    totalAttempted sm = Some 3%nat.
Proof.
  pose proof (C5_custom_mode_skips_fetch (scripted (base_script all_down))
                (with_custom base_body (CtArray [Some promo; Some name_only; Some broken]))
                [Some promo; Some name_only; Some broken] start eq_refl
                ltac:(discriminate))
    as (_ & H & _).
  destruct (H _ _ _ _ _ _ eq_refl eq_refl eq_refl eq_refl eq_refl)
    as (sm & w' & HP & Ht & _).
  exists sm, w'. split; [exact HP | exact Ht].
Defined.

(** ** C6: folder resolution *)

Section FolderResolution.
Context {W : Type} (env : Collaborators W).





End FolderResolution.


(** ** C8: the limit *)

Lemma slice0_nonneg {A} (l : list A) (n : Z) :
  0 <= n -> slice0 l n = take (Z.to_nat n) l.
Proof.
  intros Hn. unfold slice0.
  destruct (Z.ltb_spec n 0) as [? | _]; [lia |].
  destruct (Z.le_gt_cases n (Z.of_nat (length l))) as [Hle | Hgt].
  - by rewrite Z.min_l.
  - rewrite Z.min_r by lia. rewrite Nat2Z.id.
    rewrite !take_ge; [done | lia | lia].
Qed.

Lemma processed_length l : (length (processed l) <= length l)%nat.
Proof. apply prefix_length, processed_prefix. Qed.

Section Limit.
Context {W : Type} (env : Collaborators W).

(** An element makes at most one conversion and at most one creation. *)
Lemma conversion_calls_count auth folder t markup :
  (length (converted (conversion_calls env auth folder t markup)) <= 1)%nat /\
  (length (created (conversion_calls env auth folder t markup)) <= 1)%nat /\
  Forall (fun ev => phase ev = Migrating) (conversion_calls env auth folder t markup).
Proof.
  unfold conversion_calls.
  destruct (convertHubspotTemplate env (with_source t markup)); simpl;
    repeat split; auto.
Qed.

Lemma fetch_calls_count auth folder l :
  (length (converted (concat (map (fetch_calls env auth folder) l))) <= length l)%nat /\
  (length (created (concat (map (fetch_calls env auth folder) l))) <= length l)%nat /\
  Forall (fun ev => phase ev = Migrating) (concat (map (fetch_calls env auth folder) l)).
Proof.
  induction l as [| item l (IH1 & IH2 & IH3)]; simpl; [repeat split; auto |].
  unfold converted, created in *. rewrite !omap_app, !length_app.
  assert (H : (length (converted (fetch_calls env auth folder item)) <= 1)%nat /\
              (length (created (fetch_calls env auth folder item)) <= 1)%nat /\
              Forall (fun ev => phase ev = Migrating) (fetch_calls env auth folder item)).
  { destruct item as [t |]; simpl; [| repeat split; auto].
    destruct (_ && _); [apply conversion_calls_count | repeat split; simpl; auto]. }
  destruct H as (H1 & H2 & H3). unfold converted, created in *.
  repeat split; [lia | lia | by apply Forall_app_2].
Qed.

(** C8, in its corrected form.  In fetch mode with a limit that is not
    negative (10 when the request has none), the templates attempted are the
    first [limit] of the fetched list.  The cut comes after the fetch and
    before any conversion: up to the end of the fetch the run converts and
    creates nothing; after it the run requests no endpoint and makes exactly
    the calls of the elements among those first [limit] that the loop gets
    through (a conversion and, when it returns, a creation, for an element
    whose id prints and that has markup), so it converts and creates at most
    [limit] times.  When the name of each of them can be read and printed,
    the loop gets through all of them and the summary reports their number
    as [totalAttempted]; otherwise the run ends with a 500 at the first
    whose name cannot. *)
Theorem C8_limit_truncation body (s : St W) tok s1 stok s2 folder s3 l s5 :
  0 <= default 10 (limit body) ->
  truthy (userId body) = true ->
  resolveHubspotToken env body s = (Val tok, s1) ->
  resolveSfmcToken env body s1 = (Val stok, s2) ->
  resolveFolder env body (sfmc_auth body stok) s2 = (Val folder, s3) ->
  custom_list (customTemplates body) = None ->
  createHubspotClient env tok = Ok () ->
  fetchHubspotTemplates env tok (after s3 [EvCreateHubspotClient tok] (world s3))
    = (Val (FetchedList l), s5) ->
  l <> [] ->
  let n := Z.to_nat (default 10 (limit body)) in
  let evs :=
    concat (map (fetch_calls env (sfmc_auth body stok) folder) (processed (take n l))) in
  (limit body = None -> n = 10%nat) /\
  templateToMigrate body l = take n l /\
  Z.of_nat (length (templateToMigrate body l)) <= default 10 (limit body) /\
  (exists evs0, log s5 = log s ++ evs0 /\ converted evs0 = [] /\ created evs0 = []) /\
  (exists w', (POST env body s).2 = after s5 evs w') /\
  fetches evs = [] /\
  (length (converted evs) <= n)%nat /\
  (length (created evs) <= n)%nat /\
  match stopper (take n l) with
  | None =>
      processed (take n l) = take n l /\
      exists sm,
        (POST env body s).1 = {| status := 200; payload := SummaryBody sm |} /\
        totalAttempted sm = Some (length (take n l))
  | Some item =>
      (POST env body s).1 =
        json_error 500 "Failed to migrate email templates"
                   (Some (JStr (err_message (log_error item))))
  end.
Proof.
  intros Hlim Hu H1 H2 H3 Hc Hk Hf Hne n evs.
  assert (Ht : templateToMigrate body l = take n l)
    by (unfold templateToMigrate; by rewrite slice0_nonneg).
  assert (Hn : (length (take n l) <= n)%nat) by (rewrite length_take; lia).
  split; [intros Hl; subst n; by rewrite Hl |]. split; [exact Ht |].
  split; [rewrite Ht; subst n; lia |].
  assert (HP : POST env body s =
               finish (migrate_fetched env body (sfmc_auth body stok) folder l s5)).
  { rewrite POST_finish,
      (handler_reaches_migrate env body s tok s1 stok s2 folder s3) by assumption.
    unfold migrate. rewrite Hc, fetch_mode_unfold, Hk, Hf. reflexivity. }
  rewrite migrate_fetched_run in HP. destruct l as [| item0 l0]; [done |].
  rewrite Ht in HP. fold evs in HP.
  destruct (fetch_calls_count (sfmc_auth body stok) folder (processed (take n (item0 :: l0))))
    as (C1 & C2 & C3). fold evs in C1, C2, C3.
  pose proof (processed_length (take n (item0 :: l0))) as Hpl.
  split.
  { destruct (setup_log env body s tok s1 stok s2 folder s3 H1 H2 H3) as (e0 & L0 & F0).
    destruct (fetchHubspotTemplates_emits env tok
                (after s3 [EvCreateHubspotClient tok] (world s3))) as (e1 & L1 & F1).
    rewrite Hf in L1. simpl in L1.
    exists (e0 ++ [EvCreateHubspotClient tok] ++ e1).
    assert (F : Forall (fun ev => phase ev <> Migrating)
                       (e0 ++ [EvCreateHubspotClient tok] ++ e1)).
    { repeat apply Forall_app_2.
      - eapply Forall_impl; [exact F0 |]. by intros ev ->.
      - by repeat constructor.
      - eapply Forall_impl; [exact F1 |]. by intros ev ->. }
    split; [by rewrite L1, L0, <- !app_assoc |].
    split; [by apply converted_none | by apply created_none]. }
  split.
  { rewrite HP. destruct (stopper (take n (item0 :: l0))); simpl; eauto. }
  split.
  { apply fetches_none. eapply Forall_impl; [exact C3 |]. by intros ev ->. }
  split; [lia |]. split; [lia |].
  rewrite HP. destruct (stopper (take n (item0 :: l0))) eqn:Hs; simpl; [done |].
  split; [by apply processed_all |]. eauto.
Qed.

End Limit.

(** C8 as stated does not hold for a negative limit: with [limit = -1] and
    three fetched templates, [slice(0, -1)] keeps two of them, which is
    neither the first [-1] nor at most [-1], and the run reports
    [totalAttempted = 2]. *)
Lemma C8_negative_limit_drops_from_the_end :
  templateToMigrate negative_limit_body [Some promo; Some both_fields; Some design_only] =
    [Some promo; Some both_fields] /\
  ~ truncated_to_limit negative_limit_body [Some promo; Some both_fields; Some design_only]
      (templateToMigrate negative_limit_body
         [Some promo; Some both_fields; Some design_only]) /\
  match payload (POST (scripted (base_script (serves [promo; both_fields; design_only])))
                      negative_limit_body start).1 with
  | SummaryBody sm => totalAttempted sm = Some 2%nat
  | ErrorBody _ _ => False
  end.
Proof.
  split; [reflexivity |]. split; [| by vm_compute].
  intros [H _]. vm_compute in H. discriminate H.
Qed.

Lemma C8_limit_truncation_witness :
  templateToMigrate limit_two_body [Some promo; Some no_markup; Some design_only] =
    [Some promo; Some no_markup] /\
  (exists w',
      (POST (scripted (base_script (serves [promo; no_markup; design_only])))
            limit_two_body start).2 =
        after {| world := 4%nat;
                 log := [ EvGetIntegrationTokens (JStr "user-1") "hubspot";
                          EvGetIntegrationTokens (JStr "user-1") "sfmc";
                          EvGetSFMCFolders demo_auth;
                          EvCreateHubspotClient (JStr "hs-stored");
                          EvAxiosGet cms_url (JStr "hs-stored") ] |}
              [ EvConvert (with_source promo (JStr "<p>hi</p>"));
                EvCreateEmailTemplate demo_auth (JStr "Promo") (JStr "<p>hi</p>") (JNum 7)
                  (asset_meta (passed (JStr "<p>hi</p>"))) ] w') /\
  exists sm,
    (POST (scripted (base_script (serves [promo; no_markup; design_only])))
          limit_two_body start).1 = {| status := 200; payload := SummaryBody sm |} /\
    totalAttempted sm = Some 2%nat.
Proof.
  pose proof (C8_limit_truncation
                (scripted (base_script (serves [promo; no_markup; design_only])))
                limit_two_body start _ _ _ _ _ _
                [Some promo; Some no_markup; Some design_only] _
                ltac:(vm_compute; discriminate) eq_refl eq_refl eq_refl eq_refl
                eq_refl eq_refl eq_refl ltac:(discriminate))
    as (_ & Ht & _ & _ & HP & _ & _ & _ & Hsm).
  split; [exact Ht |]. split; [exact HP |]. exact (proj2 Hsm).
Defined.

(** ** C4: a failing item does not stop the loop *)

Section Isolation.
Context {W : Type} (env : Collaborators W).
Variables (auth : SfmcAuth) (folder : JValue).

Lemma loop_from_nil (body : Item -> Acc -> M W Acc)
    (entry : Item -> W -> Acc * W) (calls : Item -> list Event) l acc (s : St W) :
  (forall l acc s,
      for_each body l acc s =
        (match stopper l with
         | None => Val (extend acc (entries entry l (world s)).1)
         | Some item => Thrown (log_error item)
         end,
         after s (concat (map calls (processed l))) (entries entry l (world s)).2)) ->
  forallb loggable l = true ->
  exists acc2 s3,
    for_each body l ([], []) s = (Val acc2, s3) /\
    for_each body l acc s = (Val (extend acc acc2), s3).
Proof.
  intros Hrun Hl. apply stopper_forallb in Hl.
  rewrite !Hrun, Hl, extend_nil. eauto.
Qed.

(** C4, in its corrected form.  In both loops, for a template whose name
    can be printed: when conversion or asset creation of it throws, the
    error is caught and recorded as one error entry carrying the template's
    id (in custom mode its own [id], or, when that is missing or falsy, the
    generated one, "custom-" followed by the clock reading), its name, the
    error message and the status "error"; nothing is added to the migrated
    list for it.  The loop then goes on: the elements after it, when their
    names can be read and printed, are processed from the state the failed
    one left, exactly as they would be on their own, and their entries
    follow.  A loop over elements whose names can all be read and printed
    never throws; a loop that meets one whose name cannot throws there. *)
Theorem C4_item_failure_isolated (l1 l2 : list Item) (t : Template) (s : St W) :
  printable (get t "name") = true ->
  forallb loggable l2 = true ->
  (forall acc1 s1 e w',
      for_each (migrate_custom_element env auth folder) l1 ([], []) s = (Val acc1, s1) ->
      item_throws env auth folder t (custom_source t) (world s1) e w' ->
      let id := if truthy (get t "id") then get t "id"
                else JStr ("custom-" +:+ number_to_string (date_now env w').1) in
      let w2 := if truthy (get t "id") then w' else (date_now env w').2 in
      exists acc2 s3,
        for_each (migrate_custom_element env auth folder) l2 ([], [])
                 (after s1 (conversion_calls env auth folder t (custom_source t)) w2)
          = (Val acc2, s3) /\
        for_each (migrate_custom_element env auth folder) (l1 ++ Some t :: l2) ([], []) s =
          (Val (acc1.1 ++ acc2.1,
                acc1.2 ++
                {| er_kind := Custom; er_id := id; er_name := get t "name";
                   er_error := err_message e; er_status := "error" |} :: acc2.2),
           s3)) /\
  (forall acc1 s1 e w',
      for_each (migrate_element env auth folder) l1 ([], []) s = (Val acc1, s1) ->
      printable (get t "id") = true ->
      has_markup t = true ->
      item_throws env auth folder t (resolve_markup t) (world s1) e w' ->
      exists acc2 s3,
        for_each (migrate_element env auth folder) l2 ([], [])
                 (after s1 (conversion_calls env auth folder t (resolve_markup t)) w')
          = (Val acc2, s3) /\
        for_each (migrate_element env auth folder) (l1 ++ Some t :: l2) ([], []) s =
          (Val (acc1.1 ++ acc2.1,
                acc1.2 ++
                {| er_kind := Hubspot; er_id := get t "id"; er_name := get t "name";
                   er_error := err_message e; er_status := "error" |} :: acc2.2),
           s3)) /\
  (forall l acc s0,
      forallb loggable l = true ->
      (exists acc' s',
          for_each (migrate_custom_element env auth folder) l acc s0 = (Val acc', s')) /\
      (exists acc' s',
          for_each (migrate_element env auth folder) l acc s0 = (Val acc', s'))) /\
  (forall l acc s0,
      forallb loggable l = false ->
      (exists e s',
          for_each (migrate_custom_element env auth folder) l acc s0 = (Thrown e, s')) /\
      (exists e s',
          for_each (migrate_element env auth folder) l acc s0 = (Thrown e, s'))).
Proof.
  intros Hn Hl2. split; [| split; [| split]].
  - intros acc1 s1 e w' Hl1 Hthrow id w2.
    apply item_throws_result in Hthrow.
    set (s2 := after s1 (conversion_calls env auth folder t (custom_source t)) w2).
    assert (Hitem : forall acc,
               migrate_custom_item env auth folder t acc s1 =
                 (Val (acc.1, acc.2 ++ [custom_failure t id e]), s2)).
    { intros acc. rewrite migrate_custom_item_run by done.
      unfold custom_entry, custom_calls, custom_id_of. rewrite Hthrow. simpl.
      subst id w2 s2. destruct (truthy (get t "id")); simpl;
        unfold extend; simpl; by rewrite app_nil_r. }
    destruct (loop_from_nil (migrate_custom_element env auth folder) _ _ l2
                (acc1.1, acc1.2 ++ [custom_failure t id e]) s2
                (custom_loop_run env auth folder) Hl2) as (acc2 & s3 & Hnil & Hrun).
    exists acc2, s3. split; [exact Hnil |].
    rewrite for_each_app, Hl1. simpl. unfold bind.
    rewrite Hitem, Hrun. unfold extend; simpl.
    by rewrite <- (app_assoc acc1.2 [_] acc2.2).
  - intros acc1 s1 e w' Hl1 Hi Hm Hthrow.
    apply item_throws_result in Hthrow.
    set (s2 := after s1 (conversion_calls env auth folder t (resolve_markup t)) w').
    assert (Hitem : forall acc,
               migrate_item env auth folder t acc s1 =
                 (Val (acc.1, acc.2 ++ [hubspot_failure t e]), s2)).
    { intros acc. rewrite migrate_item_run by done.
      unfold fetch_entry, fetch_calls. rewrite Hi, Hm.
      destruct (print_printable _ Hi) as (text & _ & ->). rewrite Hthrow. simpl.
      unfold extend; simpl. by rewrite app_nil_r. }
    destruct (loop_from_nil (migrate_element env auth folder) _ _ l2
                (acc1.1, acc1.2 ++ [hubspot_failure t e]) s2
                (fetch_loop_run env auth folder) Hl2) as (acc2 & s3 & Hnil & Hrun).
    exists acc2, s3. split; [exact Hnil |].
    rewrite for_each_app, Hl1. simpl. unfold bind.
    rewrite Hitem, Hrun. unfold extend; simpl.
    by rewrite <- (app_assoc acc1.2 [_] acc2.2).
  - intros l acc s0 Hl. apply stopper_forallb in Hl.
    rewrite custom_loop_run, fetch_loop_run, Hl. split; eauto.
  - intros l acc s0 Hl. rewrite custom_loop_run, fetch_loop_run.
    destruct (stopper l) eqn:Hs; [split; eauto |].
    apply stopper_forallb in Hs. congruence.
Qed.

End Isolation.

(** C4 as stated does not hold: the failure of one element can end the run.
    With the supplied array [[null, promo]], reading [template.name] throws
    at the log line that opens the loop body, and again at the log line
    that opens the catch block; that second error leaves the loop, the run
    ends with a 500 after the setup calls, and the second element is never
    converted. *)
Lemma C4_null_element_ends_the_run :
  POST (scripted (base_script all_down))
       (with_custom base_body (CtArray [None; Some promo])) start =
    (json_error 500 "Failed to migrate email templates"
       (Some (JStr "Cannot read properties of null (reading 'name')")),
     after start
       [ EvGetIntegrationTokens (JStr "user-1") "hubspot";
         EvGetIntegrationTokens (JStr "user-1") "sfmc";
         EvGetSFMCFolders demo_auth ] 3%nat) /\
  for_each (migrate_custom_element (scripted (base_script all_down)) demo_auth (JNum 7))
           [None; Some promo] ([], []) start =
    (Thrown (null_read "name"), start).
Proof. split; vm_compute; reflexivity. Qed.

Lemma C4_item_failure_isolated_witness :
  (exists acc2 s3,
      for_each (migrate_custom_element (scripted (base_script all_down)) demo_auth (JNum 7))
               ([Some promo] ++ Some broken :: [Some name_only]) ([], []) start =
        (Val ([custom_success promo (JStr "custom-1700000000001") demo_asset] ++ acc2.1,
              [] ++ custom_failure broken (JNum 14) (plain_error "Asset name rejected")
                 :: acc2.2),
         s3)) /\
  (exists acc2 s3,
      for_each (migrate_element (scripted (base_script all_down)) demo_auth (JNum 7))
               ([Some both_fields] ++ Some broken :: [Some design_only]) ([], []) start =
        (Val ([hubspot_success both_fields demo_asset] ++ acc2.1,
              [] ++ hubspot_failure broken (plain_error "Asset name rejected") :: acc2.2),
         s3)).
Proof.
  pose proof (C4_item_failure_isolated (scripted (base_script all_down)) demo_auth (JNum 7))
    as H.
  split.
  - destruct (H [Some promo] [Some name_only] broken start eq_refl eq_refl) as (Hc & _).
    destruct (Hc _ _ (plain_error "Asset name rejected") 2%nat eq_refl
                (or_intror (ex_intro _ (passed (JStr "<p>x</p>")) (conj eq_refl eq_refl))))
      as (acc2 & s3 & _ & Hrun).
    exists acc2, s3. exact Hrun.
  - destruct (H [Some both_fields] [Some design_only] broken start eq_refl eq_refl)
      as (_ & Hf & _).
    destruct (Hf _ _ (plain_error "Asset name rejected") 2%nat eq_refl eq_refl eq_refl
                (or_intror (ex_intro _ (passed (JStr "<p>x</p>")) (conj eq_refl eq_refl))))
      as (acc2 & s3 & _ & Hrun).
    exists acc2, s3. exact Hrun.
Defined.

(** * The run as a whole *)

(** ** Logs along one run *)

Section EmitsAt.
Context {W : Type} (P : Event -> Prop).

Lemma emits_at_of_emits {A} (m : M W A) s : emits P m -> emits_at P m s.
Proof. intros H. apply H. Qed.

(** Only the values [m] really yields from [s] have to be followed. *)
Lemma emits_at_bind {A B} (m : M W A) (k : A -> M W B) s :
  emits_at P m s ->
  (forall a s', m s = (Val a, s') -> emits_at P (k a) s') ->
  emits_at P (bind m k) s.
Proof.
  intros (e1 & H1 & F1) Hk. unfold emits_at, bind.
  destruct (m s) as [[a | e | r] s1] eqn:E; simpl in *.
  - destruct (Hk a s1 eq_refl) as (e2 & H2 & F2).
    exists (e1 ++ e2). rewrite H2, H1, app_assoc. split; [done | by apply Forall_app].
  - exists e1. auto.
  - exists e1. auto.
Qed.

End EmitsAt.

Section Staged.
Context {W : Type}.

Lemma fetch_stage_phase evs : fetch_stage evs -> Forall (fun ev => phase ev = Fetching) evs.
Proof.
  intros [-> | (token & urls & _ & ->)]; [constructor |].
  constructor; [done |]. apply Forall_map. by apply Forall_true.
Qed.

Lemma staged_quiet {A} (m : M W A) : emits (fun _ => False) m -> staged m.
Proof.
  intros H s. destruct (H s) as (evs & L & F).
  destruct evs as [| ev evs]; [| by inversion F].
  exists [], [], []. rewrite L. repeat split; auto. by left.
Qed.

Lemma staged_setup_bind {A B} (m : M W A) (k : A -> M W B) :
  emits (fun ev => phase ev = Setup) m ->
  (forall a, staged (k a)) ->
  staged (bind m k).
Proof.
  intros Hm Hk s. unfold bind.
  destruct (Hm s) as (em & Lm & Fm).
  destruct (m s) as [[a | e | r] s1] eqn:E; simpl in *.
  - destruct (Hk a s1) as (e0 & e1 & e2 & L & F0 & F1 & F2).
    exists (em ++ e0), e1, e2. rewrite L, Lm, <- !app_assoc.
    repeat split; auto. by apply Forall_app.
  - exists em, [], []. rewrite Lm, !app_nil_r. repeat split; auto. by left.
  - exists em, [], []. rewrite Lm, !app_nil_r. repeat split; auto. by left.
Qed.

Lemma staged_migrating {A} (m : M W A) :
  emits (fun ev => phase ev = Migrating) m -> staged m.
Proof.
  intros H s. destruct (H s) as (evs & L & F).
  exists [], [], evs. rewrite L. repeat split; auto. by left.
Qed.

End Staged.

Section ReturnsOnly.
Context {W : Type} (G : Response -> Prop).

Lemma returns_only_ret {A} (a : A) : returns_only (W:=W) G (ret a).
Proof. intros s r s' H. discriminate H. Qed.

Lemma returns_only_throw {A} e : returns_only (W:=W) (A:=A) G (throw e).
Proof. intros s r s' H. discriminate H. Qed.

Lemma returns_only_respond {A} r : G r -> returns_only (W:=W) (A:=A) G (respond r).
Proof. intros Hr s r' s' [= <- _]. exact Hr. Qed.

Lemma returns_only_call {A} ev (f : W -> Outcome A * W) : returns_only G (call ev f).
Proof.
  intros s r s'. unfold call. destruct (f (world s)) as [[a | e] w']; discriminate.
Qed.

Lemma returns_only_bind {A B} (m : M W A) (k : A -> M W B) :
  returns_only G m -> (forall a, returns_only G (k a)) -> returns_only G (bind m k).
Proof.
  intros Hm Hk s r s'. unfold bind.
  destruct (m s) as [[a | e | r1] s1] eqn:E.
  - apply Hk.
  - discriminate.
  - intros [= <- <-]. eapply Hm, E.
Qed.

Lemma returns_only_try_catch {A} (m : M W A) (h : JsError -> M W A) :
  returns_only G m -> (forall e, returns_only G (h e)) -> returns_only G (try_catch m h).
Proof.
  intros Hm Hh s r s'. unfold try_catch.
  destruct (m s) as [[a | e | r1] s1] eqn:E.
  - discriminate.
  - apply Hh.
  - intros [= <- <-]. eapply Hm, E.
Qed.

End ReturnsOnly.

Ltac returns_tac :=
  repeat first
    [ apply returns_only_ret | apply returns_only_throw
    | apply returns_only_call
    | apply returns_only_bind; [| intros ?]
    | apply returns_only_try_catch; [| intros ?]
    | apply returns_only_respond
    | match goal with |- returns_only _ (if ?b then _ else _) => destruct b end
    | match goal with |- returns_only _ (match ?x with _ => _ end) => destruct x end ].

(** ** What the loops leave in the two lists *)

Lemma entries_follow_nil kind : entries_follow kind [] ([], []).
Proof. repeat split; simpl; auto. Qed.

Lemma entries_follow_success kind name m acc names :
  mr_name m = name -> mr_kind m = kind -> mr_status m = "success" ->
  entries_follow kind names acc ->
  entries_follow kind (name :: names) (extend ([m], []) acc).
Proof.
  intros <- Hk Hs (S1 & S2 & Pm & F1 & F2). unfold extend; simpl.
  split; [by apply sublist_skip |]. split; [by apply sublist_cons |].
  split; [by constructor |]. split; [by constructor | done].
Qed.

Lemma entries_follow_failure kind name e acc names :
  er_name e = name -> er_kind e = kind -> er_status e = "error" ->
  entries_follow kind names acc ->
  entries_follow kind (name :: names) (extend ([], [e]) acc).
Proof.
  intros <- Hk Hs (S1 & S2 & Pm & F1 & F2). unfold extend; simpl.
  split; [by apply sublist_cons |]. split; [by apply sublist_skip |].
  split.
  { symmetry. apply Permutation_cons_app. by symmetry. }
  split; [done | by constructor].
Qed.

Section Contributions.
Context {W : Type} (env : Collaborators W).
Variables (auth : SfmcAuth) (folder : JValue).

Lemma entries_cons (entry : Item -> W -> Acc * W) item l w :
  loggable item = true ->
  entries entry (item :: l) w =
    (extend (entry item w).1 (entries entry l (entry item w).2).1,
     (entries entry l (entry item w).2).2).
Proof. intros H. simpl. by rewrite H. Qed.

Lemma entries_stop (entry : Item -> W -> Acc * W) item l w :
  loggable item = false -> entries entry (item :: l) w = (([], []), w).
Proof. intros H. simpl. by rewrite H. Qed.

Lemma fetch_entry_cases t (w : W) :
  fetch_entry env auth folder (Some t) w =
    if printable (get t "id") then
      if has_markup t then
        (match (conversion_result env auth folder t (resolve_markup t) w).1 with
         | Ok result => ([hubspot_success t result], [])
         | Fail e => ([], [hubspot_failure t e])
         end, (conversion_result env auth folder t (resolve_markup t) w).2)
      else (([], []), w)
    else (([], [hubspot_failure t not_printable]), w).
Proof.
  unfold fetch_entry, printable, print. by destruct (to_string (get t "id")).
Qed.

(** The entries of a custom loop follow the elements it got through. *)
Lemma custom_entries_follow l (w : W) :
  entries_follow Custom (names (processed l))
    (entries (custom_entry env auth folder) l w).1.
Proof.
  revert w. induction l as [| item l IH]; intros w; [apply entries_follow_nil |].
  destruct (loggable item) eqn:E.
  2:{ rewrite entries_stop by done. simpl. rewrite E. apply entries_follow_nil. }
  rewrite entries_cons by done. cbn [processed]. rewrite E.
  destruct item as [t |]; [| done].
  change (names (Some t :: processed l)) with (get t "name" :: names (processed l)).
  specialize (IH (custom_entry env auth folder (Some t) w).2).
  cbn [fst]. unfold custom_entry at 1.
  destruct (conversion_result env auth folder t (custom_source t) w).1; cbn [fst].
  - by apply entries_follow_success.
  - by apply entries_follow_failure.
Qed.

(** Those of a fetch loop follow the ones that were not skipped. *)
Lemma fetch_entries_follow l (w : W) :
  entries_follow Hubspot
    (names (List.filter (fun item => negb (skipped item)) (processed l)))
    (entries (fetch_entry env auth folder) l w).1.
Proof.
  revert w. induction l as [| item l IH]; intros w; [apply entries_follow_nil |].
  destruct (loggable item) eqn:E.
  2:{ rewrite entries_stop by done. simpl. rewrite E. apply entries_follow_nil. }
  rewrite entries_cons by done. cbn [processed]. rewrite E.
  destruct item as [t |]; [| done].
  specialize (IH (fetch_entry env auth folder (Some t) w).2).
  cbn [fst List.filter]. unfold skipped at 1.
  rewrite (fetch_entry_cases t w) at 1.
  set (rest := names (List.filter (fun item => negb (skipped item)) (processed l))) in *.
  destruct (printable (get t "id")); cbn [andb negb].
  - destruct (has_markup t); cbn [negb fst].
    + change (names (Some t :: List.filter (fun item => negb (skipped item)) (processed l)))
        with (get t "name" :: rest).
      destruct (conversion_result env auth folder t (resolve_markup t) w).1; cbn [fst].
      * by apply entries_follow_success.
      * by apply entries_follow_failure.
    + rewrite extend_nil. exact IH.
  - change (names (Some t :: List.filter (fun item => negb (skipped item)) (processed l)))
      with (get t "name" :: rest).
    by apply entries_follow_failure.
Qed.

(** X1.  A loop over elements whose names can all be read and printed runs
    to its end and leaves one entry per element that was not skipped, in
    the order of the elements: every custom element, and every fetched
    element except those whose id prints and for which no markup is found,
    appears by name in exactly one of the two lists, successes with status
    "success" in [migrated], failures with status "error" in [errors]. *)
Theorem loops_keep_item_order (l : list Item) (s : St W) :
  forallb loggable l = true ->
  (exists acc s',
      for_each (migrate_custom_element env auth folder) l ([], []) s = (Val acc, s') /\
      entries_follow Custom (names l) acc) /\
  (exists acc s',
      for_each (migrate_element env auth folder) l ([], []) s = (Val acc, s') /\
      entries_follow Hubspot
        (names (List.filter (fun item => negb (skipped item)) l)) acc).
Proof.
  intros Hl. apply stopper_forallb in Hl. split.
  - rewrite custom_loop_run, Hl, extend_nil. eexists _, _. split; [reflexivity |].
    pose proof (custom_entries_follow l (world s)) as H.
    by rewrite (processed_all _ Hl) in H.
  - rewrite fetch_loop_run, Hl, extend_nil. eexists _, _. split; [reflexivity |].
    pose proof (fetch_entries_follow l (world s)) as H.
    by rewrite (processed_all _ Hl) in H.
Qed.

End Contributions.

Lemma loops_keep_item_order_witness :
  exists acc s',
    for_each (migrate_element (scripted (base_script all_down)) demo_auth (JNum 7))
             [Some both_fields; Some no_markup; Some broken] ([], []) start = (Val acc, s') /\
    entries_follow Hubspot [JStr "Both"; JStr "Broken"] acc.
Proof.
  exact (proj2 (loops_keep_item_order (scripted (base_script all_down)) demo_auth (JNum 7)
                  [Some both_fields; Some no_markup; Some broken] start eq_refl)).
Defined.

(** ** The shape of every response *)

Lemma returns_only_for_each {W A S} (G : Response -> Prop)
    (body : A -> S -> M W S) (l : list A) :
  (forall x acc, returns_only G (body x acc)) ->
  forall acc, returns_only G (for_each body l acc).
Proof.
  intros Hb. induction l as [| x l IH]; intros acc; simpl.
  - apply returns_only_ret.
  - apply returns_only_bind; auto.
Qed.

Lemma returns_only_read {W A} (G : Response -> Prop) (f : W -> A * W) :
  returns_only G (read f).
Proof. intros s r s'. unfold read. destruct (f (world s)). discriminate. Qed.

Lemma returns_only_of_outcome {W A} (G : Response -> Prop) (o : Outcome A) :
  returns_only (W:=W) G (of_outcome o).
Proof. destruct o; [apply returns_only_ret | apply returns_only_throw]. Qed.

Lemma summary_well_formed what acc n kind names :
  entries_follow kind names acc -> well_formed (json_ok (summary what acc n)).
Proof.
  intros (_ & _ & _ & F1 & F2). unfold well_formed; simpl.
  split; [done |]. split; [done |]. split; [done |]. split.
  - unfold errors_field. by destruct acc.2.
  - split.
    + eapply Forall_impl; [exact F1 |]. by intros m [_ ?].
    + unfold errors_field. destruct acc.2 as [| e errs] eqn:E; simpl; [constructor |].
      eapply Forall_impl; [exact F2 |]. by intros x [_ ?].
Qed.

Section Shape.
Context {W : Type} (env : Collaborators W).

Lemma convert_and_create_returns G auth folder t markup :
  returns_only G (convert_and_create env auth folder t markup).
Proof.
  unfold convert_and_create, call_sync.
  apply returns_only_bind; [| intros ?]; apply returns_only_call.
Qed.

Lemma custom_id_returns G t : returns_only G (custom_id env t).
Proof.
  unfold custom_id. destruct (truthy _); [apply returns_only_ret |].
  apply returns_only_bind; [apply returns_only_read | intros; apply returns_only_ret].
Qed.

Lemma migrate_custom_element_returns G auth folder item acc :
  returns_only G (migrate_custom_element env auth folder item acc).
Proof.
  destruct item as [t |]; simpl.
  - unfold migrate_custom_item.
    repeat first [ apply convert_and_create_returns | apply custom_id_returns
                 | apply returns_only_of_outcome | apply returns_only_ret
                 | apply returns_only_try_catch; [| intros ?]
                 | apply returns_only_bind; [| intros ?] ].
  - apply returns_only_try_catch; [| intros ?]; apply returns_only_throw.
Qed.

Lemma migrate_element_returns G auth folder item acc :
  returns_only G (migrate_element env auth folder item acc).
Proof.
  destruct item as [t |]; simpl.
  - unfold migrate_item. cbv zeta.
    apply returns_only_try_catch.
    + apply returns_only_bind; [apply returns_only_of_outcome | intros _].
      apply returns_only_bind; [apply returns_only_of_outcome | intros _].
      destruct (negb _); [apply returns_only_ret |].
      apply returns_only_bind;
        [apply convert_and_create_returns | intros; apply returns_only_ret].
    + intros e. apply returns_only_bind;
        [apply returns_only_of_outcome | intros; apply returns_only_ret].
  - apply returns_only_try_catch; [| intros ?]; apply returns_only_throw.
Qed.

Lemma handler_returns_well_formed body : returns_only well_formed (handler env body).
Proof.
  unfold handler, resolveHubspotToken, resolveSfmcToken, resolveFolder, migrate,
    custom_mode, fetch_mode, migrate_fetched, fetchHubspotTemplates, get_templates,
    call_sync.
  repeat first
    [ apply returns_only_ret | apply returns_only_throw
    | apply returns_only_call | apply returns_only_of_outcome
    | apply migrate_custom_element_returns | apply migrate_element_returns
    | apply returns_only_bind; [| intros ?]
    | apply returns_only_try_catch; [| intros ?]
    | apply returns_only_respond; unfold well_formed; simpl; auto
    | apply returns_only_for_each; intros ? ?
    | match goal with |- returns_only _ (if ?b then _ else _) => destruct b end
    | match goal with |- returns_only _ (match ?x with _ => _ end) => destruct x end ].
Qed.

Lemma migrate_values_well_formed body auth folder token (s : St W) r s' :
  migrate env body auth folder token s = (Val r, s') -> well_formed r.
Proof.
  unfold migrate. destruct (custom_list (customTemplates body)) as [custom |].
  - rewrite custom_mode_run.
    destruct (stopper custom); [discriminate |]. intros [= <- <-].
    eapply summary_well_formed, custom_entries_follow.
  - rewrite fetch_mode_unfold.
    destruct (createHubspotClient env token) as [[] | e]; [| discriminate].
    destruct (fetchHubspotTemplates env token _) as [[[l |] | e | r0] s1];
      [| discriminate | discriminate | discriminate].
    rewrite migrate_fetched_run. destruct l as [| item l].
    + intros [= <- <-]. unfold well_formed; simpl. repeat split; auto.
    + destruct (stopper _); [discriminate |]. intros [= <- <-].
      eapply summary_well_formed, fetch_entries_follow.
Qed.

(** X2.  Whatever the request and whatever the collaborators do, the
    response is either a 200 with a summary (success flag set, count equal
    to the number of migrated entries, every migrated entry marked
    "success", every error entry marked "error", and the error list left out
    rather than empty) or an error body with status 400 or 500; there is no
    summary under an error status and no error body under 200. *)
Theorem POST_response_shape body (s : St W) : well_formed (POST env body s).1.
Proof.
  rewrite POST_finish.
  destruct (handler env body s) as [[r | e | r] s'] eqn:E; simpl.
  - destruct (handler_cases env body s)
      as [(m & st & det & s1 & H) | [(e & s1 & H) |
          (tok & s1 & stok & s2 & f & s3 & _ & _ & _ & _ & H)]];
      rewrite H in E; [discriminate | discriminate |].
    eapply migrate_values_well_formed, E.
  - unfold well_formed; simpl. auto.
  - eapply handler_returns_well_formed, E.
Qed.

End Shape.

(** ** The order of the calls of a run *)

Section Order.
Context {W : Type} (env : Collaborators W).

Lemma fetch_chain_log token (s : St W) :
  exists urls,
    urls `prefix_of` endpoint_order /\
    log (fetchHubspotTemplates env token s).2 =
      log s ++ map (fun url => EvAxiosGet url token) urls.
Proof.
  destruct (printable token) eqn:Hp.
  - rewrite (fetch_chain env token s). cbv zeta. unfold requests. rewrite Hp.
    repeat match goal with
           | |- context [match ?x with Ok _ => _ | Fail _ => _ end] => destruct x
           end;
      match goal with
      | |- context [after s ?evs _] =>
          exists (fetches evs); split; [by eexists | reflexivity]
      end.
  - exists []. split; [apply prefix_nil |].
    rewrite fetch_unprintable by done. simpl. by rewrite app_nil_r.
Qed.

Lemma fetch_mode_staged body auth folder token :
  staged (fetch_mode env body auth folder token).
Proof.
  intros s. rewrite fetch_mode_unfold.
  destruct (createHubspotClient env token) as [[] | e].
  - set (s0 := after s [EvCreateHubspotClient token] (world s)).
    destruct (fetch_chain_log token s0) as (urls & Hp & Hl).
    assert (Hstage : fetch_stage
                       (EvCreateHubspotClient token :: map (fun url => EvAxiosGet url token) urls))
      by (right; eauto).
    destruct (fetchHubspotTemplates env token s0) as [[[l |] | e | r] s1]; simpl in Hl.
    + destruct (migrate_fetched_emits env body auth folder l s1) as (e2 & L2 & F2).
      eexists [], _, e2. split; [| split; [constructor | split; [exact Hstage |]]].
      * rewrite L2, Hl. unfold s0; simpl. by rewrite <- !app_assoc.
      * eapply Forall_impl; [exact F2 |]. by intros ev [? _].
    + eexists [], _, []. split; [| split; [constructor | split; [exact Hstage | constructor]]].
      simpl. rewrite Hl. unfold s0; simpl. by rewrite app_nil_r, <- app_assoc.
    + eexists [], _, []. split; [| split; [constructor | split; [exact Hstage | constructor]]].
      simpl. rewrite Hl. unfold s0; simpl. by rewrite app_nil_r, <- app_assoc.
    + eexists [], _, []. split; [| split; [constructor | split; [exact Hstage | constructor]]].
      simpl. rewrite Hl. unfold s0; simpl. by rewrite app_nil_r, <- app_assoc.
  - exists [], [EvCreateHubspotClient token], []. simpl.
    split; [done |]. split; [constructor |]. split; [| constructor].
    right. exists token, []. split; [apply prefix_nil | done].
Qed.

Lemma handler_staged body : staged (handler env body).
Proof.
  unfold handler. destruct (negb _).
  - apply staged_quiet, emits_respond.
  - apply staged_setup_bind; [apply resolveHubspotToken_emits | intros tok].
    apply staged_setup_bind; [apply resolveSfmcToken_emits | intros stok].
    apply staged_setup_bind; [apply resolveFolder_emits | intros f].
    unfold migrate. destruct (custom_list _) as [custom |].
    + apply staged_migrating. eapply emits_weaken; [| apply custom_mode_emits].
      by intros ev [? _].
    + apply fetch_mode_staged.
Qed.

(** X3.  The calls of a run come in three stretches, in this order: the
    setup calls (credential store, token exchange, folder listing and
    creation), then the source calls (client construction and endpoint
    requests), then the migration calls (conversions and asset creations).
    So no asset is created before the folder is resolved, and no endpoint is
    requested once conversion has begun. *)
Theorem POST_calls_in_phase_order body (s : St W) :
  exists e0 e1 e2,
    log (POST env body s).2 = log s ++ e0 ++ e1 ++ e2 /\
    Forall (fun ev => phase ev = Setup) e0 /\
    Forall (fun ev => phase ev = Fetching) e1 /\
    Forall (fun ev => phase ev = Migrating) e2.
Proof.
  rewrite POST_state.
  destruct (handler_staged body s) as (e0 & e1 & e2 & L & F0 & F1 & F2).
  exists e0, e1, e2. auto using fetch_stage_phase.
Qed.

Lemma fetches_requests token urls :
  fetches (EvCreateHubspotClient token :: map (fun url => EvAxiosGet url token) urls) = urls.
Proof. unfold fetches. simpl. induction urls; simpl; congruence. Qed.

(** X4.  The source endpoints a run requests are an initial stretch of the
    fixed order CMS v2, marketing v3, marketing v1, email public v1: each is
    requested at most once, never out of order, and never more than four
    requests are made, all carrying one and the same token. *)
Theorem POST_requests_endpoints_in_order body (s : St W) :
  exists evs,
    log (POST env body s).2 = log s ++ evs /\
    fetches evs `prefix_of` endpoint_order /\
    (length (fetches evs) <= 4)%nat /\
    exists token, Forall (fun t => t = token) (fetch_tokens evs).
Proof.
  rewrite POST_state.
  destruct (handler_staged body s) as (e0 & e1 & e2 & L & F0 & F1 & F2).
  exists (e0 ++ e1 ++ e2). split; [exact L |].
  assert (H0 : fetches e0 = [] /\ fetch_tokens e0 = []).
  { clear L. induction F0 as [| ev e0 Hev _ [IH1 IH2]]; [done |].
    unfold fetches, fetch_tokens in *. destruct ev; simpl in *; done. }
  assert (H2 : fetches e2 = [] /\ fetch_tokens e2 = []).
  { clear L. induction F2 as [| ev e2 Hev _ [IH1 IH2]]; [done |].
    unfold fetches, fetch_tokens in *. destruct ev; simpl in *; done. }
  destruct H0 as [H0 T0], H2 as [H2 T2].
  assert (Hf : fetches (e0 ++ e1 ++ e2) = fetches e1).
  { unfold fetches in *. by rewrite !omap_app, H0, H2, app_nil_r. }
  assert (Ht : fetch_tokens (e0 ++ e1 ++ e2) = fetch_tokens e1).
  { unfold fetch_tokens in *. by rewrite !omap_app, T0, T2, app_nil_r. }
  rewrite Hf, Ht.
  destruct F1 as [-> | (token & urls & Hp & ->)].
  - split; [apply prefix_nil |]. split; [simpl; lia |]. exists JUndefined. constructor.
  - rewrite fetches_requests. split; [exact Hp |]. split.
    + apply prefix_length in Hp. exact Hp.
    + exists token. unfold fetch_tokens. simpl. constructor; [done |].
      clear. induction urls as [| url urls IH]; simpl; [constructor |].
      by constructor.
Qed.

End Order.
(** ** Every call of a run *)

Section RunEvents.
Context {W : Type} (env : Collaborators W).

Lemma resolveHubspotToken_inline body (s : St W) :
  truthy (hubspotToken body) = true ->
  resolveHubspotToken env body s = (Val (hubspotToken body), s).
Proof. intros H. unfold resolveHubspotToken. by rewrite H. Qed.

Lemma resolved_folder_explicit body (s : St W) :
  truthy (folderId body) = true -> resolved_folder env body s = folderId body.
Proof.
  intros H. unfold resolved_folder. rewrite resolveFolder_explicit by done.
  by destruct (printable (folderId body)).
Qed.

Lemma resolveHubspotToken_run body tok stok folder :
  emits (run_event body tok stok folder) (resolveHubspotToken env body).
Proof.
  unfold resolveHubspotToken. destruct (truthy (hubspotToken body)) eqn:Ht.
  - apply emits_ret.
  - emits_tac. by constructor.
Qed.

Lemma resolveSfmcToken_run body tok stok folder :
  emits (run_event body tok stok folder) (resolveSfmcToken env body).
Proof.
  unfold resolveSfmcToken. destruct (inline_credentials body) as [c |] eqn:Hi.
  - emits_tac. by constructor.
  - emits_tac. by constructor.
Qed.

Lemma resolveFolder_run body tok stok folder :
  emits (run_event body tok stok folder)
        (resolveFolder env body (sfmc_auth body stok)).
Proof.
  unfold resolveFolder. destruct (truthy (folderId body)) eqn:Hf.
  - emits_tac.
  - emits_tac; by constructor.
Qed.

Lemma convert_and_create_run_events body tok stok folder t markup :
  emits (run_event body tok stok folder)
        (convert_and_create env (sfmc_auth body stok) folder t markup).
Proof. unfold convert_and_create, asset_meta. emits_tac; constructor. Qed.

Lemma migrate_run body tok stok folder :
  emits (run_event body tok stok folder)
        (migrate env body (sfmc_auth body stok) folder tok).
Proof.
  unfold migrate. destruct (custom_list (customTemplates body)) as [custom |] eqn:Hc.
  - unfold custom_mode. apply emits_bind; [| intros; apply emits_ret].
    apply emits_for_each. intros [t |] acc; simpl.
    + unfold migrate_custom_item.
      repeat first [ apply convert_and_create_run_events | apply custom_id_emits
                   | apply emits_of_outcome
                   | apply emits_try_catch; [| intros ?]
                   | apply emits_bind; [| intros ?] | apply emits_ret ].
    + apply emits_try_catch; [| intros ?]; apply emits_throw.
  - unfold fetch_mode.
    apply emits_bind; [apply emits_call_sync; by constructor | intros _].
    apply emits_bind.
    + apply emits_try_catch; [| intros; apply emits_respond].
      unfold fetchHubspotTemplates, get_templates.
      emits_tac; constructor; auto; unfold endpoint_order; set_solver.
    + intros [l |]; [| apply emits_throw].
      unfold migrate_fetched. destruct (_ =? _)%nat; [apply emits_ret |].
      apply emits_bind; [| intros; apply emits_ret].
      apply emits_for_each. intros [t |] acc; simpl.
      * unfold migrate_item. cbv zeta.
        apply emits_try_catch.
        -- apply emits_bind; [apply emits_of_outcome | intros _].
           apply emits_bind; [apply emits_of_outcome | intros _].
           destruct (negb _); [apply emits_ret |].
           apply emits_bind;
             [apply convert_and_create_run_events | intros; apply emits_ret].
        -- intros e. apply emits_bind; [apply emits_of_outcome | intros; apply emits_ret].
      * apply emits_try_catch; [| intros ?]; apply emits_throw.
Qed.

(** The calls of the handler from [s], with the values the setup resolves
    from [s]. *)
Lemma handler_run_events body (s : St W) :
  emits_at (run_event body (resolved_source_token env body s)
              (resolved_destination_token env body s) (resolved_folder env body s))
           (handler env body) s.
Proof.
  unfold handler. destruct (negb _); [apply emits_at_of_emits, emits_respond |].
  apply emits_at_bind; [apply emits_at_of_emits, resolveHubspotToken_run |].
  intros a s1 E1.
  assert (a = resolved_source_token env body s) as ->
    by (unfold resolved_source_token; by rewrite E1).
  apply emits_at_bind; [apply emits_at_of_emits, resolveSfmcToken_run |].
  intros a s2 E2.
  assert (a = resolved_destination_token env body s) as ->
    by (unfold resolved_destination_token; rewrite E1; simpl; by rewrite E2).
  apply emits_at_bind; [apply emits_at_of_emits, resolveFolder_run |].
  intros a s3 E3.
  assert (a = resolved_folder env body s) as ->.
  { unfold resolved_folder. rewrite E1. simpl. rewrite E2. simpl. by rewrite E3. }
  apply emits_at_of_emits, migrate_run.
Qed.

(** X5.  Every call a run makes is one of nine kinds, made with the
    arguments the handler fixes for it: one source token for the client and
    every endpoint request (the request's [hubspotToken] when it has one),
    one destination credential object for every destination call, one
    folder for every asset creation (the request's [folderId] when it has
    one), and the asset type "template" with id 4; these are the values the
    setup resolved.  A store is consulted only for the side whose
    credentials the request does not carry, and the folders are listed or
    created only when no [folderId] is given; the source is called only
    outside custom mode. *)
Theorem POST_calls_are_run_events body (s : St W) :
  exists tok stok folder evs,
    log (POST env body s).2 = log s ++ evs /\
    Forall (run_event body tok stok folder) evs /\
    (truthy (hubspotToken body) = true -> tok = hubspotToken body) /\
    (truthy (folderId body) = true -> folder = folderId body) /\
    (forall t s1 st s2 f s3,
        resolveHubspotToken env body s = (Val t, s1) ->
        tok = t /\
        (resolveSfmcToken env body s1 = (Val st, s2) ->
         stok = st /\
         (resolveFolder env body (sfmc_auth body st) s2 = (Val f, s3) ->
          folder = f))).
Proof.
  exists (resolved_source_token env body s), (resolved_destination_token env body s),
    (resolved_folder env body s).
  destruct (handler_run_events body s) as (evs & L & F).
  exists evs. rewrite POST_state.
  split; [exact L |]. split; [exact F |]. split; [| split].
  - intros Ht. unfold resolved_source_token. by rewrite resolveHubspotToken_inline.
  - apply resolved_folder_explicit.
  - intros t s1 st s2 f s3 E1.
    split; [unfold resolved_source_token; by rewrite E1 |]. intros E2.
    assert (Hst : resolved_destination_token env body s = st)
      by (unfold resolved_destination_token; rewrite E1; simpl; by rewrite E2).
    split; [exact Hst |]. intros E3.
    unfold resolved_folder. rewrite Hst, E1. simpl. rewrite E2. simpl. by rewrite E3.
Qed.

End RunEvents.

(** ** Credentials and folder taken from the request *)

Lemma Forall_omap_of {A B} (f : A -> option B) (P : A -> Prop) (Q : B -> Prop) l :
  Forall P l -> (forall x y, P x -> f x = Some y -> Q y) -> Forall Q (omap f l).
Proof.
  intros F H. induction F as [| x l Hx _ IH]; [constructor |].
  simpl. destruct (f x) as [y |] eqn:E; [constructor; eauto | exact IH].
Qed.

Lemma omap_none_of {A B} (f : A -> option B) (P : A -> Prop) l :
  Forall P l -> (forall x, P x -> f x = None) -> omap f l = [].
Proof.
  intros F H. induction F as [| x l Hx _ IH]; [done |].
  simpl. by rewrite (H x Hx).
Qed.

Lemma not_elem_of_Forall {A} (x : A) l : Forall (fun y => y <> x) l -> x ∉ l.
Proof. rewrite Forall_forall. intros H Hin. by apply (H x Hin). Qed.

Section FromRequest.
Context {W : Type} (env : Collaborators W).

(** X6.  One source token serves the whole run.  When the request carries
    a [hubspotToken], the credential store is never asked for the source
    system and the client and every endpoint request are given exactly that
    token; otherwise they are given the [accessToken] the store holds, and
    when the store holds none or cannot be read no source call is made. *)
Theorem source_token_use body (s : St W) :
  exists evs,
    log (POST env body s).2 = log s ++ evs /\
    if truthy (hubspotToken body)
    then ("hubspot" ∉ store_lookups evs) /\
         Forall (fun t => t = hubspotToken body) (fetch_tokens evs)
    else
      match getIntegrationTokens env (userId body) "hubspot" (world s) with
      | (Ok (Some stored), _) =>
          Forall (fun t => t = accessToken stored) (fetch_tokens evs)
      | _ => fetch_tokens evs = []
      end.
Proof.
  destruct (handler_run_events env body s) as (evs & L & F).
  rewrite <- POST_state in L.
  set (tok := resolved_source_token env body s) in *.
  assert (Htok : truthy (hubspotToken body) = true -> tok = hubspotToken body).
  { intros Ht. unfold tok, resolved_source_token. by rewrite resolveHubspotToken_inline. }
  assert (Hres : forall t s1, resolveHubspotToken env body s = (Val t, s1) -> tok = t).
  { intros t s1 E1. unfold tok, resolved_source_token. by rewrite E1. }
  exists evs. split; [exact L |].
  assert (Ftok : Forall (fun t => t = tok) (fetch_tokens evs)).
  { eapply Forall_omap_of; [exact F |].
    intros ev t Hev Hp. inversion Hev; subst; simpl in Hp; congruence. }
  destruct (truthy (hubspotToken body)) eqn:Ht.
  - rewrite <- (Htok eq_refl). split; [| exact Ftok].
    apply not_elem_of_Forall. eapply Forall_omap_of; [exact F |].
    intros ev p Hev Hp. inversion Hev; subst; simpl in Hp; congruence.
  - destruct (truthy (userId body)) eqn:Hu.
    2:{ unfold POST, handler in L. rewrite Hu in L. simpl in L.
        rewrite <- (app_nil_r (log s)) in L at 1. apply app_inv_head in L. subst evs.
        by repeat case_match. }
    destruct (getIntegrationTokens env (userId body) "hubspot" (world s))
      as [[[stored |] | e] w'] eqn:Hg.
    + assert (E1 : resolveHubspotToken env body s =
                   (Val (accessToken stored),
                    after s [EvGetIntegrationTokens (userId body) "hubspot"] w')).
      { unfold resolveHubspotToken. rewrite Ht. unfold try_catch, bind, call.
        by rewrite Hg. }
      rewrite <- (Hres _ _ E1). exact Ftok.
    + rewrite POST_state in L. unfold handler in L. rewrite Hu in L. cbn [negb] in L.
      unfold bind at 1, resolveHubspotToken in L. rewrite Ht in L.
      unfold try_catch, bind, call in L. rewrite Hg in L. simpl in L.
      apply app_inv_head in L. by subst evs.
    + rewrite POST_state in L. unfold handler in L. rewrite Hu in L. cbn [negb] in L.
      unfold bind at 1, resolveHubspotToken in L. rewrite Ht in L.
      unfold try_catch, bind, call in L. rewrite Hg in L. simpl in L.
      apply app_inv_head in L. by subst evs.
Qed.

(** X7.  When the request carries complete destination credentials (client
    id, client secret and subdomain all non-empty), the credential store is
    never asked for the destination system and every token exchange is made
    with exactly those credentials; when it does not, no token exchange is
    made at all. *)
Theorem inline_destination_credentials_are_used body (s : St W) :
  exists evs,
    log (POST env body s).2 = log s ++ evs /\
    match sfmcCredentials body with
    | Some c =>
        if truthy (clientId c) && truthy (clientSecret c) && truthy (subdomain c)
        then ("sfmc" ∉ store_lookups evs) /\
             Forall (fun x => x = c) (token_exchanges evs)
        else token_exchanges evs = []
    | None => token_exchanges evs = []
    end.
Proof.
  destruct (handler_run_events env body s) as (evs & L & F).
  rewrite <- POST_state in L.
  exists evs. split; [exact L |]. clear L.
  assert (Hsome : forall c, inline_credentials body = Some c ->
             ("sfmc" ∉ store_lookups evs) /\
             Forall (fun x => x = c) (token_exchanges evs)).
  { intros c Hc. split.
    - apply not_elem_of_Forall. eapply Forall_omap_of; [exact F |].
      intros ev p Hev Hp. inversion Hev; subst; simpl in Hp; congruence.
    - eapply Forall_omap_of; [exact F |].
      intros ev p Hev Hp. inversion Hev; subst; simpl in Hp; congruence. }
  assert (Hnone : inline_credentials body = None -> token_exchanges evs = []).
  { intros Hc. eapply omap_none_of; [exact F |].
    intros ev Hev. inversion Hev; subst; simpl; congruence. }
  unfold inline_credentials in *.
  destruct (sfmcCredentials body) as [c |]; [| by apply Hnone].
  destruct (truthy (clientId c) && truthy (clientSecret c) && truthy (subdomain c));
    [by apply Hsome | by apply Hnone].
Qed.

(** X8.  When the request carries a [folderId], the destination folders are
    neither listed nor created, and every asset creation of the run goes
    into exactly that folder. *)
Theorem explicit_folder_is_used body (s : St W) :
  truthy (folderId body) = true ->
  exists evs,
    log (POST env body s).2 = log s ++ evs /\
    folder_calls evs = [] /\
    Forall (fun f => f = folderId body) (creation_folders evs).
Proof.
  intros Hf.
  destruct (handler_run_events env body s) as (evs & L & F).
  rewrite <- POST_state in L.
  rewrite (resolved_folder_explicit env body s Hf) in F.
  exists evs. split; [exact L |]. clear L. split.
  - induction F as [| ev evs Hev _ IH]; [done |].
    unfold folder_calls in *. inversion Hev; subst; simpl; congruence.
  - eapply Forall_omap_of; [exact F |].
    intros ev p Hev Hp. inversion Hev; subst; simpl in Hp; congruence.
Qed.

End FromRequest.

Lemma explicit_folder_is_used_witness :
  exists evs,
    log (POST (scripted (base_script (serves [promo]))) inline_body start).2 =
      log start ++ evs /\
    folder_calls evs = [] /\
    Forall (fun f => f = JStr "folder-42") (creation_folders evs).
Proof.
  exact (explicit_folder_is_used (scripted (base_script (serves [promo])))
           inline_body start eq_refl).
Defined.

Lemma POST_calls_are_run_events_witness :
  exists tok stok folder evs,
    log (POST (scripted (base_script (serves [promo]))) inline_body start).2 =
      log start ++ evs /\
    Forall (run_event inline_body tok stok folder) evs /\
    tok = JStr "hs-inline" /\ folder = JStr "folder-42".
Proof.
  destruct (POST_calls_are_run_events (scripted (base_script (serves [promo])))
              inline_body start) as (tok & stok & folder & evs & L & F & Ht & Hf & _).
  exists tok, stok, folder, evs.
  split; [exact L |]. split; [exact F |]. split; [exact (Ht eq_refl) | exact (Hf eq_refl)].
Defined.

(** ** Runs that end early *)

Section EarlyEnds.
Context {W : Type} (env : Collaborators W).

(** X9.  With complete inline credentials the destination token is what the
    token exchange returns for them; if the exchange throws, the run ends at
    once with 400 "Failed to authenticate with SFMC using provided
    credentials." and without falling back to the credential store. *)
Theorem token_exchange_decides body (s : St W) c tok s1 :
  truthy (userId body) = true ->
  inline_credentials body = Some c ->
  resolveHubspotToken env body s = (Val tok, s1) ->
  match getSFMCToken env c (world s1) with
  | (Ok tokenResponse, w') =>
      resolveSfmcToken env body s1 =
        (Val (accessToken tokenResponse), after s1 [EvGetSFMCToken c] w')
  | (Fail _, w') =>
      POST env body s =
        (json_error 400
           "Failed to authenticate with SFMC using provided credentials." None,
         after s1 [EvGetSFMCToken c] w')
  end.
Proof.
  intros Hu Hi H1.
  destruct (getSFMCToken env c (world s1)) as [[t | e] w'] eqn:Hg.
  - unfold resolveSfmcToken. rewrite Hi. unfold try_catch, bind, call. by rewrite Hg.
  - apply POST_early. unfold handler. rewrite Hu. cbn [negb].
    unfold bind at 1. rewrite H1. unfold bind at 1.
    unfold resolveSfmcToken. rewrite Hi. unfold try_catch, bind, call. by rewrite Hg.
Qed.

(** X10.  Without a [folderId], a failure to list the destination folders
    ends the run at once with the 400 folder response: no folder is created
    and nothing is fetched or migrated. *)
Theorem folder_listing_failure_aborts body (s : St W) tok s1 stok s2 e w3 :
  truthy (userId body) = true ->
  truthy (folderId body) = false ->
  resolveHubspotToken env body s = (Val tok, s1) ->
  resolveSfmcToken env body s1 = (Val stok, s2) ->
  getSFMCFolders env (sfmc_auth body stok) (world s2) = (Fail e, w3) ->
  POST env body s =
    (folder_failed, after s2 [EvGetSFMCFolders (sfmc_auth body stok)] w3).
Proof.
  intros Hu Hf H1 H2 Hl. apply POST_early.
  unfold handler. rewrite Hu. cbn [negb]. unfold bind. rewrite H1, H2.
  unfold resolveFolder. rewrite Hf. unfold try_catch, bind, call. by rewrite Hl.
Qed.

(** X11.  In fetch mode, if building the source client throws, the run ends
    with 500 "Failed to migrate email templates" carrying the error's
    message; no endpoint is requested. *)
Theorem client_failure_is_a_500 body (s : St W) tok s1 stok s2 folder s3 e :
  truthy (userId body) = true ->
  resolveHubspotToken env body s = (Val tok, s1) ->
  resolveSfmcToken env body s1 = (Val stok, s2) ->
  resolveFolder env body (sfmc_auth body stok) s2 = (Val folder, s3) ->
  custom_list (customTemplates body) = None ->
  createHubspotClient env tok = Fail e ->
  POST env body s =
    (json_error 500 "Failed to migrate email templates" (Some (JStr (err_message e))),
     after s3 [EvCreateHubspotClient tok] (world s3)).
Proof.
  intros Hu H1 H2 H3 Hc Hk.
  rewrite POST_finish,
    (handler_reaches_migrate env body s tok s1 stok s2 folder s3) by assumption.
  unfold migrate. rewrite Hc, fetch_mode_unfold, Hk. reflexivity.
Qed.

(** X12.  In fetch mode, when the first endpoint answers with a body that
    holds no templates (a bare array, an object without [objects], or an
    object whose [objects] is empty), that is a success: the run answers 200
    "No email templates found in HubSpot" with [templatesCount] 0 and no
    [totalAttempted], requests no other endpoint and converts nothing.  (The
    endpoint is requested when the token can be printed into the header.) *)
Theorem empty_answer_is_success body (s : St W) tok s1 stok s2 folder s3 d w :
  truthy (userId body) = true ->
  resolveHubspotToken env body s = (Val tok, s1) ->
  resolveSfmcToken env body s1 = (Val stok, s2) ->
  resolveFolder env body (sfmc_auth body stok) s2 = (Val folder, s3) ->
  custom_list (customTemplates body) = None ->
  createHubspotClient env tok = Ok () ->
  printable tok = true ->
  axios_get env cms_url tok (world s3) = (Ok d, w) ->
  (exists items, d = DataArray items) \/
  (exists results, d = DataObject None results) \/
  (exists results, d = DataObject (Some []) results) ->
  POST env body s =
    (json_ok no_templates,
     after s3 [EvCreateHubspotClient tok; EvAxiosGet cms_url tok] w).
Proof.
  intros Hu H1 H2 H3 Hc Hk Hp Hg Hd.
  rewrite POST_finish,
    (handler_reaches_migrate env body s tok s1 stok s2 folder s3) by assumption.
  unfold migrate. rewrite Hc, fetch_mode_unfold, Hk.
  rewrite (fetch_chain env tok (after s3 [EvCreateHubspotClient tok] (world s3))).
  cbv zeta. unfold attempt, requests. rewrite Hp.
  destruct (print_printable _ Hp) as (text & _ & ->). simpl world. rewrite Hg.
  assert (Hr : read_objects d = Ok (FetchedList [])).
  { destruct Hd as [(items & ->) | [(r & ->) | (r & ->)]]; reflexivity. }
  simpl. rewrite Hr. simpl. by rewrite after_after.
Qed.

End EarlyEnds.

Lemma token_exchange_decides_witness :
  POST (scripted exchange_refused_script) inline_body start =
    (json_error 400 "Failed to authenticate with SFMC using provided credentials." None,
     after start [EvGetSFMCToken inline_creds] 1%nat).
Proof.
  exact (token_exchange_decides (scripted exchange_refused_script) inline_body start
           inline_creds (JStr "hs-inline") start eq_refl eq_refl eq_refl).
Defined.

Lemma folder_listing_failure_aborts_witness :
  POST (scripted folders_down_script) base_body start =
    (folder_failed,
     after {| world := 2%nat;
              log := [ EvGetIntegrationTokens (JStr "user-1") "hubspot";
                       EvGetIntegrationTokens (JStr "user-1") "sfmc" ] |}
           [EvGetSFMCFolders demo_auth] 3%nat).
Proof.
  exact (folder_listing_failure_aborts (scripted folders_down_script) base_body start
           (JStr "hs-stored") {| world := 1%nat;
                                 log := [EvGetIntegrationTokens (JStr "user-1") "hubspot"] |}
           (JStr "sfmc-stored") _ (plain_error "403") 3%nat
           eq_refl eq_refl eq_refl eq_refl eq_refl).
Defined.

Lemma client_failure_is_a_500_witness :
  (POST (scripted client_down_script) base_body start).1 =
    json_error 500 "Failed to migrate email templates" (Some (JStr "bad token")).
Proof.
  rewrite (client_failure_is_a_500 (scripted client_down_script) base_body start
             _ _ _ _ _ _ (plain_error "bad token")
             eq_refl eq_refl eq_refl eq_refl eq_refl eq_refl).
  reflexivity.
Defined.

Lemma empty_answer_is_success_witness :
  (POST (scripted (base_script (serves []))) base_body start).1 = json_ok no_templates.
Proof.
  rewrite (empty_answer_is_success (scripted (base_script (serves []))) base_body start
             _ _ _ _ _ _ (DataObject (Some []) (Some [])) 4%nat
             eq_refl eq_refl eq_refl eq_refl eq_refl eq_refl eq_refl eq_refl
             (or_intror (or_intror (ex_intro _ (Some []) eq_refl)))).
  reflexivity.
Defined.

(** ** Conversions and creations *)

Lemma conversions_app {W} (env : Collaborators W) auth folder evs1 evs2 :
  conversions env auth folder evs1 ->
  conversions env auth folder evs2 ->
  conversions env auth folder (evs1 ++ evs2).
Proof.
  induction 1; intros H2; simpl; [done | |].
  - eapply conversions_failed; eauto.
  - apply conversions_created; auto.
Qed.

Section Conversions.
Context {W : Type} (env : Collaborators W).
Variables (auth : SfmcAuth) (folder : JValue).

Lemma conversion_calls_conversions t markup :
  conversions env auth folder (conversion_calls env auth folder t markup).
Proof.
  unfold conversion_calls.
  destruct (convertHubspotTemplate env (with_source t markup)) as [cv | e] eqn:Ec.
  - apply conversions_created; [done | constructor].
  - eapply conversions_failed; [exact Ec | constructor].
Qed.

Lemma calls_conversions (calls : Item -> list Event) l :
  (forall item, conversions env auth folder (calls item)) ->
  conversions env auth folder (concat (map calls l)).
Proof.
  intros H. induction l as [| item l IH]; simpl; [constructor |].
  by apply conversions_app.
Qed.

(** X13.  In both loops every call is a conversion or an asset creation,
    and an asset creation is requested only right after the conversion of
    the same template returned: it is given that template's name, the
    folder of the run, the content, channels and slots the converter
    returned, and the asset type "template" with id 4.  A conversion that
    throws is followed by no creation. *)
Theorem creations_follow_conversions (l : list Item) acc (s : St W) :
  (exists evs,
      log (for_each (migrate_custom_element env auth folder) l acc s).2 = log s ++ evs /\
      conversions env auth folder evs) /\
  (exists evs,
      log (for_each (migrate_element env auth folder) l acc s).2 = log s ++ evs /\
      conversions env auth folder evs).
Proof.
  split.
  - rewrite custom_loop_run. eexists. split; [reflexivity |].
    apply calls_conversions. intros [t |]; simpl; [| constructor].
    apply conversion_calls_conversions.
  - rewrite fetch_loop_run. eexists. split; [reflexivity |].
    apply calls_conversions. intros [t |]; simpl; [| constructor].
    destruct (_ && _); [apply conversion_calls_conversions | constructor].
Qed.

End Conversions.

(** ** What custom mode does not look at *)

Section CustomIgnores.
Context {W : Type} (env : Collaborators W).

(** X14.  In custom mode [limit] plays no part: with a non-empty
    [customTemplates] array the run is the same whatever [limit] the request
    carries, so every supplied item is attempted. *)
Theorem custom_mode_ignores_limit body (lim : option Z) (s : St W) t custom :
  customTemplates body = CtArray (t :: custom) ->
  POST env (with_limit body lim) s = POST env body s.
Proof.
  destruct body as [u h c l f ct]. simpl. intros ->. reflexivity.
Qed.

Lemma get_with_other_source (t : Template) v k :
  k <> "source" -> get (<["source" := v]> t) k = get t k.
Proof. intros Hk. unfold get. by rewrite lookup_insert_ne. Qed.

(** X15.  In custom mode the markup comes from [content] or [html] only: a
    [source] the supplied item may carry is overwritten before the converter
    sees it, so the item is processed exactly as if it had none (and gets
    the placeholder when it has neither [content] nor [html]). *)
Theorem custom_mode_ignores_source auth folder (t : Template) v acc (s : St W) :
  migrate_custom_item env auth folder (<["source" := v]> t) acc s =
  migrate_custom_item env auth folder t acc s.
Proof.
  assert (Hn : get (<["source" := v]> t) "name" = get t "name")
    by (by apply get_with_other_source).
  assert (Hm : custom_markup (<["source" := v]> t) = custom_markup t).
  { unfold custom_markup. by rewrite !get_with_other_source. }
  assert (Hs : forall m, with_source (<["source" := v]> t) m = with_source t m).
  { intros m. unfold with_source. apply insert_insert_eq. }
  assert (Hcalls : custom_calls env auth folder (Some (<["source" := v]> t)) =
                   custom_calls env auth folder (Some t)).
  { unfold custom_calls, conversion_calls, custom_source. by rewrite Hm, Hs, Hn. }
  assert (Hentry : forall w,
             custom_entry env auth folder (Some (<["source" := v]> t)) w =
             custom_entry env auth folder (Some t) w).
  { intros w.
    unfold custom_entry, conversion_result, custom_source, custom_id_of,
      custom_success, custom_failure.
    rewrite Hm, Hs, Hn. by rewrite get_with_other_source. }
  destruct (printable (get t "name")) eqn:Hp.
  - rewrite !migrate_custom_item_run by (by rewrite ?Hn). by rewrite Hcalls, Hentry.
  - by rewrite !migrate_custom_item_stops by (by rewrite ?Hn).
Qed.

End CustomIgnores.

Lemma custom_mode_ignores_limit_witness :
  POST (scripted (base_script all_down))
       (with_limit (with_custom base_body (CtArray [Some promo; Some name_only])) (Some 1))
       start =
  POST (scripted (base_script all_down))
       (with_custom base_body (CtArray [Some promo; Some name_only])) start.
Proof.
  exact (custom_mode_ignores_limit (scripted (base_script all_down))
           (with_custom base_body (CtArray [Some promo; Some name_only])) (Some 1) start
           (Some promo) [Some name_only] eq_refl).
Defined.

(** ** The truncation *)

(** X16.  The templates attempted in fetch mode are always an initial
    stretch of the fetched list, in the fetched order: [min limit length]
    of them for a limit that is not negative, all but the last [-limit] for
    a negative one (none when that is more than there are). *)
Theorem truncation_is_a_prefix body (l : list Item) :
  let lim := default 10 (limit body) in
  templateToMigrate body l `prefix_of` l /\
  length (templateToMigrate body l) =
    if lim <? 0 then Nat.sub (length l) (Z.to_nat (Z.opp lim))
    else Nat.min (Z.to_nat lim) (length l).
Proof.
  intros lim. unfold templateToMigrate, slice0. fold lim.
  split; [apply prefix_take |].
  rewrite length_take.
  destruct (Z.ltb_spec lim 0); lia.
Qed.

(** ** An answer without a body *)

Section Bodiless.
Context {W : Type} (env : Collaborators W).

(** X17.  An answer without a body ([undefined] or [null]) is read
    differently along the chain.  On the first endpoint it counts as a
    failure (reading [objects] of it throws) and the second endpoint is
    requested; on the third endpoint, whose body is taken as it is, it
    counts as an empty list, so the chain ends there with no templates and
    the fourth endpoint is not requested.  (The endpoints are requested
    when the token can be printed into the header.) *)
Theorem bodiless_answers token (s : St W) :
  printable token = true ->
  (forall d w1,
      axios_get env cms_url token (world s) = (Ok d, w1) ->
      d = DataUndefined \/ d = DataNull ->
      exists evs,
        log (fetchHubspotTemplates env token s).2 =
          log s ++ EvAxiosGet cms_url token :: EvAxiosGet v3_url token :: evs) /\
  (forall e1 w1 e2 w2 d w3,
      axios_get env cms_url token (world s) = (Fail e1, w1) ->
      axios_get env v3_url token w1 = (Fail e2, w2) ->
      axios_get env v1_url token w2 = (Ok d, w3) ->
      d = DataUndefined \/ d = DataNull ->
      fetchHubspotTemplates env token s =
        (Val (FetchedList []),
         after s [EvAxiosGet cms_url token; EvAxiosGet v3_url token;
                  EvAxiosGet v1_url token] w3)).
Proof.
  intros Hp. destruct (print_printable _ Hp) as (text & _ & Hprint).
  split.
  - intros d w1 Hg Hd. rewrite (fetch_chain env token s). cbv zeta.
    unfold attempt, requests. rewrite Hp, Hprint, Hg. simpl.
    assert (Hr : exists e, read_objects d = Fail e)
      by (destruct Hd as [-> | ->]; eexists; reflexivity).
    destruct Hr as (e & ->).
    repeat match goal with
           | |- context [match ?x with Ok _ => _ | Fail _ => _ end] => destruct x
           end; simpl; eauto.
  - intros e1 w1 e2 w2 d w3 H1 H2 H3 Hd. rewrite (fetch_chain env token s). cbv zeta.
    unfold attempt, requests. rewrite Hp, Hprint, H1. simpl. rewrite H2. simpl.
    rewrite H3. simpl.
    assert (Hr : read_bare d = Ok (FetchedList []))
      by (destruct Hd as [-> | ->]; reflexivity).
    by rewrite Hr.
Qed.

End Bodiless.

Lemma bodiless_answers_witness :
  (exists evs,
      log (fetchHubspotTemplates (scripted (base_script bodiless_first))
             (JStr "hs-stored") start).2 =
        log start ++ EvAxiosGet cms_url (JStr "hs-stored")
                  :: EvAxiosGet v3_url (JStr "hs-stored") :: evs) /\
  fetchHubspotTemplates (scripted (base_script bodiless_third)) (JStr "hs-stored") start =
    (Val (FetchedList []),
     after start [EvAxiosGet cms_url (JStr "hs-stored"); EvAxiosGet v3_url (JStr "hs-stored");
                  EvAxiosGet v1_url (JStr "hs-stored")] 3%nat).
Proof.
  split.
  - exact (proj1 (bodiless_answers (scripted (base_script bodiless_first))
                    (JStr "hs-stored") start eq_refl)
                 DataNull 1%nat eq_refl (or_intror eq_refl)).
  - exact (proj2 (bodiless_answers (scripted (base_script bodiless_third))
                    (JStr "hs-stored") start eq_refl)
                 (http_error "cms down" (JStr "cms-body")) 1%nat
                 (http_error "v3 down" (JStr "v3-body")) 2%nat
                 DataUndefined 3%nat eq_refl eq_refl eq_refl (or_introl eq_refl)).
Defined.

(** ** The setup calls *)

Section Shapes.
Context {W : Type}.

Lemma emits_shape_bind {A B} (S1 S2 : list Event -> Prop)
    (m : M W A) (k : A -> M W B) :
  emits_shape S1 m -> S2 [] -> (forall a, emits_shape S2 (k a)) ->
  emits_shape (fun evs => exists e1 e2, evs = e1 ++ e2 /\ S1 e1 /\ S2 e2) (bind m k).
Proof.
  intros Hm H0 Hk s. unfold bind.
  destruct (Hm s) as (e1 & L1 & P1).
  destruct (m s) as [[a | e | r] s1] eqn:E; simpl in *.
  - destruct (Hk a s1) as (e2 & L2 & P2).
    exists (e1 ++ e2). rewrite L2, L1, app_assoc. eauto 6.
  - exists e1. split; [done |]. exists e1, []. by rewrite app_nil_r.
  - exists e1. split; [done |]. exists e1, []. by rewrite app_nil_r.
Qed.

Lemma emits_shape_of_emits {A} (P : Event -> Prop) (m : M W A) :
  emits P m -> emits_shape (Forall P) m.
Proof. intros H s. apply H. Qed.

End Shapes.

Section SetupCalls.
Context {W : Type} (env : Collaborators W).

Lemma resolveHubspotToken_shape body :
  emits_shape (source_setup body) (resolveHubspotToken env body).
Proof.
  intros s. unfold resolveHubspotToken, source_setup.
  destruct (truthy (hubspotToken body)) eqn:Ht.
  - exists []. simpl. rewrite app_nil_r. auto.
  - exists [EvGetIntegrationTokens (userId body) "hubspot"].
    unfold try_catch, bind, call.
    destruct (getIntegrationTokens env (userId body) "hubspot" (world s))
      as [[[t |] | e] w']; simpl; auto.
Qed.

Lemma resolveSfmcToken_shape body :
  emits_shape (destination_setup body) (resolveSfmcToken env body).
Proof.
  intros s. unfold resolveSfmcToken, destination_setup.
  destruct (inline_credentials body) as [c |].
  - exists [EvGetSFMCToken c]. unfold try_catch, bind, call.
    destruct (getSFMCToken env c (world s)) as [[t | e] w']; simpl; eauto.
  - exists [EvGetIntegrationTokens (userId body) "sfmc"].
    unfold try_catch, bind, call.
    destruct (getIntegrationTokens env (userId body) "sfmc" (world s))
      as [[[t |] | e] w']; simpl; auto.
Qed.

Lemma resolveFolder_shape body auth :
  emits_shape (folder_setup body) (resolveFolder env body auth).
Proof.
  intros s. unfold folder_setup.
  destruct (truthy (folderId body)) eqn:Hf.
  - exists []. rewrite resolveFolder_explicit by done. simpl.
    rewrite app_nil_r. auto.
  - rewrite resolveFolder_listed by done.
    destruct (getSFMCFolders env auth (world s)) as [[items | e] w']; simpl.
    + destruct (List.find is_content_builder items) as [root |]; simpl.
      * destruct (List.find (is_hubspot_child root) items) as [hf |]; simpl.
        -- eexists. split; [reflexivity |]. right. split; [done |]. eauto.
        -- destruct (createSFMCFolder env auth "HubSpot Templates" (folder_id root) w')
             as [[nf | e] w'']; simpl;
             (eexists; split; [reflexivity |]; right; split; [done |]; eauto).
      * eexists. split; [reflexivity |]. right. split; [done |]. eauto.
    + eexists. split; [reflexivity |]. right. split; [done |]. eauto.
Qed.


(** X18.  The setup makes at most four calls, in a fixed order: at most one
    lookup of the source credentials (none when the request carries a
    token), then at most one token exchange or one lookup of the destination
    credentials, then at most one listing of the folders followed by at most
    one creation of a "HubSpot Templates" folder (neither when the request
    carries a [folderId]); every later call belongs to the fetch or the
    migration.  A request without a [userId] is answered 400 "User ID is
    required" with no call at all. *)
Theorem setup_calls_in_order body (s : St W) :
  (exists e_source e_destination e_folder rest,
      log (POST env body s).2 =
        log s ++ e_source ++ e_destination ++ e_folder ++ rest /\
      source_setup body e_source /\
      destination_setup body e_destination /\
      folder_setup body e_folder /\
      Forall (fun ev => phase ev <> Setup) rest) /\
  (truthy (userId body) = false ->
   POST env body s = (json_error 400 "User ID is required" None, s)).
Proof.
  split.
  2:{ intros Hu. unfold POST, handler. by rewrite Hu. }
  rewrite POST_state. unfold handler. destruct (negb _).
  { exists [], [], [], []. simpl. rewrite app_nil_r. repeat split; by left || constructor. }
  pose proof (emits_shape_bind (source_setup body) _ _ _
    (resolveHubspotToken_shape body)
    (ex_intro _ [] (ex_intro _ [] (conj eq_refl (conj (or_introl eq_refl)
       (ex_intro _ [] (ex_intro _ [] (conj eq_refl (conj (or_introl eq_refl)
          (Forall_nil_2 _)))))))))
    (fun tok => emits_shape_bind (destination_setup body) _ _ _
       (resolveSfmcToken_shape body)
       (ex_intro _ [] (ex_intro _ [] (conj eq_refl (conj (or_introl eq_refl)
          (Forall_nil_2 _)))))
       (fun stok => emits_shape_bind (folder_setup body) _ _ _
          (resolveFolder_shape body (sfmc_auth body stok))
          (Forall_nil_2 _)
          (fun f => emits_shape_of_emits _ _
             (emits_weaken _ (fun ev => phase ev <> Setup) _
                (fun ev H => proj1 H)
                (migrate_emits env body (sfmc_auth body stok) f tok)))))) as H.
  destruct (H s) as (evs & L & e1 & r1 & -> & S1 & e2 & r2 & -> & S2 & e3 & r3 & -> & S3 & F).
  exists e1, e2, e3, r3. auto.
Qed.

End SetupCalls.

Lemma setup_calls_in_order_witness :
  POST (scripted (base_script (serves [promo]))) anonymous_body start =
    (json_error 400 "User ID is required" None, start).
Proof.
  exact (proj2 (setup_calls_in_order (scripted (base_script (serves [promo])))
                  anonymous_body start) eq_refl).
Defined.
